(** * Stavily plugins: lifecycle, dispatch, trigger detection, action execution

    A shallow embedding of the four plugin programs

      - triggers/disk-space-monitor/disk_space_monitor.py
      - triggers/memory-monitor/memory_monitor.py
      - actions/shell-command/shell_command.py
      - actions/email-notification/email_notification.py

    Every plugin is one Python object with mutable fields, driven by a
    [main] loop that reads one JSON command per line.  The fields become a
    record, a method becomes a function from the record (and from what the
    method reads of the outside world: the clock, the metrics, the outcome
    of a subprocess or of an SMTP session) to its return value and the new
    record.  A method that raises returns [Raise e]. *)

From Stdlib Require Import ZArith QArith String Ascii List Bool Lia.
From stdpp Require Import base option list gmap strings.
Import ListNotations.
Local Open Scope Z_scope.
Set Warnings "-register-all".

(** ** Python values *)

(** A Python [float]: a finite value is carried as the rational it denotes
    (the rounding to 53 bits is not modelled), next to the two infinities
    and NaN, which [json.loads] accepts and [float("nan")] produces. *)
Inductive pyfloat :=
| FFin (q : Q)
| FInf (negative : bool)
| FNaN.

(** What [json.loads] returns.  A [dict] keeps its items in order; lookup
    takes the first item under a key.  A [string] stands for a Python
    [str], one [ascii] per character. *)
Inductive value :=
| VNone
| VBool (b : bool)
| VInt (z : Z)
| VFloat (f : pyfloat)
| VStr (s : string)
| VList (l : list value)
| VDict (d : list (string * value)).

(** The exceptions the modelled code can meet. *)
Inductive exn :=
| KeyError (key : string)
| AttributeError (obj : value) (attr : string)
| TypeError (what : string)
| ValueError (msg : string)
| OverflowError (msg : string)
| OSError (msg : string).

Inductive result (A : Type) :=
| Ret (a : A)
| Raise (e : exn).
Arguments Ret {A} a.
Arguments Raise {A} e.

Definition rbind {A B} (r : result A) (k : A -> result B) : result B :=
  match r with
  | Ret a => k a
  | Raise e => Raise e
  end.

Declare Scope result_scope.
Delimit Scope result_scope with result.
Notation "'let?' x ':=' r 'in' k" := (rbind r (fun x => k))
  (at level 10, x name, r at level 100, k at level 200) : result_scope.

(** ** The part of the Python library the plugins call

    These are functions of the interpreter and of its standard library,
    not of the repository; the development is parametric in them. *)
Record PyLib := {
  (** [json.loads]; [None] is [json.JSONDecodeError] *)
  json_loads : string -> option value;
  (** [str.strip] *)
  str_strip : string -> string;
  (** [str.lower] *)
  str_lower : string -> string;
  (** [float(s)] and [int(s)] on a [str] *)
  float_of_str : string -> result pyfloat;
  int_of_str : string -> result Z;
  (** [str(v)], as an f-string formats a value that is not a [str] *)
  repr : value -> string;
  (** [str(e)] on an exception *)
  exn_str : exn -> string;
  (** [shlex.split] *)
  shlex_split : string -> result (list string)
}.

(** ** Operations on values *)

Fixpoint assoc (k : string) (d : list (string * value)) : option value :=
  match d with
  | [] => None
  | (k', v) :: d' => if String.eqb k k' then Some v else assoc k d'
  end.

(** [v.get(k, dflt)] *)
Definition py_get (v : value) (k : string) (dflt : value) : result value :=
  match v with
  | VDict d => Ret (match assoc k d with Some x => x | None => dflt end)
  | _ => Raise (AttributeError v "get")
  end.

(** [v[k]] with a [str] key *)
Definition py_getitem (v : value) (k : string) : result value :=
  match v with
  | VDict d =>
      match assoc k d with
      | Some x => Ret x
      | None => Raise (KeyError k)
      end
  | VList _ => Raise (TypeError "list indices must be integers or slices, not str")
  | VStr _ => Raise (TypeError "string indices must be integers")
  | _ => Raise (TypeError "object is not subscriptable")
  end.

(** [s == v] for a [str] s *)
Definition str_eq (s : string) (v : value) : bool :=
  match v with
  | VStr s' => String.eqb s s'
  | _ => false
  end.

(** [pat in s] on two [str] *)
Fixpoint str_contains (pat s : string) : bool :=
  if String.prefix pat s then true
  else match s with
       | EmptyString => false
       | String _ s' => str_contains pat s'
       end.

(** [s in v] for a [str] s *)
Definition py_in (s : string) (v : value) : result bool :=
  match v with
  | VList l => Ret (existsb (str_eq s) l)
  | VDict d => Ret (match assoc s d with Some _ => true | None => false end)
  | VStr s' => Ret (str_contains s s')
  | _ => Raise (TypeError "argument is not iterable")
  end.

(** [bool(v)] *)
Definition truthy (v : value) : bool :=
  match v with
  | VNone => false
  | VBool b => b
  | VInt z => negb (z =? 0)
  | VFloat (FFin q) => negb (Qeq_bool q 0)
  | VFloat _ => true
  | VStr s => negb (String.eqb s "")
  | VList l => match l with [] => false | _ => true end
  | VDict d => match d with [] => false | _ => true end
  end.

(** [len(v)] *)
Definition py_len (v : value) : result Z :=
  match v with
  | VStr s => Ret (Z.of_nat (String.length s))
  | VList l => Ret (Z.of_nat (List.length l))
  | VDict d => Ret (Z.of_nat (List.length d))
  | _ => Raise (TypeError "object has no len()")
  end.

(** What [for x in v] visits *)
Definition py_iter (v : value) : result (list value) :=
  match v with
  | VList l => Ret l
  | VDict d => Ret (map (fun kv => VStr (fst kv)) d)
  | VStr s => Ret (map (fun c => VStr (String c EmptyString)) (list_ascii_of_string s))
  | _ => Raise (TypeError "object is not iterable")
  end.

(** Comparisons of floats: every comparison with NaN is false. *)
Definition fle (a b : pyfloat) : bool :=
  match a, b with
  | FNaN, _ | _, FNaN => false
  | FInf true, _ => true
  | _, FInf false => true
  | FInf false, _ => false
  | _, FInf true => false
  | FFin x, FFin y => Qle_bool x y
  end.

Definition flt (a b : pyfloat) : bool :=
  match a, b with
  | FNaN, _ | _, FNaN => false
  | _, _ => negb (fle b a)
  end.

Definition fge (a b : pyfloat) : bool := fle b a.
Definition fgt (a b : pyfloat) : bool := flt b a.

(** The largest magnitude of an [int] that [float()] converts; beyond it
    the conversion raises OverflowError. *)
Definition float_int_limit : Z := 2 ^ 1024 - 2 ^ 970.

Section Conversions.
Context (py : PyLib).

(** [float(v)] *)
Definition py_float (v : value) : result pyfloat :=
  match v with
  | VBool b => Ret (FFin (if b then 1 else 0)%Q)
  | VInt z =>
      if Z.abs z <? float_int_limit then Ret (FFin (inject_Z z))
      else Raise (OverflowError "int too large to convert to float")
  | VFloat f => Ret f
  | VStr s => float_of_str py s
  | _ => Raise (TypeError "float() argument must be a string or a real number")
  end.

(** [int(v)]: a float is truncated towards zero *)
Definition py_int (v : value) : result Z :=
  match v with
  | VBool b => Ret (if b then 1 else 0)
  | VInt z => Ret z
  | VFloat (FFin q) => Ret (Z.quot (Qnum q) (Zpos (Qden q)))
  | VFloat (FInf _) => Raise (OverflowError "cannot convert float infinity to integer")
  | VFloat FNaN => Raise (ValueError "cannot convert float NaN to integer")
  | VStr s => int_of_str py s
  | _ => Raise (TypeError "int() argument must be a string or a real number")
  end.

(** [f"{v}"] *)
Definition py_str (v : value) : string :=
  match v with
  | VStr s => s
  | _ => repr py v
  end.
End Conversions.

(** ** State and exceptions

    A method body that assigns fields and may raise: the assignments made
    before the exception stay. *)
Definition M (S A : Type) : Type := S -> result A * S.

Definition mret {S A} (a : A) : M S A := fun s => (Ret a, s).
Definition mraise {S A} (e : exn) : M S A := fun s => (Raise e, s).
Definition mlift {S A} (r : result A) : M S A := fun s => (r, s).
Definition mget {S} : M S S := fun s => (Ret s, s).
Definition mmodify {S} (f : S -> S) : M S unit := fun s => (Ret tt, f s).
Definition mbind {S A B} (m : M S A) (k : A -> M S B) : M S B :=
  fun s => match m s with
           | (Ret a, s') => k a s'
           | (Raise e, s') => (Raise e, s')
           end.

Declare Scope m_scope.
Delimit Scope m_scope with M.
Notation "'let*' x ':=' m 'in' k" := (mbind m (fun x => k))
  (at level 10, x name, m at level 100, k at level 200) : m_scope.
Notation "'exec' m 'in' k" := (mbind m (fun _ => k))
  (at level 10, m at level 100, k at level 200) : m_scope.

(** ** Lifecycle

    The four classes carry the same three fields and the same [start],
    [stop] and [get_status]. *)
Inductive pstatus := Stopped | Initialized | Running | Error.

Definition pstatus_str (p : pstatus) : string :=
  match p with
  | Stopped => "stopped"
  | Initialized => "initialized"
  | Running => "running"
  | Error => "error"
  end.

Record lifecycle := {
  running : bool;
  status : pstatus;
  start_time : option Z
}.

(** [__init__] *)
Definition lifecycle_init : lifecycle :=
  {| running := false; status := Stopped; start_time := None |}.

Definition set_status (p : pstatus) (l : lifecycle) : lifecycle :=
  {| running := running l; status := p; start_time := start_time l |}.

Module Lifecycle.
(** [start]: the [except] branch cannot be reached, nothing in the [try]
    raises. *)
Definition start (now : Z) (l : lifecycle) : bool * lifecycle :=
  if running l then (true, l)
  else (true, {| running := true; status := Running; start_time := Some now |}).

(** [stop] *)
Definition stop (l : lifecycle) : bool * lifecycle :=
  (true, {| running := false; status := Stopped; start_time := start_time l |}).
End Lifecycle.

(** The dict of [get_health]: the part that the four classes share (but
    ["last_check"], read from the clock, and ["error_count"], always 0),
    and the metrics of the class.  ["uptime"] is in microseconds. *)
Record health (Mt : Type) := {
  h_status : string;
  h_message : string;
  h_uptime : Z;
  h_metrics : Mt
}.
Arguments h_status {Mt} _.
Arguments h_message {Mt} _.
Arguments h_uptime {Mt} _.
Arguments h_metrics {Mt} _.

Definition mk_health {Mt} (now : Z) (l : lifecycle) (m : Mt) : health Mt :=
  {| h_status := if running l then "healthy" else "unhealthy";
     h_message := if running l then "Plugin is running normally"
                  else "Plugin is not running";
     h_uptime := match start_time l with Some t => now - t | None => 0 end;
     h_metrics := m |}.

(** ** Responses of the dispatcher

    The dict that [main] hands to [print(json.dumps(...))]; a key that is
    absent is [None]. *)
Record response (D : Type) := {
  r_action : option value;
  r_success : option bool;
  r_data : option D;
  r_error : option string
}.
Arguments r_action {D} _.
Arguments r_success {D} _.
Arguments r_data {D} _.
Arguments r_error {D} _.

(** [{"error": msg}] *)
Definition error_only {D} (msg : string) : response D :=
  {| r_action := None; r_success := None; r_data := None; r_error := Some msg |}.

(** [{"action": action, "success": ok}], with ["data"] or ["error"] *)
Definition reply {D} (action : value) (ok : bool) (d : option D) (e : option string)
  : response D :=
  {| r_action := Some action; r_success := Some ok; r_data := d; r_error := e |}.

Inductive line_outcome (D : Type) :=
| Break
| Emit (r : response D).
Arguments Break {D}.
Arguments Emit {D} r.

(** ** Time

    A [datetime] is the number of microseconds since some origin, and the
    difference of two is a [timedelta], a number of microseconds.
    [timedelta.total_seconds()] divides that [int] by [10**6]: the true
    division of two [int], which gives the float nearest to the quotient,
    a tie going to the even significand. *)

(** [n / d] to the nearest integer, a tie to the even one; [0 <= n] and
    [0 < d]. *)
Definition div_half_even (n d : Z) : Z :=
  let q := n / d in
  let r := n mod d in
  if 2 * r <? d then q
  else if d <? 2 * r then q + 1
  else if Z.even q then q else q + 1.

(** The float [a / 10**6] for [0 < a], as a rational.  The quotient is at
    least [10**-6], so with [2^80] for unit it is at least [2^52]; a float
    has 53 significant bits, so the quotient is rounded to a multiple of
    [2^g].  (No timedelta is large enough for the division to overflow.) *)
Definition true_divide_us (a : Z) : Q :=
  let g := Z.log2 (a * 2 ^ 80 / 1000000) - 52 in
  Qmake (div_half_even (a * 2 ^ 80) (1000000 * 2 ^ g) * 2 ^ g) (Z.to_pos (2 ^ 80)).

(** [delta.total_seconds()] *)
Definition total_seconds (delta : Z) : Q :=
  if delta =? 0 then 0%Q
  else if 0 <? delta then true_divide_us delta
  else Qopp (true_divide_us (- delta)).

(** [delta.total_seconds() >= c] for an [int] c: Python compares a float
    with an [int] by their exact values. *)
Definition total_seconds_ge (delta : Z) (c : Z) : bool :=
  Qle_bool (inject_Z c) (total_seconds delta).

(** * The disk space monitor (disk_space_monitor.py) *)
Module Disk.

(** An item of the list that [_get_disk_info] returns (the byte counts
    are left out).  That method reads the mounted filesystems through
    [psutil]; it catches every exception itself and always returns a
    list, which is taken here as read from the environment. *)
Record filesystem := {
  device : string;
  mountpoint : string;
  fstype : string;
  percent : Q;
  free_gb : Q
}.

(** The fields of [DiskSpaceMonitorPlugin] (but the logger). *)
Record state := {
  config : value;
  threshold : pyfloat;
  critical_threshold : pyfloat;
  interval : Z;
  monitored_paths : value;
  exclude_types : value;
  life : lifecycle;
  last_alert_time : gmap string Z;
  alert_cooldown : Z
}.

Definition set_config (v : value) (s : state) : state :=
  {| config := v; threshold := threshold s;
     critical_threshold := critical_threshold s; interval := interval s;
     monitored_paths := monitored_paths s; exclude_types := exclude_types s;
     life := life s; last_alert_time := last_alert_time s;
     alert_cooldown := alert_cooldown s |}.

Definition set_threshold (f : pyfloat) (s : state) : state :=
  {| config := config s; threshold := f;
     critical_threshold := critical_threshold s; interval := interval s;
     monitored_paths := monitored_paths s; exclude_types := exclude_types s;
     life := life s; last_alert_time := last_alert_time s;
     alert_cooldown := alert_cooldown s |}.

Definition set_critical_threshold (f : pyfloat) (s : state) : state :=
  {| config := config s; threshold := threshold s;
     critical_threshold := f; interval := interval s;
     monitored_paths := monitored_paths s; exclude_types := exclude_types s;
     life := life s; last_alert_time := last_alert_time s;
     alert_cooldown := alert_cooldown s |}.

Definition set_interval (z : Z) (s : state) : state :=
  {| config := config s; threshold := threshold s;
     critical_threshold := critical_threshold s; interval := z;
     monitored_paths := monitored_paths s; exclude_types := exclude_types s;
     life := life s; last_alert_time := last_alert_time s;
     alert_cooldown := alert_cooldown s |}.

Definition set_alert_cooldown (z : Z) (s : state) : state :=
  {| config := config s; threshold := threshold s;
     critical_threshold := critical_threshold s; interval := interval s;
     monitored_paths := monitored_paths s; exclude_types := exclude_types s;
     life := life s; last_alert_time := last_alert_time s;
     alert_cooldown := z |}.

Definition set_monitored_paths (v : value) (s : state) : state :=
  {| config := config s; threshold := threshold s;
     critical_threshold := critical_threshold s; interval := interval s;
     monitored_paths := v; exclude_types := exclude_types s;
     life := life s; last_alert_time := last_alert_time s;
     alert_cooldown := alert_cooldown s |}.

Definition set_exclude_types (v : value) (s : state) : state :=
  {| config := config s; threshold := threshold s;
     critical_threshold := critical_threshold s; interval := interval s;
     monitored_paths := monitored_paths s; exclude_types := v;
     life := life s; last_alert_time := last_alert_time s;
     alert_cooldown := alert_cooldown s |}.

Definition set_life (l : lifecycle) (s : state) : state :=
  {| config := config s; threshold := threshold s;
     critical_threshold := critical_threshold s; interval := interval s;
     monitored_paths := monitored_paths s; exclude_types := exclude_types s;
     life := l; last_alert_time := last_alert_time s;
     alert_cooldown := alert_cooldown s |}.

Definition set_last_alert_time (m : gmap string Z) (s : state) : state :=
  {| config := config s; threshold := threshold s;
     critical_threshold := critical_threshold s; interval := interval s;
     monitored_paths := monitored_paths s; exclude_types := exclude_types s;
     life := life s; last_alert_time := m;
     alert_cooldown := alert_cooldown s |}.

(** [__init__] *)
Definition init : state :=
  {| config := VDict [];
     threshold := FFin 85;
     critical_threshold := FFin 95;
     interval := 300;
     monitored_paths := VList [VStr "/"; VStr "/var"; VStr "/tmp"; VStr "/home"];
     exclude_types := VList [VStr "tmpfs"; VStr "devtmpfs"; VStr "proc"; VStr "sysfs"];
     life := lifecycle_init;
     last_alert_time := ∅;
     alert_cooldown := 600 |}.

Inductive alert_level := Critical | Warning.

Definition level_str (lv : alert_level) : string :=
  match lv with
  | Critical => "critical"
  | Warning => "warning"
  end.

(** The dict of [_create_disk_event], without the fields read from the
    clock and from [os.uname()]. *)
Record event := {
  ev_type : string;
  ev_source : string;
  ev_alert_level : string;
  ev_filesystem : filesystem;
  ev_threshold : pyfloat;
  ev_usage_percent : Q;
  ev_free_space_gb : Q;
  ev_tags : list string;
  ev_severity : string
}.

(** ["metrics"] of [get_health]. *)
Record metrics := {
  monitored_filesystems : Z;
  m_threshold : pyfloat;
  m_critical_threshold : pyfloat;
  highest_usage : Q;
  filesystems : list filesystem
}.

Inductive data :=
| DInfo
| DStatus (s : string)
| DHealth (h : health metrics)
| DEvent (e : option event)
| DTriggerConfig.

(** What one command reads of the outside world. *)
Record env := {
  now : Z;
  disk_info : list filesystem
}.

Section WithPy.
Context (py : PyLib).

(** [float(config.get(key, dflt))] and [int(config.get(key, dflt))] *)
Definition cfg_float (cfg : value) (key : string) (dflt : value) : result pyfloat :=
  rbind (py_get cfg key dflt) (py_float py).

Definition cfg_int (cfg : value) (key : string) (dflt : value) : result Z :=
  rbind (py_get cfg key dflt) (py_int py).

(** [if key in config: self.field = config[key]] *)
Definition assign_if_present (cfg : value) (key : string)
    (set : value -> state -> state) : M state unit :=
  (let* present := mlift (py_in key cfg) in
   if present : bool
   then let* v := mlift (py_getitem cfg key) in mmodify (set v)
   else mret tt)%M.

(** The [try] block of [initialize]. *)
Definition initialize_body (cfg : value) : M state unit :=
  (exec mmodify (set_config cfg) in
   let* t := mlift (cfg_float cfg "threshold" (VFloat (FFin 85))) in
   exec mmodify (set_threshold t) in
   let* c := mlift (cfg_float cfg "critical_threshold" (VFloat (FFin 95))) in
   exec mmodify (set_critical_threshold c) in
   let* i := mlift (cfg_int cfg "interval" (VInt 300)) in
   exec mmodify (set_interval i) in
   let* a := mlift (cfg_int cfg "alert_cooldown" (VInt 600)) in
   exec mmodify (set_alert_cooldown a) in
   exec assign_if_present cfg "monitored_paths" set_monitored_paths in
   exec assign_if_present cfg "exclude_types" set_exclude_types in
   let* s := mget in
   if negb (fle (FFin 0) (threshold s) && fle (threshold s) (FFin 100))
   then mraise (ValueError "Threshold must be between 0 and 100")
   else if negb (fle (FFin 0) (critical_threshold s)
                 && fle (critical_threshold s) (FFin 100))
   then mraise (ValueError "Critical threshold must be between 0 and 100")
   else if fge (threshold s) (critical_threshold s)
   then mraise (ValueError "Critical threshold must be higher than regular threshold")
   else if interval s <? 1
   then mraise (ValueError "Interval must be at least 1 second")
   else mret tt)%M.

(** [initialize] *)
Definition initialize (cfg : value) (s : state) : bool * state :=
  match initialize_body cfg s with
  | (Ret _, s') => (true, set_life (set_status Initialized (life s')) s')
  | (Raise _, s') => (false, set_life (set_status Error (life s')) s')
  end.

(** [start], [stop], [get_status] *)
Definition start (now : Z) (s : state) : bool * state :=
  let (ok, l) := Lifecycle.start now (life s) in (ok, set_life l s).

Definition stop (s : state) : bool * state :=
  let (ok, l) := Lifecycle.stop (life s) in (ok, set_life l s).

Definition get_status (s : state) : string := pstatus_str (status (life s)).

(** [max([fs["percent"] for fs in disk_info] + [0])] *)
Fixpoint max_percent (l : list filesystem) : Q :=
  match l with
  | [] => 0%Q
  | fs :: l' =>
      let m := max_percent l' in
      if Qle_bool m (percent fs) then percent fs else m
  end.

(** [get_health] *)
Definition get_health (e : env) (s : state) : health metrics :=
  mk_health (now e) (life s)
    {| monitored_filesystems := Z.of_nat (List.length (disk_info e));
       m_threshold := threshold s;
       m_critical_threshold := critical_threshold s;
       highest_usage := max_percent (disk_info e);
       filesystems := disk_info e |}.

(** [_should_alert] *)
Definition _should_alert (s : state) (alert_key : string) (current_time : Z) : bool :=
  match last_alert_time s !! alert_key with
  | None => true
  | Some last => total_seconds_ge (current_time - last) (alert_cooldown s)
  end.

(** [_create_disk_event] *)
Definition _create_disk_event (fs : filesystem) (lv : alert_level) (th : pyfloat)
  : event :=
  {| ev_type := "disk.space." +:+ level_str lv;
     ev_source := "disk-space-monitor";
     ev_alert_level := level_str lv;
     ev_filesystem := fs;
     ev_threshold := th;
     ev_usage_percent := percent fs;
     ev_free_space_gb := free_gb fs;
     ev_tags := ["system"; "disk"; "storage"; "filesystem"; level_str lv];
     ev_severity := match lv with Critical => "critical" | Warning => "high" end |}.

(** The alert level of a usage, with the threshold it crossed. *)
Definition classify (s : state) (usage : Q) : option (alert_level * pyfloat) :=
  if fge (FFin usage) (critical_threshold s) then Some (Critical, critical_threshold s)
  else if fge (FFin usage) (threshold s) then Some (Warning, threshold s)
  else None.

(** [f"{mountpoint}_{alert_level}"] *)
Definition alert_key (mp : string) (lv : alert_level) : string :=
  mp +:+ "_" +:+ level_str lv.

(** The [for] loop of [detect_triggers]: the event of the first
    filesystem that is over a threshold and not in cooldown, with its
    key.  No field changes before the loop returns. *)
Fixpoint scan (s : state) (now : Z) (l : list filesystem) : option (event * string) :=
  match l with
  | [] => None
  | fs :: rest =>
      match classify s (percent fs) with
      | None => scan s now rest
      | Some (lv, th) =>
          let key := alert_key (mountpoint fs) lv in
          if _should_alert s key now
          then Some (_create_disk_event fs lv th, key)
          else scan s now rest
      end
  end.

(** [detect_triggers]; nothing in its [try] raises. *)
Definition detect_triggers (e : env) (s : state) : option event * state :=
  if negb (running (life s)) then (None, s)
  else match scan s (now e) (disk_info e) with
       | Some (ev, key) =>
           (Some ev, set_last_alert_time (<[key := now e]> (last_alert_time s)) s)
       | None => (None, s)
       end.

(** The body of the outer [try] of [main], after [json.loads]. *)
Definition dispatch (command : value) (e : env) (s : state)
  : result (response data) * state :=
  match py_get command "action" VNone with
  | Raise x => (Raise x, s)
  | Ret action =>
      if str_eq "get_info" action then
        (Ret (reply action true (Some DInfo) None), s)
      else if str_eq "initialize" action then
        match py_get command "config" (VDict []) with
        | Raise x => (Raise x, s)
        | Ret cfg =>
            let (ok, s') := initialize cfg s in
            (Ret (reply action ok None None), s')
        end
      else if str_eq "start" action then
        let (ok, s') := start (now e) s in (Ret (reply action ok None None), s')
      else if str_eq "stop" action then
        let (ok, s') := stop s in (Ret (reply action ok None None), s')
      else if str_eq "get_status" action then
        (Ret (reply action true (Some (DStatus (get_status s))) None), s)
      else if str_eq "get_health" action then
        (Ret (reply action true (Some (DHealth (get_health e s))) None), s)
      else if str_eq "detect_triggers" action then
        let (ev, s') := detect_triggers e s in
        (Ret (reply action true (Some (DEvent ev)) None), s')
      else if str_eq "get_trigger_config" action then
        (Ret (reply action true (Some DTriggerConfig) None), s)
      else
        (Ret (reply action false None
                (Some ("Unknown action: " +:+ py_str py action))), s)
  end.

(** One turn of the [while True] loop of [main] on the line that
    [readline] returned. *)
Definition handle_line (line : string) (e : env) (s : state)
  : line_outcome data * state :=
  let line := str_strip py line in
  if String.eqb line "" then (Break, s)
  else match json_loads py line with
       | None => (Emit (error_only "Invalid JSON command"), s)
       | Some command =>
           match dispatch command e s with
           | (Ret r, s') => (Emit r, s')
           | (Raise x, s') =>
               (Emit (error_only ("Plugin error: " +:+ exn_str py x)), s')
           end
       end.

(** [main] on the lines of standard input; at the end of the list
    [readline] returns the empty string and the loop ends. *)
Fixpoint main_loop (input : list (string * env)) (s : state)
  : list (response data) * state :=
  match input with
  | [] => ([], s)
  | (line, e) :: rest =>
      match handle_line line e s with
      | (Break, s') => ([], s')
      | (Emit r, s') =>
          let (rs, s'') := main_loop rest s' in (r :: rs, s'')
      end
  end.

Definition main (input : list (string * env)) : list (response data) * state :=
  main_loop input init.
End WithPy.
End Disk.

(** * The memory monitor (memory_monitor.py) *)
Module Memory.

(** The dict of [_get_memory_info], read through [psutil]. *)
Record memory_info := {
  memory_percent : Q;
  total_memory : Z;
  available_memory : Z;
  used_memory : Z;
  swap_percent : Q;
  total_swap : Z;
  used_swap : Z;
  free_swap : Z
}.

(** The fields of [MemoryMonitorPlugin] (but the logger). *)
Record state := {
  config : value;
  memory_threshold : pyfloat;
  swap_threshold : pyfloat;
  interval : Z;
  life : lifecycle;
  last_alert_time : gmap string Z;
  alert_cooldown : Z
}.

Definition set_config (v : value) (s : state) : state :=
  {| config := v; memory_threshold := memory_threshold s;
     swap_threshold := swap_threshold s; interval := interval s;
     life := life s; last_alert_time := last_alert_time s;
     alert_cooldown := alert_cooldown s |}.

Definition set_memory_threshold (f : pyfloat) (s : state) : state :=
  {| config := config s; memory_threshold := f;
     swap_threshold := swap_threshold s; interval := interval s;
     life := life s; last_alert_time := last_alert_time s;
     alert_cooldown := alert_cooldown s |}.

Definition set_swap_threshold (f : pyfloat) (s : state) : state :=
  {| config := config s; memory_threshold := memory_threshold s;
     swap_threshold := f; interval := interval s;
     life := life s; last_alert_time := last_alert_time s;
     alert_cooldown := alert_cooldown s |}.

Definition set_interval (z : Z) (s : state) : state :=
  {| config := config s; memory_threshold := memory_threshold s;
     swap_threshold := swap_threshold s; interval := z;
     life := life s; last_alert_time := last_alert_time s;
     alert_cooldown := alert_cooldown s |}.

Definition set_alert_cooldown (z : Z) (s : state) : state :=
  {| config := config s; memory_threshold := memory_threshold s;
     swap_threshold := swap_threshold s; interval := interval s;
     life := life s; last_alert_time := last_alert_time s;
     alert_cooldown := z |}.

Definition set_life (l : lifecycle) (s : state) : state :=
  {| config := config s; memory_threshold := memory_threshold s;
     swap_threshold := swap_threshold s; interval := interval s;
     life := l; last_alert_time := last_alert_time s;
     alert_cooldown := alert_cooldown s |}.

Definition set_last_alert_time (m : gmap string Z) (s : state) : state :=
  {| config := config s; memory_threshold := memory_threshold s;
     swap_threshold := swap_threshold s; interval := interval s;
     life := life s; last_alert_time := m;
     alert_cooldown := alert_cooldown s |}.

(** [__init__] *)
Definition init : state :=
  {| config := VDict [];
     memory_threshold := FFin 85;
     swap_threshold := FFin 90;
     interval := 60;
     life := lifecycle_init;
     last_alert_time := ∅;
     alert_cooldown := 300 |}.

(** The dict of [_create_memory_event], without the fields read from the
    clock and from [os.uname()]. *)
Record event := {
  ev_type : string;
  ev_source : string;
  ev_alert_type : string;
  ev_usage_percent : Q;
  ev_threshold : pyfloat;
  ev_memory_info : memory_info;
  ev_tags : list string;
  ev_severity : string
}.

(** ["metrics"] of [get_health] (the two sizes in gigabytes are left
    out). *)
Record metrics := {
  current_memory_percent : Q;
  current_swap_percent : Q;
  m_memory_threshold : pyfloat;
  m_swap_threshold : pyfloat
}.

Inductive data :=
| DInfo
| DStatus (s : string)
| DHealth (h : health metrics)
| DEvent (e : option event)
| DTriggerConfig.

(** What one command reads of the outside world: the clock, and what
    [_get_memory_info] returns or raises. *)
Record env := {
  now : Z;
  read_memory : result memory_info
}.

Section WithPy.
Context (py : PyLib).

Definition cfg_float (cfg : value) (key : string) (dflt : value) : result pyfloat :=
  rbind (py_get cfg key dflt) (py_float py).

Definition cfg_int (cfg : value) (key : string) (dflt : value) : result Z :=
  rbind (py_get cfg key dflt) (py_int py).

(** The [try] block of [initialize]. *)
Definition initialize_body (cfg : value) : M state unit :=
  (exec mmodify (set_config cfg) in
   let* m := mlift (cfg_float cfg "memory_threshold" (VFloat (FFin 85))) in
   exec mmodify (set_memory_threshold m) in
   let* w := mlift (cfg_float cfg "swap_threshold" (VFloat (FFin 90))) in
   exec mmodify (set_swap_threshold w) in
   let* i := mlift (cfg_int cfg "interval" (VInt 60)) in
   exec mmodify (set_interval i) in
   let* a := mlift (cfg_int cfg "alert_cooldown" (VInt 300)) in
   exec mmodify (set_alert_cooldown a) in
   let* s := mget in
   if negb (fle (FFin 0) (memory_threshold s) && fle (memory_threshold s) (FFin 100))
   then mraise (ValueError "Memory threshold must be between 0 and 100")
   else if negb (fle (FFin 0) (swap_threshold s) && fle (swap_threshold s) (FFin 100))
   then mraise (ValueError "Swap threshold must be between 0 and 100")
   else if interval s <? 1
   then mraise (ValueError "Interval must be at least 1 second")
   else mret tt)%M.

(** [initialize] *)
Definition initialize (cfg : value) (s : state) : bool * state :=
  match initialize_body cfg s with
  | (Ret _, s') => (true, set_life (set_status Initialized (life s')) s')
  | (Raise _, s') => (false, set_life (set_status Error (life s')) s')
  end.

Definition start (now : Z) (s : state) : bool * state :=
  let (ok, l) := Lifecycle.start now (life s) in (ok, set_life l s).

Definition stop (s : state) : bool * state :=
  let (ok, l) := Lifecycle.stop (life s) in (ok, set_life l s).

Definition get_status (s : state) : string := pstatus_str (status (life s)).

(** [get_health]: [_get_memory_info] is called outside any [try]. *)
Definition get_health (e : env) (s : state) : result (health metrics) :=
  match read_memory e with
  | Raise x => Raise x
  | Ret mi =>
      Ret (mk_health (now e) (life s)
             {| current_memory_percent := memory_percent mi;
                current_swap_percent := swap_percent mi;
                m_memory_threshold := memory_threshold s;
                m_swap_threshold := swap_threshold s |})
  end.

(** [_should_alert] *)
Definition _should_alert (s : state) (alert_type : string) (current_time : Z) : bool :=
  match last_alert_time s !! alert_type with
  | None => true
  | Some last => total_seconds_ge (current_time - last) (alert_cooldown s)
  end.

Definition Qgt_bool (a b : Q) : bool := negb (Qle_bool a b).

(** [_create_memory_event]; [alert_type] is ["memory"] or ["swap"]. *)
Definition _create_memory_event (s : state) (mi : memory_info) (alert_type : string)
  : event :=
  let is_memory := String.eqb alert_type "memory" in
  let usage := if is_memory then memory_percent mi else swap_percent mi in
  {| ev_type := if is_memory then "memory.high" else "swap.high";
     ev_source := "memory-monitor";
     ev_alert_type := alert_type;
     ev_usage_percent := usage;
     ev_threshold := if is_memory then memory_threshold s else swap_threshold s;
     ev_memory_info := mi;
     ev_tags := ["system"; "memory"; alert_type; "alert"];
     ev_severity :=
       if is_memory
       then (if Qgt_bool usage 95 then "critical"
             else if Qgt_bool usage 90 then "high" else "medium")
       else (if Qgt_bool usage 95 then "critical" else "high") |}.

(** [detect_triggers]: an exception of [_get_memory_info] is caught and
    gives [None]. *)
Definition detect_triggers (e : env) (s : state) : option event * state :=
  if negb (running (life s)) then (None, s)
  else match read_memory e with
       | Raise _ => (None, s)
       | Ret mi =>
           if fgt (FFin (memory_percent mi)) (memory_threshold s)
              && _should_alert s "memory" (now e)
           then (Some (_create_memory_event s mi "memory"),
                 set_last_alert_time (<["memory" := now e]> (last_alert_time s)) s)
           else if fgt (FFin (swap_percent mi)) (swap_threshold s)
                   && _should_alert s "swap" (now e)
           then (Some (_create_memory_event s mi "swap"),
                 set_last_alert_time (<["swap" := now e]> (last_alert_time s)) s)
           else (None, s)
       end.

(** The body of the outer [try] of [main], after [json.loads]. *)
Definition dispatch (command : value) (e : env) (s : state)
  : result (response data) * state :=
  match py_get command "action" VNone with
  | Raise x => (Raise x, s)
  | Ret action =>
      if str_eq "get_info" action then
        (Ret (reply action true (Some DInfo) None), s)
      else if str_eq "initialize" action then
        match py_get command "config" (VDict []) with
        | Raise x => (Raise x, s)
        | Ret cfg =>
            let (ok, s') := initialize cfg s in
            (Ret (reply action ok None None), s')
        end
      else if str_eq "start" action then
        let (ok, s') := start (now e) s in (Ret (reply action ok None None), s')
      else if str_eq "stop" action then
        let (ok, s') := stop s in (Ret (reply action ok None None), s')
      else if str_eq "get_status" action then
        (Ret (reply action true (Some (DStatus (get_status s))) None), s)
      else if str_eq "get_health" action then
        match get_health e s with
        | Raise x => (Raise x, s)
        | Ret h => (Ret (reply action true (Some (DHealth h)) None), s)
        end
      else if str_eq "detect_triggers" action then
        let (ev, s') := detect_triggers e s in
        (Ret (reply action true (Some (DEvent ev)) None), s')
      else if str_eq "get_trigger_config" action then
        (Ret (reply action true (Some DTriggerConfig) None), s)
      else
        (Ret (reply action false None
                (Some ("Unknown action: " +:+ py_str py action))), s)
  end.

Definition handle_line (line : string) (e : env) (s : state)
  : line_outcome data * state :=
  let line := str_strip py line in
  if String.eqb line "" then (Break, s)
  else match json_loads py line with
       | None => (Emit (error_only "Invalid JSON command"), s)
       | Some command =>
           match dispatch command e s with
           | (Ret r, s') => (Emit r, s')
           | (Raise x, s') =>
               (Emit (error_only ("Plugin error: " +:+ exn_str py x)), s')
           end
       end.

Fixpoint main_loop (input : list (string * env)) (s : state)
  : list (response data) * state :=
  match input with
  | [] => ([], s)
  | (line, e) :: rest =>
      match handle_line line e s with
      | (Break, s') => ([], s')
      | (Emit r, s') =>
          let (rs, s'') := main_loop rest s' in (r :: rs, s'')
      end
  end.

Definition main (input : list (string * env)) : list (response data) * state :=
  main_loop input init.
End WithPy.
End Memory.

(** * Action results

    The dict that [execute_action] returns, common to the two action
    plugins; a key that is absent is [None].  ["metadata"] holds constants
    but for ["execution_host"], which [_create_error_result] leaves out. *)
Inductive astatus := ARunning | ACompleted | AFailed.

Definition astatus_str (a : astatus) : string :=
  match a with
  | ARunning => "running"
  | ACompleted => "completed"
  | AFailed => "failed"
  end.

Record action_result (D : Type) := {
  ar_id : value;
  ar_status : astatus;
  ar_started_at : Z;
  ar_completed_at : Z;
  ar_duration : Z;
  ar_data : option D;
  ar_error : option string;
  ar_execution_host : bool
}.
Arguments ar_id {D} _.
Arguments ar_status {D} _.
Arguments ar_started_at {D} _.
Arguments ar_completed_at {D} _.
Arguments ar_duration {D} _.
Arguments ar_data {D} _.
Arguments ar_error {D} _.
Arguments ar_execution_host {D} _.

(** [_create_error_result]; [started] is [start_time], or the clock when
    that argument is left out. *)
Definition _create_error_result {D} (action_id : value) (error : string)
    (started completed : Z) : action_result D :=
  {| ar_id := action_id;
     ar_status := AFailed;
     ar_started_at := started;
     ar_completed_at := completed;
     ar_duration := completed - started;
     ar_data := None;
     ar_error := Some error;
     ar_execution_host := false |}.

(** How the [try] block of [execute_action] ends: with a [return], or by
    falling through after [result.update(...)]. *)
Inductive flow (D : Type) :=
| Return (r : action_result D)
| Update (st : astatus) (error : option string) (d : option D).
Arguments Return {D} r.
Arguments Update {D} st error d.

(** [execute_action] after its [try] block: the result under
    construction, updated, then finalized. *)
Definition finish {D} (action_id : value) (started completed : Z)
    (f : result (flow D)) (str_of_exn : exn -> string) : action_result D :=
  match f with
  | Ret (Return r) => r
  | Ret (Update st err d) =>
      {| ar_id := action_id; ar_status := st;
         ar_started_at := started; ar_completed_at := completed;
         ar_duration := completed - started;
         ar_data := d; ar_error := err; ar_execution_host := true |}
  | Raise x =>
      {| ar_id := action_id; ar_status := AFailed;
         ar_started_at := started; ar_completed_at := completed;
         ar_duration := completed - started;
         ar_data := None; ar_error := Some (str_of_exn x);
         ar_execution_host := true |}
  end.

Definition nl : string := String (ascii_of_nat 10) EmptyString.

(** [s[:n]] *)
Definition slice_to (n : Z) (s : string) : string :=
  let len := Z.of_nat (String.length s) in
  let k := if 0 <=? n then n else Z.max 0 (len + n) in
  String.substring 0 (Z.to_nat (Z.min k len)) s.

(** [t.split("/")[-1]] *)
Fixpoint basename (t : string) : string :=
  match t with
  | EmptyString => EmptyString
  | String c t' =>
      if str_contains "/" t' then basename t'
      else if Ascii.eqb c "/" then t'
      else t
  end.

(** * The shell command plugin (shell_command.py) *)
Module Shell.

(** The fields of [ShellCommandPlugin] (but the logger). *)
Record state := {
  config : value;
  allowed_commands : value;
  blocked_commands : value;
  allowed_paths : value;
  timeout : Z;
  max_output_size : Z;
  life : lifecycle;
  demo_mode : bool
}.

Definition set_config (v : value) (s : state) : state :=
  {| config := v; allowed_commands := allowed_commands s;
     blocked_commands := blocked_commands s; allowed_paths := allowed_paths s;
     timeout := timeout s; max_output_size := max_output_size s;
     life := life s; demo_mode := demo_mode s |}.

Definition set_allowed_commands (v : value) (s : state) : state :=
  {| config := config s; allowed_commands := v;
     blocked_commands := blocked_commands s; allowed_paths := allowed_paths s;
     timeout := timeout s; max_output_size := max_output_size s;
     life := life s; demo_mode := demo_mode s |}.

Definition set_blocked_commands (v : value) (s : state) : state :=
  {| config := config s; allowed_commands := allowed_commands s;
     blocked_commands := v; allowed_paths := allowed_paths s;
     timeout := timeout s; max_output_size := max_output_size s;
     life := life s; demo_mode := demo_mode s |}.

Definition set_allowed_paths (v : value) (s : state) : state :=
  {| config := config s; allowed_commands := allowed_commands s;
     blocked_commands := blocked_commands s; allowed_paths := v;
     timeout := timeout s; max_output_size := max_output_size s;
     life := life s; demo_mode := demo_mode s |}.

Definition set_timeout (z : Z) (s : state) : state :=
  {| config := config s; allowed_commands := allowed_commands s;
     blocked_commands := blocked_commands s; allowed_paths := allowed_paths s;
     timeout := z; max_output_size := max_output_size s;
     life := life s; demo_mode := demo_mode s |}.

Definition set_max_output_size (z : Z) (s : state) : state :=
  {| config := config s; allowed_commands := allowed_commands s;
     blocked_commands := blocked_commands s; allowed_paths := allowed_paths s;
     timeout := timeout s; max_output_size := z;
     life := life s; demo_mode := demo_mode s |}.

Definition set_life (l : lifecycle) (s : state) : state :=
  {| config := config s; allowed_commands := allowed_commands s;
     blocked_commands := blocked_commands s; allowed_paths := allowed_paths s;
     timeout := timeout s; max_output_size := max_output_size s;
     life := l; demo_mode := demo_mode s |}.

(** [__init__]; [demo] is what STAVILY_DEMO_MODE says at that time. *)
Definition init (demo : bool) : state :=
  {| config := VDict [];
     allowed_commands := VList [];
     blocked_commands :=
       VList [VStr "rm"; VStr "rmdir"; VStr "dd"; VStr "mkfs"; VStr "fdisk"; VStr "format"];
     allowed_paths := VList [VStr "/tmp"; VStr "/var/tmp"];
     timeout := 300;
     max_output_size := 1024 * 1024;
     life := lifecycle_init;
     demo_mode := demo |}.

Record metrics := {
  m_demo_mode : bool;
  m_timeout : Z;
  m_max_output_size : Z;
  allowed_commands_count : Z;
  blocked_commands_count : Z
}.

(** The dict that the two Action Sources return. *)
Record exec_result := {
  success : bool;
  return_code : option Z;
  stdout : option string;
  stderr : option string;
  execution_time : option Q;
  error : option string
}.

(** ["data"] of a result: of a completed one, of a failed one. *)
Inductive shell_data :=
| DataCompleted (command working_dir : value) (return_code : Z)
    (stdout stderr : string) (execution_time : Q) (demo : bool)
| DataFailed (command : value) (return_code : option Z) (stdout stderr : string).

(** A call of an Action Source: [_simulate_command_execution] or
    [_execute_command], with its arguments. *)
Record source_call := {
  sc_simulated : bool;
  sc_command : value;
  sc_working_dir : value;
  sc_env_vars : value;
  sc_input : value;
  sc_timeout : value
}.

(** What the subprocess of [_execute_command] does. *)
Inductive os_outcome :=
| DirMissing
| DirNotWritable
| Exited (rc : Z) (out err : string) (seconds : Q)
| TimedOut
| Crashed (x : exn).

Inductive data :=
| DInfo
| DStatus (s : string)
| DHealth (h : health metrics)
| DResult (r : action_result shell_data)
| DActionConfig.

(** What one command reads of the outside world: the clock at the start
    and at the end of [execute_action], the two draws of
    [_simulate_command_execution], the subprocess. *)
Record env := {
  t_start : Z;
  t_end : Z;
  sim_time : Q;
  sim_error : bool;
  os_run : os_outcome
}.

Inductive validation := Valid | Invalid (error : string).

Definition dangerous_patterns : list string :=
  ["rm -rf"; ":(){ :|:& };:"; "chmod 777"; "chown root"].

Definition truncation_marker : string := nl +:+ "... [output truncated]".

Section WithPy.
Context (py : PyLib).

Definition assign_if_present (cfg : value) (key : string)
    (set : value -> state -> state) : M state unit :=
  (let* present := mlift (py_in key cfg) in
   if present : bool
   then let* v := mlift (py_getitem cfg key) in mmodify (set v)
   else mret tt)%M.

(** The [try] block of [initialize]. *)
Definition initialize_body (cfg : value) : M state unit :=
  (exec mmodify (set_config cfg) in
   exec assign_if_present cfg "allowed_commands" set_allowed_commands in
   exec assign_if_present cfg "blocked_commands" set_blocked_commands in
   exec assign_if_present cfg "allowed_paths" set_allowed_paths in
   let* t := mlift (rbind (py_get cfg "timeout" (VInt 300)) (py_int py)) in
   exec mmodify (set_timeout t) in
   let* m := mlift (rbind (py_get cfg "max_output_size" (VInt (1024 * 1024)))
                      (py_int py)) in
   exec mmodify (set_max_output_size m) in
   let* s := mget in
   if timeout s <=? 0 then mraise (ValueError "Timeout must be positive")
   else if max_output_size s <=? 0
   then mraise (ValueError "Max output size must be positive")
   else mret tt)%M.

(** [initialize] *)
Definition initialize (cfg : value) (s : state) : bool * state :=
  match initialize_body cfg s with
  | (Ret _, s') => (true, set_life (set_status Initialized (life s')) s')
  | (Raise _, s') => (false, set_life (set_status Error (life s')) s')
  end.

Definition start (now : Z) (s : state) : bool * state :=
  let (ok, l) := Lifecycle.start now (life s) in (ok, set_life l s).

Definition stop (s : state) : bool * state :=
  let (ok, l) := Lifecycle.stop (life s) in (ok, set_life l s).

Definition get_status (s : state) : string := pstatus_str (status (life s)).

(** [get_health]: the two [len(...)] are on fields that [initialize]
    takes from the configuration as they come. *)
Definition get_health (now : Z) (s : state) : result (health metrics) :=
  (let? a := py_len (allowed_commands s) in
   let? b := py_len (blocked_commands s) in
   Ret (mk_health now (life s)
          {| m_demo_mode := demo_mode s;
             m_timeout := timeout s;
             m_max_output_size := max_output_size s;
             allowed_commands_count := a;
             blocked_commands_count := b |}))%result.

(** [any(working_dir.startswith(path) for path in paths)] *)
Fixpoint any_startswith (working_dir : value) (paths : list value) : result bool :=
  match paths with
  | [] => Ret false
  | p :: ps =>
      match working_dir with
      | VStr w =>
          match p with
          | VStr q => if String.prefix q w then Ret true
                      else any_startswith working_dir ps
          | _ => Raise (TypeError "startswith first arg must be str or a tuple of str")
          end
      | _ => Raise (AttributeError working_dir "startswith")
      end
  end.

(** The outer [try] block of [_validate_command]. *)
Definition validate_body (s : state) (command working_dir : value)
  : result validation :=
  match command with
  | VStr c =>
      match shlex_split py c with
      | Raise (ValueError m) =>
          Ret (Invalid ("Invalid command syntax: " +:+ exn_str py (ValueError m)))
      | Raise x => Raise x
      | Ret [] => Ret (Invalid "Empty command")
      | Ret (tok :: _) =>
          let main_command := basename tok in
          (let? blocked := py_in main_command (blocked_commands s) in
           if blocked : bool then
             Ret (Invalid ("Command '" +:+ main_command
                           +:+ "' is blocked for security"))
           else
           let? missing :=
             (if truthy (allowed_commands s)
              then let? b := py_in main_command (allowed_commands s) in Ret (negb b)
              else Ret false) in
           if missing : bool then
             Ret (Invalid ("Command '" +:+ main_command
                           +:+ "' is not in allowed list"))
           else
           let? allowed :=
             (if truthy (allowed_paths s)
              then let? paths := py_iter (allowed_paths s) in
                   any_startswith working_dir paths
              else Ret true) in
           if negb allowed then
             Ret (Invalid ("Working directory '" +:+ py_str py working_dir
                           +:+ "' is not allowed"))
           else
           match find (fun p => str_contains p (str_lower py c)) dangerous_patterns with
           | Some p => Ret (Invalid ("Command contains dangerous pattern: " +:+ p))
           | None => Ret Valid
           end)%result
      end
  | _ => Raise (AttributeError command "read")
  end.

(** [_validate_command] *)
Definition _validate_command (s : state) (command working_dir : value) : validation :=
  match validate_body s command working_dir with
  | Ret v => v
  | Raise x => Invalid ("Validation error: " +:+ exn_str py x)
  end.

(** The simulated standard output, chosen by what the command
    contains. *)
Definition simulated_stdout (command : string) : string :=
  if str_contains "ls" command then
    "file1.txt" +:+ nl +:+ "file2.log" +:+ nl +:+ "directory1/" +:+ nl +:+ "total 4"
  else if str_contains "ps" command then
    "PID   USER     TIME  COMMAND" +:+ nl +:+ "1234  root     0:01  nginx"
    +:+ nl +:+ "5678  app      0:05  python app.py"
  else if str_contains "systemctl" command then
    (if str_contains "status" command then
       "nginx.service - The nginx HTTP server" +:+ nl
       +:+ "   Loaded: loaded (/lib/systemd/system/nginx.service; enabled)" +:+ nl
       +:+ "   Active: active (running)"
     else "Service operation completed successfully")
  else if str_contains "grep" command then
    "2024-01-15 10:30:25 ERROR: Connection timeout" +:+ nl
    +:+ "2024-01-15 10:31:15 ERROR: Database unavailable"
  else if str_contains "df" command then
    "Filesystem     1K-blocks    Used Available Use%" +:+ nl
    +:+ "/dev/sda1       10485760 5242880   5242880  50% /"
  else "Simulated output for command: " +:+ command.

(** [_simulate_command_execution]; [sim_time] and [err] are its two
    random draws ([err]: the draw fell under 0.1).  The first status
    line of the systemctl text starts with a bullet character that is
    left out here. *)
Definition _simulate_command_execution (command : string) (sim_time : Q) (err : bool)
  : exec_result :=
  let out := simulated_stdout command in
  let return_code := if err then 1 else 0 in
  let serr := if err then "Simulated error for command: " +:+ command else "" in
  {| success := return_code =? 0;
     return_code := Some return_code;
     stdout := Some out;
     stderr := Some serr;
     execution_time := Some sim_time;
     error := Some (if negb (return_code =? 0) then serr else "") |}.

Definition failure (msg : string) : exec_result :=
  {| success := false; return_code := None; stdout := None; stderr := None;
     execution_time := None; error := Some msg |}.

Definition truncate (s : state) (out : string) : string :=
  if max_output_size s <? Z.of_nat (String.length out)
  then slice_to (max_output_size s) out +:+ truncation_marker
  else out.

(** [_execute_command], on what the operating system does with the
    command. *)
Definition _execute_command (s : state) (working_dir timeout : value) (o : os_outcome)
  : exec_result :=
  match o with
  | DirMissing =>
      failure ("Working directory does not exist: " +:+ py_str py working_dir)
  | DirNotWritable =>
      failure ("No write access to working directory: " +:+ py_str py working_dir)
  | Exited rc out err seconds =>
      {| success := true;
         return_code := Some rc;
         stdout := Some (truncate s out);
         stderr := Some (truncate s err);
         execution_time := Some seconds;
         error := None |}
  | TimedOut =>
      failure ("Command timed out after " +:+ py_str py timeout +:+ " seconds")
  | Crashed x => failure (exn_str py x)
  end.

(** [d[key]] on the dict of an Action Source *)
Definition field {A} (key : string) (o : option A) : result A :=
  match o with
  | Some a => Ret a
  | None => Raise (KeyError key)
  end.

(** The [if exec_result["success"]: ... else: ...] of [execute_action]. *)
Definition wrap (s : state) (command working_dir : value) (r : exec_result)
  : result (flow shell_data) :=
  (if success r then
     let? rc := field "return_code" (return_code r) in
     let? out := field "stdout" (stdout r) in
     let? err := field "stderr" (stderr r) in
     let? tm := field "execution_time" (execution_time r) in
     Ret (Update ACompleted None
            (Some (DataCompleted command working_dir rc out err tm (demo_mode s))))
   else
     let? e := field "error" (error r) in
     Ret (Update AFailed (Some e)
            (Some (DataFailed command (return_code r)
                     (default "" (stdout r)) (default "" (stderr r))))))%result.

(** The [try] block of [execute_action], with the calls of an Action
    Source that it makes. *)
Definition try_block (action_id parameters : value) (e : env) (s : state)
  : result (flow shell_data) * list source_call :=
  match (let? command := py_get parameters "command" (VStr "") in
         let? working_dir := py_get parameters "working_dir" (VStr "/tmp") in
         let? env_vars := py_get parameters "env_vars" (VDict []) in
         let? input_data := py_get parameters "input" (VStr "") in
         let? tmo := py_get parameters "timeout" (VInt (timeout s)) in
         Ret (command, working_dir, env_vars, input_data, tmo))%result with
  | Raise x => (Raise x, [])
  | Ret (command, working_dir, env_vars, input_data, tmo) =>
      if negb (truthy command) then
        (Ret (Return (_create_error_result action_id
                        "Command parameter is required" (t_start e) (t_end e))), [])
      else
        match _validate_command s command working_dir with
        | Invalid msg =>
            (Ret (Return (_create_error_result action_id msg (t_start e) (t_end e))), [])
        | Valid =>
            let call := {| sc_simulated := demo_mode s;
                           sc_command := command;
                           sc_working_dir := working_dir;
                           sc_env_vars := env_vars;
                           sc_input := input_data;
                           sc_timeout := tmo |} in
            let r := if demo_mode s
                     then _simulate_command_execution (py_str py command)
                            (sim_time e) (sim_error e)
                     else _execute_command s working_dir tmo (os_run e) in
            (wrap s command working_dir r, [call])
        end
  end.

(** [execute_action]: the result, or the exception that leaves the
    method, and the calls of an Action Source made on the way. *)
Definition execute_action (action_request : value) (e : env) (s : state)
  : result (action_result shell_data) * list source_call :=
  if negb (running (life s)) then
    match py_getitem action_request "id" with
    | Raise x => (Raise x, [])
    | Ret action_id =>
        (Ret (_create_error_result action_id "Plugin is not running"
                (t_start e) (t_end e)), [])
    end
  else
    match py_getitem action_request "id" with
    | Raise x => (Raise x, [])
    | Ret action_id =>
        match py_get action_request "parameters" (VDict []) with
        | Raise x => (Raise x, [])
        | Ret parameters =>
            let (f, calls) := try_block action_id parameters e s in
            (Ret (finish action_id (t_start e) (t_end e) f (exn_str py)), calls)
        end
    end.

(** The body of the outer [try] of [main], after [json.loads]. *)
Definition dispatch (command : value) (e : env) (s : state)
  : result (response data) * state :=
  match py_get command "action" VNone with
  | Raise x => (Raise x, s)
  | Ret action =>
      if str_eq "get_info" action then
        (Ret (reply action true (Some DInfo) None), s)
      else if str_eq "initialize" action then
        match py_get command "config" (VDict []) with
        | Raise x => (Raise x, s)
        | Ret cfg =>
            let (ok, s') := initialize cfg s in
            (Ret (reply action ok None None), s')
        end
      else if str_eq "start" action then
        let (ok, s') := start (t_start e) s in (Ret (reply action ok None None), s')
      else if str_eq "stop" action then
        let (ok, s') := stop s in (Ret (reply action ok None None), s')
      else if str_eq "get_status" action then
        (Ret (reply action true (Some (DStatus (get_status s))) None), s)
      else if str_eq "get_health" action then
        match get_health (t_start e) s with
        | Raise x => (Raise x, s)
        | Ret h => (Ret (reply action true (Some (DHealth h)) None), s)
        end
      else if str_eq "execute_action" action then
        match py_get command "action_request" (VDict []) with
        | Raise x => (Raise x, s)
        | Ret action_request =>
            match fst (execute_action action_request e s) with
            | Raise x => (Raise x, s)
            | Ret r => (Ret (reply action true (Some (DResult r)) None), s)
            end
        end
      else if str_eq "get_action_config" action then
        (Ret (reply action true (Some DActionConfig) None), s)
      else
        (Ret (reply action false None
                (Some ("Unknown action: " +:+ py_str py action))), s)
  end.

Definition handle_line (line : string) (e : env) (s : state)
  : line_outcome data * state :=
  let line := str_strip py line in
  if String.eqb line "" then (Break, s)
  else match json_loads py line with
       | None => (Emit (error_only "Invalid JSON command"), s)
       | Some command =>
           match dispatch command e s with
           | (Ret r, s') => (Emit r, s')
           | (Raise x, s') =>
               (Emit (error_only ("Plugin error: " +:+ exn_str py x)), s')
           end
       end.

Fixpoint main_loop (input : list (string * env)) (s : state)
  : list (response data) * state :=
  match input with
  | [] => ([], s)
  | (line, e) :: rest =>
      match handle_line line e s with
      | (Break, s') => ([], s')
      | (Emit r, s') =>
          let (rs, s'') := main_loop rest s' in (r :: rs, s'')
      end
  end.

Definition main (demo : bool) (input : list (string * env))
  : list (response data) * state :=
  main_loop input (init demo).
End WithPy.
End Shell.

(** * The email notification plugin (email_notification.py)

    The [__main__] block of this file has a [return] outside of any
    function in front of its call of [main]; [main] and the class are
    modelled as they are defined. *)
Module Email.

(** The fields of [EmailNotificationPlugin] (but the logger). *)
Record state := {
  config : value;
  smtp_server : value;
  smtp_port : Z;
  username : value;
  password : value;
  from_email : value;
  use_tls : value;
  life : lifecycle;
  demo_mode : bool
}.

Definition set_config (v : value) (s : state) : state :=
  {| config := v; smtp_server := smtp_server s; smtp_port := smtp_port s;
     username := username s; password := password s; from_email := from_email s;
     use_tls := use_tls s; life := life s; demo_mode := demo_mode s |}.

Definition set_smtp_server (v : value) (s : state) : state :=
  {| config := config s; smtp_server := v; smtp_port := smtp_port s;
     username := username s; password := password s; from_email := from_email s;
     use_tls := use_tls s; life := life s; demo_mode := demo_mode s |}.

Definition set_smtp_port (z : Z) (s : state) : state :=
  {| config := config s; smtp_server := smtp_server s; smtp_port := z;
     username := username s; password := password s; from_email := from_email s;
     use_tls := use_tls s; life := life s; demo_mode := demo_mode s |}.

Definition set_username (v : value) (s : state) : state :=
  {| config := config s; smtp_server := smtp_server s; smtp_port := smtp_port s;
     username := v; password := password s; from_email := from_email s;
     use_tls := use_tls s; life := life s; demo_mode := demo_mode s |}.

Definition set_password (v : value) (s : state) : state :=
  {| config := config s; smtp_server := smtp_server s; smtp_port := smtp_port s;
     username := username s; password := v; from_email := from_email s;
     use_tls := use_tls s; life := life s; demo_mode := demo_mode s |}.

Definition set_from_email (v : value) (s : state) : state :=
  {| config := config s; smtp_server := smtp_server s; smtp_port := smtp_port s;
     username := username s; password := password s; from_email := v;
     use_tls := use_tls s; life := life s; demo_mode := demo_mode s |}.

Definition set_use_tls (v : value) (s : state) : state :=
  {| config := config s; smtp_server := smtp_server s; smtp_port := smtp_port s;
     username := username s; password := password s; from_email := from_email s;
     use_tls := v; life := life s; demo_mode := demo_mode s |}.

Definition set_life (l : lifecycle) (s : state) : state :=
  {| config := config s; smtp_server := smtp_server s; smtp_port := smtp_port s;
     username := username s; password := password s; from_email := from_email s;
     use_tls := use_tls s; life := l; demo_mode := demo_mode s |}.

(** [__init__]; [demo] is what STAVILY_DEMO_MODE says at that time. *)
Definition init (demo : bool) : state :=
  {| config := VDict [];
     smtp_server := VStr "";
     smtp_port := 587;
     username := VStr "";
     password := VStr "";
     from_email := VStr "";
     use_tls := VBool true;
     life := lifecycle_init;
     demo_mode := demo |}.

Record metrics := {
  m_demo_mode : bool;
  m_smtp_server : value;
  m_smtp_port : Z;
  m_from_email : value
}.

(** The dict that the two Action Sources return. *)
Record email_result := {
  success : bool;
  message_id : option string;
  error : option string
}.

(** ["data"] of a result: of a completed one, of a failed one. *)
Inductive email_data :=
| DataCompleted (recipients cc bcc subject : value) (message_id : option string)
    (attachments_count : Z) (demo : bool)
| DataFailed (recipients subject : value).

(** A call of an Action Source: [_simulate_email_send] or [_send_email]. *)
Record source_call := {
  sc_simulated : bool;
  sc_to : value;
  sc_cc : value;
  sc_bcc : value;
  sc_subject : value;
  sc_body : value;
  sc_html_body : value;
  sc_attachments : value
}.

(** What the SMTP session of [_send_email] does; that method catches
    every exception itself. *)
Inductive smtp_outcome :=
| Sent (message_id : string)
| NotSent (x : exn).

Inductive data :=
| DInfo
| DStatus (s : string)
| DHealth (h : health metrics)
| DResult (r : action_result email_data)
| DActionConfig.

(** What one command reads of the outside world: the clock at the start
    and at the end of [execute_action], the draw and the message id of
    [_simulate_email_send], the SMTP session. *)
Record env := {
  t_start : Z;
  t_end : Z;
  sim_failure : bool;
  sim_message_id : string;
  smtp : smtp_outcome
}.

Section WithPy.
Context (py : PyLib).

(** The [try] block of [initialize]. *)
Definition initialize_body (cfg : value) : M state unit :=
  (exec mmodify (set_config cfg) in
   let* server := mlift (py_get cfg "smtp_server" (VStr "")) in
   exec mmodify (set_smtp_server server) in
   let* port := mlift (rbind (py_get cfg "smtp_port" (VInt 587)) (py_int py)) in
   exec mmodify (set_smtp_port port) in
   let* user := mlift (py_get cfg "username" (VStr "")) in
   exec mmodify (set_username user) in
   let* pw := mlift (py_get cfg "password" (VStr "")) in
   exec mmodify (set_password pw) in
   let* from := mlift (py_get cfg "from_email" user) in
   exec mmodify (set_from_email from) in
   let* tls := mlift (py_get cfg "use_tls" (VBool true)) in
   exec mmodify (set_use_tls tls) in
   let* s := mget in
   if negb (demo_mode s)
      && negb (truthy (smtp_server s) && truthy (username s)
               && truthy (password s) && truthy (from_email s))
   then mraise (ValueError "SMTP server, username, password, and from_email are required")
   else mret tt)%M.

(** [initialize] *)
Definition initialize (cfg : value) (s : state) : bool * state :=
  match initialize_body cfg s with
  | (Ret _, s') => (true, set_life (set_status Initialized (life s')) s')
  | (Raise _, s') => (false, set_life (set_status Error (life s')) s')
  end.

Definition start (now : Z) (s : state) : bool * state :=
  let (ok, l) := Lifecycle.start now (life s) in (ok, set_life l s).

Definition stop (s : state) : bool * state :=
  let (ok, l) := Lifecycle.stop (life s) in (ok, set_life l s).

Definition get_status (s : state) : string := pstatus_str (status (life s)).

(** [get_health] *)
Definition get_health (now : Z) (s : state) : health metrics :=
  mk_health now (life s)
    {| m_demo_mode := demo_mode s;
       m_smtp_server := if demo_mode s then VStr "demo-smtp-server" else smtp_server s;
       m_smtp_port := smtp_port s;
       m_from_email := if demo_mode s then VStr "demo@example.com" else from_email s |}.

(** [if isinstance(v, str): v = [v]] *)
Definition as_list (v : value) : value :=
  match v with
  | VStr _ => VList [v]
  | _ => v
  end.

(** Whether [', '.join(v)] raises. *)
Definition py_join (v : value) : result unit :=
  match v with
  | VList l =>
      if forallb (fun x => match x with VStr _ => true | _ => false end) l
      then Ret tt
      else Raise (TypeError "sequence item: expected str instance")
  | VDict _ | VStr _ => Ret tt
  | _ => Raise (TypeError "can only join an iterable")
  end.

(** [_simulate_email_send]: what it returns, or what its log lines
    raise. *)
Definition _simulate_email_send (e : env)
    (to_emails cc_emails bcc_emails body html_body attachments : value)
  : result email_result :=
  if sim_failure e then
    Ret {| success := false; message_id := None;
           error := Some "Simulated SMTP connection timeout (demo mode)" |}
  else
    (let? _ := py_join to_emails in
     let? _ := (if truthy cc_emails then py_join cc_emails else Ret tt) in
     let? _ := (if truthy bcc_emails then py_join bcc_emails else Ret tt) in
     let? _ := py_len body in
     let? _ := (if truthy html_body then py_len html_body else Ret 0) in
     let? _ := (if truthy attachments then py_len attachments else Ret 0) in
     Ret {| success := true; message_id := Some (sim_message_id e);
            error := None |})%result.

(** [_send_email], on what the SMTP session does. *)
Definition _send_email (e : env) : email_result :=
  match smtp e with
  | Sent mid => {| success := true; message_id := Some mid; error := None |}
  | NotSent x => {| success := false; message_id := None;
                    error := Some (exn_str py x) |}
  end.

Definition field {A} (key : string) (o : option A) : result A :=
  match o with
  | Some a => Ret a
  | None => Raise (KeyError key)
  end.

(** The [if email_result["success"]: ... else: ...] of [execute_action]. *)
Definition wrap (s : state) (to_emails cc_emails bcc_emails subject attachments : value)
    (r : email_result) : result (flow email_data) :=
  (if success r then
     let? n := py_len attachments in
     Ret (Update ACompleted None
            (Some (DataCompleted to_emails cc_emails bcc_emails subject
                     (message_id r) n (demo_mode s))))
   else
     let? err := field "error" (error r) in
     Ret (Update AFailed (Some err) (Some (DataFailed to_emails subject))))%result.

(** The [try] block of [execute_action], with the calls of an Action
    Source that it makes. *)
Definition try_block (action_id parameters : value) (e : env) (s : state)
  : result (flow email_data) * list source_call :=
  match (let? to_emails := py_get parameters "to" (VList []) in
         let? cc_emails := py_get parameters "cc" (VList []) in
         let? bcc_emails := py_get parameters "bcc" (VList []) in
         let? subject := py_get parameters "subject" (VStr "Stavily Notification") in
         let? body := py_get parameters "body" (VStr "") in
         let? html_body := py_get parameters "html_body" (VStr "") in
         let? attachments := py_get parameters "attachments" (VList []) in
         Ret (to_emails, cc_emails, bcc_emails, subject, body, html_body,
              attachments))%result with
  | Raise x => (Raise x, [])
  | Ret (to_emails, cc_emails, bcc_emails, subject, body, html_body, attachments) =>
      if negb (truthy to_emails) then
        (Ret (Return (_create_error_result action_id
                        "At least one recipient email is required"
                        (t_start e) (t_end e))), [])
      else
        let to_emails := as_list to_emails in
        let cc_emails := as_list cc_emails in
        let bcc_emails := as_list bcc_emails in
        let call := {| sc_simulated := demo_mode s;
                       sc_to := to_emails; sc_cc := cc_emails; sc_bcc := bcc_emails;
                       sc_subject := subject; sc_body := body;
                       sc_html_body := html_body;
                       sc_attachments := attachments |} in
        let r := if demo_mode s
                 then _simulate_email_send e to_emails cc_emails bcc_emails
                        body html_body attachments
                 else Ret (_send_email e) in
        (rbind r (wrap s to_emails cc_emails bcc_emails subject attachments), [call])
  end.

(** [execute_action]: the result, or the exception that leaves the
    method, and the calls of an Action Source made on the way. *)
Definition execute_action (action_request : value) (e : env) (s : state)
  : result (action_result email_data) * list source_call :=
  if negb (running (life s)) then
    match py_getitem action_request "id" with
    | Raise x => (Raise x, [])
    | Ret action_id =>
        (Ret (_create_error_result action_id "Plugin is not running"
                (t_start e) (t_end e)), [])
    end
  else
    match py_getitem action_request "id" with
    | Raise x => (Raise x, [])
    | Ret action_id =>
        match py_get action_request "parameters" (VDict []) with
        | Raise x => (Raise x, [])
        | Ret parameters =>
            let (f, calls) := try_block action_id parameters e s in
            (Ret (finish action_id (t_start e) (t_end e) f (exn_str py)), calls)
        end
    end.

(** The body of the outer [try] of [main], after [json.loads]. *)
Definition dispatch (command : value) (e : env) (s : state)
  : result (response data) * state :=
  match py_get command "action" VNone with
  | Raise x => (Raise x, s)
  | Ret action =>
      if str_eq "get_info" action then
        (Ret (reply action true (Some DInfo) None), s)
      else if str_eq "initialize" action then
        match py_get command "config" (VDict []) with
        | Raise x => (Raise x, s)
        | Ret cfg =>
            let (ok, s') := initialize cfg s in
            (Ret (reply action ok None None), s')
        end
      else if str_eq "start" action then
        let (ok, s') := start (t_start e) s in (Ret (reply action ok None None), s')
      else if str_eq "stop" action then
        let (ok, s') := stop s in (Ret (reply action ok None None), s')
      else if str_eq "get_status" action then
        (Ret (reply action true (Some (DStatus (get_status s))) None), s)
      else if str_eq "get_health" action then
        (Ret (reply action true (Some (DHealth (get_health (t_start e) s))) None), s)
      else if str_eq "execute_action" action then
        match py_get command "action_request" (VDict []) with
        | Raise x => (Raise x, s)
        | Ret action_request =>
            match fst (execute_action action_request e s) with
            | Raise x => (Raise x, s)
            | Ret r => (Ret (reply action true (Some (DResult r)) None), s)
            end
        end
      else if str_eq "get_action_config" action then
        (Ret (reply action true (Some DActionConfig) None), s)
      else
        (Ret (reply action false None
                (Some ("Unknown action: " +:+ py_str py action))), s)
  end.

Definition handle_line (line : string) (e : env) (s : state)
  : line_outcome data * state :=
  let line := str_strip py line in
  if String.eqb line "" then (Break, s)
  else match json_loads py line with
       | None => (Emit (error_only "Invalid JSON command"), s)
       | Some command =>
           match dispatch command e s with
           | (Ret r, s') => (Emit r, s')
           | (Raise x, s') =>
               (Emit (error_only ("Plugin error: " +:+ exn_str py x)), s')
           end
       end.

Fixpoint main_loop (input : list (string * env)) (s : state)
  : list (response data) * state :=
  match input with
  | [] => ([], s)
  | (line, e) :: rest =>
      match handle_line line e s with
      | (Break, s') => ([], s')
      | (Emit r, s') =>
          let (rs, s'') := main_loop rest s' in (r :: rs, s'')
      end
  end.

Definition main (demo : bool) (input : list (string * env))
  : list (response data) * state :=
  main_loop input (init demo).
End WithPy.
End Email.

(** * The metrics source of the disk monitor ([_get_disk_info]) *)
Module DiskSource.

(** What [psutil.disk_usage] does on a mountpoint: it returns the byte
    counts, raises PermissionError or another OSError, or raises something
    else. *)
Inductive usage_outcome :=
| Usage (total used free : Z)
| UsageOSError
| UsageError (x : exn).

(** An item of [psutil.disk_partitions()], with the outcome of
    [psutil.disk_usage] on its mountpoint. *)
Record partition := {
  p_device : string;
  p_mountpoint : string;
  p_fstype : string;
  p_usage : usage_outcome
}.

(** The float arithmetic of the method: [round((used / total) * 100, 2)]
    for a total that is not zero, and [round(n / (1024**3), 2)]. *)
Record Rounding := {
  percent_of : Z -> Z -> Q;
  gigabytes : Z -> Q
}.

Section WithPy.
Context (py : PyLib) (fl : Rounding).

(** [[ft.lower() for ft in l]] *)
Fixpoint lowered (l : list value) : result (list string) :=
  match l with
  | [] => Ret []
  | VStr s :: r => rbind (lowered r) (fun rs => Ret (str_lower py s :: rs))
  | v :: _ => Raise (AttributeError v "lower")
  end.

(** [partition.fstype.lower() in [ft.lower() for ft in self.exclude_types]] *)
Definition excluded (s : Disk.state) (p : partition) : result bool :=
  (let? l := py_iter (Disk.exclude_types s) in
   let? ls := lowered l in
   Ret (existsb (String.eqb (str_lower py (p_fstype p))) ls))%result.

(** [self.monitored_paths and not any(partition.mountpoint.startswith(path)
    for path in self.monitored_paths)] *)
Definition unmonitored (s : Disk.state) (p : partition) : result bool :=
  if truthy (Disk.monitored_paths s)
  then (let? paths := py_iter (Disk.monitored_paths s) in
        let? b := Shell.any_startswith (VStr (p_mountpoint p)) paths in
        Ret (negb b))%result
  else Ret false.

(** The dict appended for a partition whose usage was read. *)
Definition entry (p : partition) (total used free : Z) : Disk.filesystem :=
  {| Disk.device := p_device p;
     Disk.mountpoint := p_mountpoint p;
     Disk.fstype := p_fstype p;
     Disk.percent := percent_of fl used total;
     Disk.free_gb := gigabytes fl free |}.

(** The [for] loop: a partition is skipped ([continue]) when its type is
    excluded, when it is under no monitored path, or when its usage raises
    an OSError; any other exception (of the two tests, of the usage, of the
    division by a total of zero) leaves the loop by the outer [except],
    and the list built so far is returned. *)
Fixpoint scan_partitions (s : Disk.state) (parts : list partition)
    (disk_info : list Disk.filesystem) : list Disk.filesystem :=
  match parts with
  | [] => disk_info
  | p :: rest =>
      match excluded s p with
      | Raise _ => disk_info
      | Ret true => scan_partitions s rest disk_info
      | Ret false =>
          match unmonitored s p with
          | Raise _ => disk_info
          | Ret true => scan_partitions s rest disk_info
          | Ret false =>
              match p_usage p with
              | UsageOSError => scan_partitions s rest disk_info
              | UsageError _ => disk_info
              | Usage total used free =>
                  if total =? 0 then disk_info
                  else scan_partitions s rest (disk_info ++ [entry p total used free])
              end
          end
      end
  end.

(** [_get_disk_info], on what [psutil.disk_partitions()] returns or
    raises. *)
Definition _get_disk_info (s : Disk.state) (partitions : result (list partition))
  : list Disk.filesystem :=
  match partitions with
  | Raise _ => []
  | Ret parts => scan_partitions s parts []
  end.

(** The environment of a command of the disk monitor, its metrics read
    by [_get_disk_info]. *)
Definition env_of (s : Disk.state) (now : Z) (partitions : result (list partition))
  : Disk.env :=
  {| Disk.now := now; Disk.disk_info := _get_disk_info s partitions |}.
End WithPy.
End DiskSource.

(** * A library for the examples

    The examples below run the plugins on concrete lines and requests.
    [example_lib] stands for the interpreter on those inputs: it strips and
    lowers ASCII, splits a command without quotes or backslashes at its
    blanks, prints the exceptions, and decodes the JSON texts listed in
    [example_json].  It converts no string to a number. *)
Module Examples.

Definition dq : string := String (ascii_of_nat 34) EmptyString.

(** A JSON string literal, and an object of one member. *)
Definition jstr (s : string) : string := dq +:+ s +:+ dq.
Definition jobj1 (k v : string) : string := "{" +:+ jstr k +:+ ": " +:+ v +:+ "}".

(** The characters that [str.strip] removes, up to code 255. *)
Definition is_space (c : ascii) : bool :=
  let n := nat_of_ascii c in
  ((9 <=? n)%nat && (n <=? 13)%nat) || ((28 <=? n)%nat && (n <=? 32)%nat)
  || (n =? 133)%nat || (n =? 160)%nat.

(** The characters at which [shlex.split] splits. *)
Definition is_blank (c : ascii) : bool :=
  let n := nat_of_ascii c in
  (n =? 32)%nat || (n =? 9)%nat || (n =? 10)%nat || (n =? 13)%nat.

Fixpoint lstrip (l : list ascii) : list ascii :=
  match l with
  | c :: l' => if is_space c then lstrip l' else l
  | [] => []
  end.

Definition strip (s : string) : string :=
  string_of_list_ascii
    (rev (lstrip (rev (lstrip (list_ascii_of_string s))))).

Definition lower_ascii (c : ascii) : ascii :=
  let n := nat_of_ascii c in
  if ((65 <=? n)%nat && (n <=? 90)%nat)
     || ((192 <=? n)%nat && (n <=? 222)%nat && negb (n =? 215)%nat)
  then ascii_of_nat (n + 32) else c.

Definition lower (s : string) : string :=
  string_of_list_ascii (map lower_ascii (list_ascii_of_string s)).

(** Splitting at blanks; [cur] is the token being read, reversed. *)
Fixpoint split_blanks (l : list ascii) (cur : list ascii) : list string :=
  match l with
  | [] => match cur with
          | [] => []
          | _ => [string_of_list_ascii (rev cur)]
          end
  | c :: l' =>
      if is_blank c
      then match cur with
           | [] => split_blanks l' []
           | _ => string_of_list_ascii (rev cur) :: split_blanks l' []
           end
      else split_blanks l' (c :: cur)
  end.

Definition plain (c : ascii) : bool :=
  let n := nat_of_ascii c in
  negb ((n =? 34)%nat || (n =? 39)%nat || (n =? 92)%nat).

Definition split (s : string) : result (list string) :=
  let l := list_ascii_of_string s in
  if forallb plain l then Ret (split_blanks l [])
  else Raise (ValueError "No closing quotation").

Definition type_name (v : value) : string :=
  match v with
  | VNone => "NoneType"
  | VBool _ => "bool"
  | VInt _ => "int"
  | VFloat _ => "float"
  | VStr _ => "str"
  | VList _ => "list"
  | VDict _ => "dict"
  end.

Definition show_exn (x : exn) : string :=
  match x with
  | KeyError k => "'" +:+ k +:+ "'"
  | AttributeError v a =>
      "'" +:+ type_name v +:+ "' object has no attribute '" +:+ a +:+ "'"
  | TypeError m | ValueError m | OverflowError m | OSError m => m
  end.

Definition show (v : value) : string :=
  match v with
  | VNone => "None"
  | VBool true => "True"
  | VBool false => "False"
  | VStr s => s
  | _ => "..."
  end.

(** The JSON texts of the examples, with what they decode to. *)
Definition example_json : list (string * value) :=
  [ (jobj1 "action" (jstr "start"), VDict [("action", VStr "start")]);
    (jobj1 "action" (jstr "get_status"), VDict [("action", VStr "get_status")]);
    (jobj1 "action" (jstr "get_health"), VDict [("action", VStr "get_health")]);
    (jobj1 "action" (jstr "reboot"), VDict [("action", VStr "reboot")]);
    (jobj1 "action" (jstr "execute_action"),
     VDict [("action", VStr "execute_action")]);
    ("[1]", VList [VInt 1]) ].

Definition example_lib : PyLib :=
  {| json_loads := fun s => assoc s example_json;
     str_strip := strip;
     str_lower := lower;
     float_of_str := fun _ => Raise (ValueError "could not convert string to float");
     int_of_str := fun _ => Raise (ValueError "invalid literal for int()");
     repr := show;
     exn_str := show_exn;
     shlex_split := split |}.

(** A root filesystem at 97 %, and one under /var at 90 %. *)
Definition root_fs : Disk.filesystem :=
  {| Disk.device := "/dev/sda1"; Disk.mountpoint := "/"; Disk.fstype := "ext4";
     Disk.percent := 97; Disk.free_gb := 3 |}.

Definition var_fs : Disk.filesystem :=
  {| Disk.device := "/dev/sda2"; Disk.mountpoint := "/var"; Disk.fstype := "ext4";
     Disk.percent := 90; Disk.free_gb := 10 |}.

Definition disk_env (t : Z) : Disk.env :=
  {| Disk.now := t; Disk.disk_info := [root_fs; var_fs] |}.

Definition busy_memory : Memory.memory_info :=
  {| Memory.memory_percent := 92; Memory.total_memory := 16000000000;
     Memory.available_memory := 1280000000; Memory.used_memory := 14720000000;
     Memory.swap_percent := 96; Memory.total_swap := 2000000000;
     Memory.used_swap := 1920000000; Memory.free_swap := 80000000 |}.

Definition memory_env (t : Z) : Memory.env :=
  {| Memory.now := t; Memory.read_memory := Ret busy_memory |}.

(** A shell environment in which the simulated source draws an error. *)
Definition shell_env (err : bool) : Shell.env :=
  {| Shell.t_start := 0; Shell.t_end := 1500000; Shell.sim_time := 1;
     Shell.sim_error := err; Shell.os_run := Shell.Exited 0 "" "" 1 |}.

Definition email_env (fails : bool) : Email.env :=
  {| Email.t_start := 0; Email.t_end := 500000; Email.sim_failure := fails;
     Email.sim_message_id := "<demo-0-1000@stavily-demo>";
     Email.smtp := Email.Sent "" |}.

(** A request of the shell plugin: an id, and a command. *)
Definition shell_request (command : string) : value :=
  VDict [("id", VStr "a1"); ("parameters", VDict [("command", VStr command)])].

(** Two configurations of the disk monitor: one that [initialize]
    accepts, one that it rejects (96 is not under the default critical
    threshold, 95). *)
Definition accepted_config : value :=
  VDict [("threshold", VInt 80); ("critical_threshold", VInt 90)].
Definition rejected_config : value := VDict [("threshold", VInt 96)].

Definition configured_disk : Disk.state :=
  snd (Disk.initialize example_lib accepted_config Disk.init).
Definition failed_disk : Disk.state :=
  snd (Disk.initialize example_lib rejected_config Disk.init).

(** Rounding to two decimals is exact on the byte counts of the
    examples. *)
Definition example_rounding : DiskSource.Rounding :=
  {| DiskSource.percent_of := fun used total => (inject_Z (used * 100) / inject_Z total)%Q;
     DiskSource.gigabytes := fun n => (inject_Z n / inject_Z (1024 ^ 3))%Q |}.

Definition example_partitions : list DiskSource.partition :=
  [ {| DiskSource.p_device := "/dev/sda1"; DiskSource.p_mountpoint := "/";
       DiskSource.p_fstype := "ext4";
       DiskSource.p_usage := DiskSource.Usage 100 97 3 |};
    {| DiskSource.p_device := "tmpfs"; DiskSource.p_mountpoint := "/tmp";
       DiskSource.p_fstype := "TMPFS";
       DiskSource.p_usage := DiskSource.Usage 100 99 1 |};
    {| DiskSource.p_device := "/dev/sdb1"; DiskSource.p_mountpoint := "/mnt/locked";
       DiskSource.p_fstype := "ext4";
       DiskSource.p_usage := DiskSource.UsageOSError |} ].

Definition started_shell : Shell.state := snd (Shell.start 0 (Shell.init true)).
Definition started_email : Email.state := snd (Email.start 0 (Email.init true)).
Definition started_disk : Disk.state := snd (Disk.start 0 Disk.init).

Definition started_memory : Memory.state := snd (Memory.start 0 Memory.init).
End Examples.

(** * Vocabulary of the properties *)

(** The alert key of an emitted event: the key under which
    [detect_triggers] files it in [last_alert_time]. *)
Definition disk_event_key (ev : Disk.event) : string :=
  Disk.mountpoint (Disk.ev_filesystem ev) +:+ "_" +:+ Disk.ev_alert_level ev.

Definition memory_event_key (ev : Memory.event) : string := Memory.ev_alert_type ev.

(** Every event that a poll could emit, in scan order: one for each
    filesystem that is over a threshold and not in cooldown. *)
Fixpoint disk_candidates (s : Disk.state) (now : Z) (l : list Disk.filesystem)
  : list Disk.event :=
  match l with
  | [] => []
  | fs :: rest =>
      match Disk.classify s (Disk.percent fs) with
      | Some (lv, th) =>
          if Disk._should_alert s (Disk.alert_key (Disk.mountpoint fs) lv) now
          then Disk._create_disk_event fs lv th :: disk_candidates s now rest
          else disk_candidates s now rest
      | None => disk_candidates s now rest
      end
  end.

Definition memory_candidates (s : Memory.state) (now : Z) (mi : Memory.memory_info)
  : list Memory.event :=
  (if fgt (FFin (Memory.memory_percent mi)) (Memory.memory_threshold s)
      && Memory._should_alert s "memory" now
   then [Memory._create_memory_event s mi "memory"] else [])
  ++
  (if fgt (FFin (Memory.swap_percent mi)) (Memory.swap_threshold s)
      && Memory._should_alert s "swap" now
   then [Memory._create_memory_event s mi "swap"] else []).



(** [T' - T < cooldown] for two datetimes and a cooldown in seconds. *)
Definition within_cooldown (t t' cooldown : Z) : Prop := t' - t < cooldown * 1000000.

Section WithLibrary.
Context (py : PyLib).

(** The states a plugin can be in: those that the methods which assign
    fields reach from [__init__]. *)
Inductive disk_reachable : Disk.state -> Prop :=
| disk_reach_init : disk_reachable Disk.init
| disk_reach_initialize cfg s :
    disk_reachable s -> disk_reachable (snd (Disk.initialize py cfg s))
| disk_reach_start now s :
    disk_reachable s -> disk_reachable (snd (Disk.start now s))
| disk_reach_stop s :
    disk_reachable s -> disk_reachable (snd (Disk.stop s))
| disk_reach_detect e s :
    disk_reachable s -> disk_reachable (snd (Disk.detect_triggers e s)).

Inductive shell_reachable : Shell.state -> Prop :=
| shell_reach_init demo : shell_reachable (Shell.init demo)
| shell_reach_initialize cfg s :
    shell_reachable s -> shell_reachable (snd (Shell.initialize py cfg s))
| shell_reach_start now s :
    shell_reachable s -> shell_reachable (snd (Shell.start now s))
| shell_reach_stop s :
    shell_reachable s -> shell_reachable (snd (Shell.stop s)).

(** The four grounds on which [_validate_command] turns a command down. *)
Inductive rejected (s : Shell.state) : value -> value -> Prop :=
| rejected_blocked c wd tok rest :
    shlex_split py c = Ret (tok :: rest) ->
    py_in (basename tok) (Shell.blocked_commands s) = Ret true ->
    rejected s (VStr c) wd
| rejected_not_allowed c wd tok rest :
    shlex_split py c = Ret (tok :: rest) ->
    truthy (Shell.allowed_commands s) = true ->
    py_in (basename tok) (Shell.allowed_commands s) = Ret false ->
    rejected s (VStr c) wd
| rejected_working_dir c wd paths :
    truthy (Shell.allowed_paths s) = true ->
    py_iter (Shell.allowed_paths s) = Ret paths ->
    Shell.any_startswith wd paths = Ret false ->
    rejected s (VStr c) wd
| rejected_dangerous c wd p :
    In p Shell.dangerous_patterns ->
    str_contains p (str_lower py c) = true ->
    rejected s (VStr c) wd.
End WithLibrary.

(** What the error of a rejection says: each text of [_validate_command]
    comes with the ground that it names. *)
Definition describes (py : PyLib) (s : Shell.state) (cmd wd : value) (msg : string)
  : Prop :=
  (exists x, Shell.validate_body py s cmd wd = Raise x
             /\ msg = "Validation error: " +:+ exn_str py x)
  \/ exists c, cmd = VStr c /\
       ((exists m, shlex_split py c = Raise (ValueError m)
                   /\ msg = "Invalid command syntax: " +:+ exn_str py (ValueError m))
        \/ (shlex_split py c = Ret [] /\ msg = "Empty command")
        \/ exists tok rest, shlex_split py c = Ret (tok :: rest) /\
             ((py_in (basename tok) (Shell.blocked_commands s) = Ret true
               /\ msg = "Command '" +:+ basename tok +:+ "' is blocked for security")
              \/ (truthy (Shell.allowed_commands s) = true
                  /\ py_in (basename tok) (Shell.allowed_commands s) = Ret false
                  /\ msg = "Command '" +:+ basename tok +:+ "' is not in allowed list")
              \/ (truthy (Shell.allowed_paths s) = true
                  /\ (exists paths, py_iter (Shell.allowed_paths s) = Ret paths
                                    /\ Shell.any_startswith wd paths = Ret false)
                  /\ msg = "Working directory '" +:+ py_str py wd +:+ "' is not allowed")
              \/ (exists p, In p Shell.dangerous_patterns
                            /\ str_contains p (str_lower py c) = true
                            /\ msg = "Command contains dangerous pattern: " +:+ p))).





(** The lines that [main] processes: those in front of the first line
    that is blank once stripped. *)
Fixpoint until_blank {E} (py : PyLib) (input : list (string * E)) : list (string * E) :=
  match input with
  | [] => []
  | (line, e) :: rest =>
      if String.eqb (str_strip py line) "" then []
      else (line, e) :: until_blank py rest
  end.

(** The two shapes of a response: an action with its success, or an
    error alone. *)
Definition well_shaped {D} (r : response D) : Prop :=
  (is_Some (r_action r) /\ is_Some (r_success r))
  \/ (r_action r = None /\ r_success r = None /\ r_data r = None
      /\ is_Some (r_error r)).

(** What a response says of its command: data comes with success and
    without an error; an error comes without data and without success. *)
Definition consistent {D} (r : response D) : Prop :=
  (is_Some (r_data r) -> r_success r = Some true /\ r_error r = None)
  /\ (is_Some (r_error r) -> r_success r <> Some true /\ r_data r = None).

(** The commands that assign a field of a trigger plugin, and of an
    action plugin. *)
Definition trigger_writers : list string :=
  ["initialize"; "start"; "stop"; "detect_triggers"].

Definition action_writers : list string := ["initialize"; "start"; "stop"].

(** The partitions that [_get_disk_info] reports when [exclude_types] and
    [monitored_paths] are lists of strings: the type, lowered, is none of
    the lowered excluded types, and the mountpoint starts with one of the
    monitored paths (or no path is configured). *)
Definition selects (py : PyLib) (ex mp : list string) (p : DiskSource.partition) : bool :=
  negb (existsb (String.eqb (str_lower py (DiskSource.p_fstype p)))
          (map (str_lower py) ex))
  && match mp with
     | [] => true
     | _ => existsb (fun q => String.prefix q (DiskSource.p_mountpoint p)) mp
     end.

(** The item reported for a selected partition, if its usage is read. *)
Definition reported (fl : DiskSource.Rounding) (p : DiskSource.partition)
  : list Disk.filesystem :=
  match DiskSource.p_usage p with
  | DiskSource.Usage total used free => [DiskSource.entry fl p total used free]
  | _ => []
  end.

(** No usage ends the scan: none raises but an OSError, no total is zero. *)
Definition readable (p : DiskSource.partition) : Prop :=
  match DiskSource.p_usage p with
  | DiskSource.Usage total _ _ => total <> 0
  | DiskSource.UsageOSError => True
  | DiskSource.UsageError _ => False
  end.

(** The last character of a string. *)
Fixpoint last_char (s : string) : option ascii :=
  match s with
  | EmptyString => None
  | String c EmptyString => Some c
  | String _ s' => last_char s'
  end.

(** * Lifecycle *)

Arguments fle : simpl never.
Arguments fge : simpl never.
Arguments flt : simpl never.
Arguments fgt : simpl never.
Arguments Z.mul : simpl never.
Arguments Z.ltb : simpl never.
Arguments Z.leb : simpl never.

Ltac run_m :=
  unfold mbind, mlift, mmodify, mget, mret, mraise in *;
  repeat match goal with
         | |- context [match ?r with Ret _ => _ | Raise _ => _ end] =>
             destruct r eqn:?; simpl
         | |- context [if ?b then _ else _] => destruct b eqn:?; simpl
         end.

Lemma disk_initialize_status py cfg s :
  status (Disk.life (snd (Disk.initialize py cfg s)))
  = if fst (Disk.initialize py cfg s) then Initialized else Error.
Proof.
  unfold Disk.initialize.
  destruct (Disk.initialize_body py cfg s) as [[u|x] s']; reflexivity.
Qed.

Lemma memory_initialize_status py cfg s :
  status (Memory.life (snd (Memory.initialize py cfg s)))
  = if fst (Memory.initialize py cfg s) then Initialized else Error.
Proof.
  unfold Memory.initialize.
  destruct (Memory.initialize_body py cfg s) as [[u|x] s']; reflexivity.
Qed.

Lemma shell_initialize_status py cfg s :
  status (Shell.life (snd (Shell.initialize py cfg s)))
  = if fst (Shell.initialize py cfg s) then Initialized else Error.
Proof.
  unfold Shell.initialize.
  destruct (Shell.initialize_body py cfg s) as [[u|x] s']; reflexivity.
Qed.

Lemma email_initialize_status py cfg s :
  status (Email.life (snd (Email.initialize py cfg s)))
  = if fst (Email.initialize py cfg s) then Initialized else Error.
Proof.
  unfold Email.initialize.
  destruct (Email.initialize_body py cfg s) as [[u|x] s']; reflexivity.
Qed.

(** What the [try] block of the disk monitor's [initialize] leaves behind,
    however it ends. *)
Lemma disk_initialize_body_fields py cfg s r s' :
  Disk.initialize_body py cfg s = (r, s') ->
  Disk.config s' = cfg
  /\ Disk.life s' = Disk.life s
  /\ Disk.last_alert_time s' = Disk.last_alert_time s
  /\ (forall t, Disk.cfg_float py cfg "threshold" (VFloat (FFin 85)) = Ret t ->
        Disk.threshold s' = t)
  /\ (forall t c, Disk.cfg_float py cfg "threshold" (VFloat (FFin 85)) = Ret t ->
        Disk.cfg_float py cfg "critical_threshold" (VFloat (FFin 95)) = Ret c ->
        Disk.critical_threshold s' = c)
  /\ (forall t c i, Disk.cfg_float py cfg "threshold" (VFloat (FFin 85)) = Ret t ->
        Disk.cfg_float py cfg "critical_threshold" (VFloat (FFin 95)) = Ret c ->
        Disk.cfg_int py cfg "interval" (VInt 300) = Ret i ->
        Disk.interval s' = i)
  /\ (forall t c i a, Disk.cfg_float py cfg "threshold" (VFloat (FFin 85)) = Ret t ->
        Disk.cfg_float py cfg "critical_threshold" (VFloat (FFin 95)) = Ret c ->
        Disk.cfg_int py cfg "interval" (VInt 300) = Ret i ->
        Disk.cfg_int py cfg "alert_cooldown" (VInt 600) = Ret a ->
        Disk.alert_cooldown s' = a)
  /\ (r = Ret tt ->
        fge (Disk.threshold s') (Disk.critical_threshold s') = false
        /\ fle (FFin 0) (Disk.threshold s') = true
        /\ fle (Disk.threshold s') (FFin 100) = true
        /\ fle (FFin 0) (Disk.critical_threshold s') = true
        /\ fle (Disk.critical_threshold s') (FFin 100) = true
        /\ 1 <= Disk.interval s').
Proof.
  unfold Disk.initialize_body, Disk.assign_if_present.
  run_m; intros E; inversion E; subst; clear E; simpl;
    repeat split; intros; try congruence; try discriminate.
  all: repeat match goal with
              | H : negb _ = false |- _ => apply negb_false_iff in H
              | H : (_ && _) = true |- _ => apply andb_true_iff in H; destruct H
              end; try assumption.
  all: apply Z.ltb_ge; assumption.
Qed.

Lemma memory_initialize_body_fields py cfg s r s' :
  Memory.initialize_body py cfg s = (r, s') ->
  Memory.config s' = cfg
  /\ Memory.life s' = Memory.life s
  /\ Memory.last_alert_time s' = Memory.last_alert_time s
  /\ (forall m, Memory.cfg_float py cfg "memory_threshold" (VFloat (FFin 85)) = Ret m ->
        Memory.memory_threshold s' = m)
  /\ (forall m w, Memory.cfg_float py cfg "memory_threshold" (VFloat (FFin 85)) = Ret m ->
        Memory.cfg_float py cfg "swap_threshold" (VFloat (FFin 90)) = Ret w ->
        Memory.swap_threshold s' = w)
  /\ (forall m w i, Memory.cfg_float py cfg "memory_threshold" (VFloat (FFin 85)) = Ret m ->
        Memory.cfg_float py cfg "swap_threshold" (VFloat (FFin 90)) = Ret w ->
        Memory.cfg_int py cfg "interval" (VInt 60) = Ret i ->
        Memory.interval s' = i)
  /\ (forall m w i a, Memory.cfg_float py cfg "memory_threshold" (VFloat (FFin 85)) = Ret m ->
        Memory.cfg_float py cfg "swap_threshold" (VFloat (FFin 90)) = Ret w ->
        Memory.cfg_int py cfg "interval" (VInt 60) = Ret i ->
        Memory.cfg_int py cfg "alert_cooldown" (VInt 300) = Ret a ->
        Memory.alert_cooldown s' = a).
Proof.
  unfold Memory.initialize_body.
  run_m; intros E; inversion E; subst; clear E; simpl;
    repeat split; intros; congruence.
Qed.

(** ** Threshold ordering *)

(** C6.  Whatever the state, when the threshold that [initialize] reads
    from the configuration (85 when the key is absent) is greater than or
    equal to the critical threshold it reads (95 when absent), the disk
    monitor's [initialize] returns False and the status is "error". *)
Theorem disk_initialize_rejects_unordered_thresholds
    (py : PyLib) (cfg : value) (s : Disk.state) (t c : pyfloat) :
  Disk.cfg_float py cfg "threshold" (VFloat (FFin 85)) = Ret t ->
  Disk.cfg_float py cfg "critical_threshold" (VFloat (FFin 95)) = Ret c ->
  fge t c = true ->
  fst (Disk.initialize py cfg s) = false
  /\ status (Disk.life (snd (Disk.initialize py cfg s))) = Error.
Proof.
  intros Ht Hc Hge.
  assert (fst (Disk.initialize py cfg s) = false) as Hfail.
  { unfold Disk.initialize.
    destruct (Disk.initialize_body py cfg s) as [[[]|x] s'] eqn:E; [|reflexivity].
    destruct (disk_initialize_body_fields _ _ _ _ _ E)
      as (_ & _ & _ & Hth & Hcr & _ & _ & Hok).
    destruct (Hok eq_refl) as (Hord & _).
    rewrite (Hth t Ht), (Hcr t c Ht Hc) in Hord. congruence. }
  split; [exact Hfail|].
  rewrite disk_initialize_status, Hfail. reflexivity.
Qed.

Lemma disk_initialize_rejects_unordered_thresholds_witness :
  Disk.cfg_float Examples.example_lib Examples.rejected_config "threshold"
    (VFloat (FFin 85)) = Ret (FFin (inject_Z 96))
  /\ fst (Disk.initialize Examples.example_lib Examples.rejected_config Disk.init) = false
  /\ status (Disk.life (snd (Disk.initialize Examples.example_lib
                               Examples.rejected_config Disk.init))) = Error.
Proof.
  split; [reflexivity|].
  apply (disk_initialize_rejects_unordered_thresholds Examples.example_lib
           Examples.rejected_config Disk.init (FFin (inject_Z 96)) (FFin 95));
    reflexivity.
Defined.

(** ** Rejected configurations *)

(** The claim of C3 fails: a configuration that [initialize] rejects
    after one that it accepted has replaced the stored configuration, the
    threshold and the critical threshold. *)
Lemma rejected_config_overwrites_accepted_one :
  fst (Disk.initialize Examples.example_lib Examples.accepted_config Disk.init) = true
  /\ fst (Disk.initialize Examples.example_lib Examples.rejected_config
            Examples.configured_disk) = false
  /\ Disk.config (snd (Disk.initialize Examples.example_lib Examples.rejected_config
                         Examples.configured_disk))
     <> Disk.config Examples.configured_disk
  /\ Disk.threshold (snd (Disk.initialize Examples.example_lib Examples.rejected_config
                            Examples.configured_disk))
     <> Disk.threshold Examples.configured_disk
  /\ Disk.critical_threshold (snd (Disk.initialize Examples.example_lib
                                     Examples.rejected_config Examples.configured_disk))
     <> Disk.critical_threshold Examples.configured_disk.
Proof. vm_compute. repeat split; congruence. Qed.

(** C3, amended.  When [initialize] returns False the status is "error",
    and nothing is rolled back: the stored configuration is the rejected
    one, and every field whose conversion was reached holds the value
    converted from the rejected configuration.  The running flag, the start
    time and the cooldown table are as before. *)
Theorem rejected_initialize_keeps_its_assignments (py : PyLib) (cfg : value) :
  (forall s : Disk.state,
      fst (Disk.initialize py cfg s) = false ->
      let s' := snd (Disk.initialize py cfg s) in
      status (Disk.life s') = Error
      /\ Disk.config s' = cfg
      /\ running (Disk.life s') = running (Disk.life s)
      /\ start_time (Disk.life s') = start_time (Disk.life s)
      /\ Disk.last_alert_time s' = Disk.last_alert_time s
      /\ (forall t, Disk.cfg_float py cfg "threshold" (VFloat (FFin 85)) = Ret t ->
            Disk.threshold s' = t)
      /\ (forall t c, Disk.cfg_float py cfg "threshold" (VFloat (FFin 85)) = Ret t ->
            Disk.cfg_float py cfg "critical_threshold" (VFloat (FFin 95)) = Ret c ->
            Disk.critical_threshold s' = c)
      /\ (forall t c i, Disk.cfg_float py cfg "threshold" (VFloat (FFin 85)) = Ret t ->
            Disk.cfg_float py cfg "critical_threshold" (VFloat (FFin 95)) = Ret c ->
            Disk.cfg_int py cfg "interval" (VInt 300) = Ret i ->
            Disk.interval s' = i)
      /\ (forall t c i a, Disk.cfg_float py cfg "threshold" (VFloat (FFin 85)) = Ret t ->
            Disk.cfg_float py cfg "critical_threshold" (VFloat (FFin 95)) = Ret c ->
            Disk.cfg_int py cfg "interval" (VInt 300) = Ret i ->
            Disk.cfg_int py cfg "alert_cooldown" (VInt 600) = Ret a ->
            Disk.alert_cooldown s' = a))
  /\
  (forall s : Memory.state,
      fst (Memory.initialize py cfg s) = false ->
      let s' := snd (Memory.initialize py cfg s) in
      status (Memory.life s') = Error
      /\ Memory.config s' = cfg
      /\ running (Memory.life s') = running (Memory.life s)
      /\ start_time (Memory.life s') = start_time (Memory.life s)
      /\ Memory.last_alert_time s' = Memory.last_alert_time s
      /\ (forall m, Memory.cfg_float py cfg "memory_threshold" (VFloat (FFin 85)) = Ret m ->
            Memory.memory_threshold s' = m)
      /\ (forall m w,
            Memory.cfg_float py cfg "memory_threshold" (VFloat (FFin 85)) = Ret m ->
            Memory.cfg_float py cfg "swap_threshold" (VFloat (FFin 90)) = Ret w ->
            Memory.swap_threshold s' = w)
      /\ (forall m w i,
            Memory.cfg_float py cfg "memory_threshold" (VFloat (FFin 85)) = Ret m ->
            Memory.cfg_float py cfg "swap_threshold" (VFloat (FFin 90)) = Ret w ->
            Memory.cfg_int py cfg "interval" (VInt 60) = Ret i ->
            Memory.interval s' = i)
      /\ (forall m w i a,
            Memory.cfg_float py cfg "memory_threshold" (VFloat (FFin 85)) = Ret m ->
            Memory.cfg_float py cfg "swap_threshold" (VFloat (FFin 90)) = Ret w ->
            Memory.cfg_int py cfg "interval" (VInt 60) = Ret i ->
            Memory.cfg_int py cfg "alert_cooldown" (VInt 300) = Ret a ->
            Memory.alert_cooldown s' = a)).
Proof.
  split; intros s Hfail s'.
  - split; [subst s'; rewrite disk_initialize_status, Hfail; reflexivity|].
    subst s'. unfold Disk.initialize in *.
    destruct (Disk.initialize_body py cfg s) as [[u|x] s1] eqn:E; [discriminate|].
    destruct (disk_initialize_body_fields _ _ _ _ _ E)
      as (H1 & H2 & H3 & H4 & H5 & H6 & H7 & _).
    simpl. rewrite H2. repeat split; auto.
  - split; [subst s'; rewrite memory_initialize_status, Hfail; reflexivity|].
    subst s'. unfold Memory.initialize in *.
    destruct (Memory.initialize_body py cfg s) as [[u|x] s1] eqn:E; [discriminate|].
    destruct (memory_initialize_body_fields _ _ _ _ _ E)
      as (H1 & H2 & H3 & H4 & H5 & H6 & H7).
    simpl. rewrite H2. repeat split; auto.
Qed.

Lemma rejected_initialize_keeps_its_assignments_witness :
  fst (Disk.initialize Examples.example_lib Examples.rejected_config
         Examples.configured_disk) = false
  /\ Disk.config (snd (Disk.initialize Examples.example_lib Examples.rejected_config
                         Examples.configured_disk)) = Examples.rejected_config
  /\ Disk.threshold (snd (Disk.initialize Examples.example_lib Examples.rejected_config
                            Examples.configured_disk)) = FFin (inject_Z 96).
Proof.
  split; [reflexivity|].
  destruct (rejected_initialize_keeps_its_assignments Examples.example_lib
              Examples.rejected_config) as [Hdisk _].
  destruct (Hdisk Examples.configured_disk eq_refl)
    as (_ & Hcfg & _ & _ & _ & Hth & _).
  split; [exact Hcfg|].
  apply Hth. reflexivity.
Defined.

(** ** The error state *)

(** The claim of C2 fails: the disk monitor whose [initialize] has just
    rejected a configuration is in state "error", and both [start] and
    [stop] move it out of that state. *)
Lemma start_and_stop_leave_error :
  status (Disk.life Examples.failed_disk) = Error
  /\ status (Disk.life (snd (Disk.start 0 Examples.failed_disk))) <> Error
  /\ status (Disk.life (snd (Disk.stop Examples.failed_disk))) <> Error.
Proof. vm_compute. repeat split; congruence. Qed.

(** C2, amended.  From state "error", [stop] leads to "stopped"; [start]
    leads to "running" when the running flag is clear, and changes nothing
    when the flag is set (then the state stays "error"); an [initialize]
    that accepts its configuration leads to "initialized".  The four
    plugins move their lifecycle fields in this same way. *)
Theorem error_state_transitions (l : lifecycle) (now : Z) :
  status l = Error ->
  (fst (Lifecycle.stop l) = true /\ status (snd (Lifecycle.stop l)) = Stopped)
  /\ (running l = false ->
      fst (Lifecycle.start now l) = true
      /\ status (snd (Lifecycle.start now l)) = Running)
  /\ (running l = true -> Lifecycle.start now l = (true, l))
  /\ (forall s : Disk.state, Disk.life s = l ->
        Disk.life (snd (Disk.stop s)) = snd (Lifecycle.stop l)
        /\ Disk.life (snd (Disk.start now s)) = snd (Lifecycle.start now l)
        /\ forall py cfg, fst (Disk.initialize py cfg s) = true ->
             status (Disk.life (snd (Disk.initialize py cfg s))) = Initialized)
  /\ (forall s : Memory.state, Memory.life s = l ->
        Memory.life (snd (Memory.stop s)) = snd (Lifecycle.stop l)
        /\ Memory.life (snd (Memory.start now s)) = snd (Lifecycle.start now l)
        /\ forall py cfg, fst (Memory.initialize py cfg s) = true ->
             status (Memory.life (snd (Memory.initialize py cfg s))) = Initialized)
  /\ (forall s : Shell.state, Shell.life s = l ->
        Shell.life (snd (Shell.stop s)) = snd (Lifecycle.stop l)
        /\ Shell.life (snd (Shell.start now s)) = snd (Lifecycle.start now l)
        /\ forall py cfg, fst (Shell.initialize py cfg s) = true ->
             status (Shell.life (snd (Shell.initialize py cfg s))) = Initialized)
  /\ (forall s : Email.state, Email.life s = l ->
        Email.life (snd (Email.stop s)) = snd (Lifecycle.stop l)
        /\ Email.life (snd (Email.start now s)) = snd (Lifecycle.start now l)
        /\ forall py cfg, fst (Email.initialize py cfg s) = true ->
             status (Email.life (snd (Email.initialize py cfg s))) = Initialized).
Proof.
  intros _. split; [split; reflexivity|]. split; [|split].
  - intros Hr. unfold Lifecycle.start. rewrite Hr. split; reflexivity.
  - intros Hr. unfold Lifecycle.start. now rewrite Hr.
  - split; [|split; [|split]]; intros s <-.
    + split; [reflexivity|]. split.
      * unfold Disk.start. destruct (Lifecycle.start now (Disk.life s)); reflexivity.
      * intros py cfg Hok. now rewrite disk_initialize_status, Hok.
    + split; [reflexivity|]. split.
      * unfold Memory.start. destruct (Lifecycle.start now (Memory.life s)); reflexivity.
      * intros py cfg Hok. now rewrite memory_initialize_status, Hok.
    + split; [reflexivity|]. split.
      * unfold Shell.start. destruct (Lifecycle.start now (Shell.life s)); reflexivity.
      * intros py cfg Hok. now rewrite shell_initialize_status, Hok.
    + split; [reflexivity|]. split.
      * unfold Email.start. destruct (Lifecycle.start now (Email.life s)); reflexivity.
      * intros py cfg Hok. now rewrite email_initialize_status, Hok.
Qed.

Lemma error_state_transitions_witness :
  status (Disk.life Examples.failed_disk) = Error
  /\ status (Disk.life (snd (Disk.stop Examples.failed_disk))) = Stopped
  /\ status (Disk.life (snd (Disk.start 7 Examples.failed_disk))) = Running.
Proof.
  split; [reflexivity|].
  destruct (error_state_transitions (Disk.life Examples.failed_disk) 7 eq_refl)
    as ((_ & Hstop) & Hstart & _ & Hdisk & _).
  destruct (Hdisk Examples.failed_disk eq_refl) as (Hs & Hst & _).
  rewrite Hs, Hst. split; [exact Hstop|].
  apply Hstart. reflexivity.
Defined.

(** ** Health *)

(** In every state that the methods reach, status "running" comes with
    the running flag. *)
Lemma disk_running_status_flag py s :
  disk_reachable py s -> status (Disk.life s) = Running -> running (Disk.life s) = true.
Proof.
  induction 1 as [|cfg s Hs IH|now s Hs IH|s Hs IH|e s Hs IH]; simpl.
  - discriminate.
  - rewrite disk_initialize_status.
    destruct (fst (Disk.initialize py cfg s)); discriminate.
  - unfold Disk.start, Lifecycle.start.
    destruct (running (Disk.life s)) eqn:Hr; simpl; auto.
  - discriminate.
  - unfold Disk.detect_triggers.
    destruct (negb (running (Disk.life s))); simpl; auto.
    destruct (Disk.scan s (Disk.now e) (Disk.disk_info e)) as [[ev key]|]; simpl; auto.
Qed.

Lemma shell_running_status_flag py s :
  shell_reachable py s -> status (Shell.life s) = Running -> running (Shell.life s) = true.
Proof.
  induction 1 as [demo|cfg s Hs IH|now s Hs IH|s Hs IH]; simpl.
  - discriminate.
  - rewrite shell_initialize_status.
    destruct (fst (Shell.initialize py cfg s)); discriminate.
  - unfold Shell.start, Lifecycle.start.
    destruct (running (Shell.life s)) eqn:Hr; simpl; auto.
  - discriminate.
Qed.

Lemma mk_health_status {Mt} now l (m : Mt) :
  h_status (mk_health now l m) = "healthy" <-> running l = true.
Proof.
  unfold mk_health; simpl. destruct (running l); split; intros; congruence.
Qed.

Lemma mk_health_unhealthy {Mt} now l (m : Mt) :
  h_status (mk_health now l m) = "unhealthy" <-> running l = false.
Proof.
  unfold mk_health; simpl. destruct (running l); split; intros; congruence.
Qed.

(** The claim of C9 fails: a disk monitor that is started and then
    initialized again is in state "initialized", and its health is
    "healthy". *)
Lemma healthy_while_not_running :
  disk_reachable Examples.example_lib
    (snd (Disk.initialize Examples.example_lib (VDict []) Examples.started_disk))
  /\ status (Disk.life (snd (Disk.initialize Examples.example_lib (VDict [])
                              Examples.started_disk))) = Initialized
  /\ h_status (Disk.get_health (Examples.disk_env 9)
                 (snd (Disk.initialize Examples.example_lib (VDict [])
                         Examples.started_disk))) = "healthy".
Proof.
  split; [|split; reflexivity].
  apply disk_reach_initialize. unfold Examples.started_disk.
  apply disk_reach_start, disk_reach_init.
Qed.

Lemma disk_dispatch_get_health py cmd e s :
  py_get cmd "action" VNone = Ret (VStr "get_health") ->
  Disk.dispatch py cmd e s
  = (Ret (reply (VStr "get_health") true (Some (Disk.DHealth (Disk.get_health e s))) None),
     s).
Proof. intros H. unfold Disk.dispatch. rewrite H. reflexivity. Qed.

Lemma shell_dispatch_get_health py cmd e s :
  py_get cmd "action" VNone = Ret (VStr "get_health") ->
  Shell.dispatch py cmd e s
  = match Shell.get_health (Shell.t_start e) s with
    | Ret h => (Ret (reply (VStr "get_health") true (Some (Shell.DHealth h)) None), s)
    | Raise x => (Raise x, s)
    end.
Proof.
  intros H. unfold Shell.dispatch. rewrite H. simpl.
  destruct (Shell.get_health (Shell.t_start e) s); reflexivity.
Qed.

(** C9, amended.  [get_health] changes no field, and the status it
    reports is "healthy" exactly when the running flag is set, "unhealthy"
    exactly when it is clear.  In every reachable state, lifecycle state
    "running" implies "healthy" (the converse fails, see above).  The disk
    monitor always reports; the shell plugin reports whenever its
    [allowed_commands] and [blocked_commands] have a length, and raises
    otherwise. *)
Theorem health_follows_running_flag (py : PyLib) :
  (forall (s : Disk.state) (e : Disk.env),
      disk_reachable py s ->
      (h_status (Disk.get_health e s) = "healthy" <-> running (Disk.life s) = true)
      /\ (h_status (Disk.get_health e s) = "unhealthy" <-> running (Disk.life s) = false)
      /\ (status (Disk.life s) = Running -> h_status (Disk.get_health e s) = "healthy")
      /\ (forall cmd, py_get cmd "action" VNone = Ret (VStr "get_health") ->
            snd (Disk.dispatch py cmd e s) = s))
  /\
  (forall (s : Shell.state) (e : Shell.env),
      shell_reachable py s ->
      (forall a b, py_len (Shell.allowed_commands s) = Ret a ->
                   py_len (Shell.blocked_commands s) = Ret b ->
                   exists h, Shell.get_health (Shell.t_start e) s = Ret h)
      /\ (forall h, Shell.get_health (Shell.t_start e) s = Ret h ->
            (h_status h = "healthy" <-> running (Shell.life s) = true)
            /\ (h_status h = "unhealthy" <-> running (Shell.life s) = false)
            /\ (status (Shell.life s) = Running -> h_status h = "healthy"))
      /\ (forall cmd, py_get cmd "action" VNone = Ret (VStr "get_health") ->
            snd (Shell.dispatch py cmd e s) = s)).
Proof.
  split; intros s e Hreach.
  - unfold Disk.get_health. split; [apply mk_health_status|].
    split; [apply mk_health_unhealthy|]. split.
    + intros Hst. apply mk_health_status.
      eapply disk_running_status_flag; eauto.
    + intros cmd Hc. now rewrite disk_dispatch_get_health.
  - split; [|split].
    + intros a b Ha Hb. unfold Shell.get_health. rewrite Ha, Hb. simpl. eauto.
    + intros h Hh. unfold Shell.get_health in Hh.
      destruct (py_len (Shell.allowed_commands s)) as [a|]; [|discriminate].
      destruct (py_len (Shell.blocked_commands s)) as [b|]; [|discriminate].
      simpl in Hh. inversion Hh; subst; clear Hh.
      split; [apply mk_health_status|]. split; [apply mk_health_unhealthy|].
      intros Hst. apply mk_health_status.
      eapply shell_running_status_flag; eauto.
    + intros cmd Hc. rewrite shell_dispatch_get_health by assumption.
      destruct (Shell.get_health (Shell.t_start e) s); reflexivity.
Qed.

Lemma health_follows_running_flag_witness :
  disk_reachable Examples.example_lib Examples.started_disk
  /\ status (Disk.life Examples.started_disk) = Running
  /\ h_status (Disk.get_health (Examples.disk_env 9) Examples.started_disk) = "healthy".
Proof.
  assert (disk_reachable Examples.example_lib Examples.started_disk) as Hr
    by (apply disk_reach_start, disk_reach_init).
  split; [exact Hr|]. split; [reflexivity|].
  destruct (health_follows_running_flag Examples.example_lib) as [Hdisk _].
  destruct (Hdisk Examples.started_disk (Examples.disk_env 9) Hr) as (_ & _ & H & _).
  apply H. reflexivity.
Defined.

(** ** Detection: one event per poll *)

Lemma disk_scan_head s now l :
  option_map fst (Disk.scan s now l) = head (disk_candidates s now l).
Proof.
  induction l as [|fs rest IH]; simpl; [reflexivity|].
  destruct (Disk.classify s (Disk.percent fs)) as [[lv th]|]; [|exact IH].
  destruct (Disk._should_alert s (Disk.alert_key (Disk.mountpoint fs) lv) now);
    [reflexivity|exact IH].
Qed.

(** What the scan returns is the event of a filesystem of the list that
    is over a threshold, with the key of that event, and the key is not in
    cooldown. *)
Lemma disk_scan_some s now l ev key :
  Disk.scan s now l = Some (ev, key) ->
  key = disk_event_key ev
  /\ Disk._should_alert s key now = true
  /\ exists fs lv th,
      In fs l /\ Disk.classify s (Disk.percent fs) = Some (lv, th)
      /\ ev = Disk._create_disk_event fs lv th.
Proof.
  induction l as [|fs rest IH]; simpl; [discriminate|].
  destruct (Disk.classify s (Disk.percent fs)) as [[lv th]|] eqn:Hc.
  - destruct (Disk._should_alert s (Disk.alert_key (Disk.mountpoint fs) lv) now) eqn:Ha.
    + intros E; inversion E; subst; clear E.
      split; [reflexivity|]. split; [exact Ha|].
      exists fs, lv, th. auto.
    + intros E. destruct (IH E) as (H1 & H2 & fs' & lv' & th' & Hin & H3 & H4).
      split; [exact H1|]. split; [exact H2|].
      exists fs', lv', th'. auto.
  - intros E. destruct (IH E) as (H1 & H2 & fs' & lv' & th' & Hin & H3 & H4).
    split; [exact H1|]. split; [exact H2|].
    exists fs', lv', th'. auto.
Qed.

(** [detect_triggers] of the disk monitor, case by case. *)
Lemma disk_detect_cases e s :
  match Disk.detect_triggers e s with
  | (Some ev, s') =>
      running (Disk.life s) = true
      /\ Disk._should_alert s (disk_event_key ev) (Disk.now e) = true
      /\ s' = Disk.set_last_alert_time
                (<[disk_event_key ev := Disk.now e]> (Disk.last_alert_time s)) s
  | (None, s') => s' = s
  end.
Proof.
  unfold Disk.detect_triggers.
  destruct (running (Disk.life s)) eqn:Hr; simpl; [|reflexivity].
  destruct (Disk.scan s (Disk.now e) (Disk.disk_info e)) as [[ev key]|] eqn:Hs;
    [|reflexivity].
  destruct (disk_scan_some _ _ _ _ _ Hs) as (Hk & Ha & _). subst key. auto.
Qed.

Lemma memory_detect_cases e s :
  match Memory.detect_triggers e s with
  | (Some ev, s') =>
      running (Memory.life s) = true
      /\ Memory._should_alert s (memory_event_key ev) (Memory.now e) = true
      /\ s' = Memory.set_last_alert_time
                (<[memory_event_key ev := Memory.now e]> (Memory.last_alert_time s)) s
  | (None, s') => s' = s
  end.
Proof.
  unfold Memory.detect_triggers.
  destruct (running (Memory.life s)) eqn:Hr; simpl; [|reflexivity].
  destruct (Memory.read_memory e) as [mi|x]; [|reflexivity].
  destruct (fgt (FFin (Memory.memory_percent mi)) (Memory.memory_threshold s)); simpl.
  - destruct (Memory._should_alert s "memory" (Memory.now e)) eqn:Hm; [auto|].
    destruct (fgt (FFin (Memory.swap_percent mi)) (Memory.swap_threshold s)); simpl;
      [|reflexivity].
    destruct (Memory._should_alert s "swap" (Memory.now e)) eqn:Hw; auto.
  - destruct (fgt (FFin (Memory.swap_percent mi)) (Memory.swap_threshold s)); simpl;
      [|reflexivity].
    destruct (Memory._should_alert s "swap" (Memory.now e)) eqn:Hw; auto.
Qed.

Lemma memory_detect_head e s mi :
  running (Memory.life s) = true ->
  Memory.read_memory e = Ret mi ->
  fst (Memory.detect_triggers e s) = head (memory_candidates s (Memory.now e) mi).
Proof.
  intros Hr Hm. unfold Memory.detect_triggers, memory_candidates.
  rewrite Hr, Hm. simpl.
  destruct (fgt (FFin (Memory.memory_percent mi)) (Memory.memory_threshold s)
            && Memory._should_alert s "memory" (Memory.now e)); [reflexivity|].
  destruct (fgt (FFin (Memory.swap_percent mi)) (Memory.swap_threshold s)
            && Memory._should_alert s "swap" (Memory.now e)); reflexivity.
Qed.

(** C5.  A poll returns no event or one event: of all the events that the
    sub-metrics over a threshold and out of cooldown call for, the first in
    scan order, and none when the plugin is not running.  When it returns
    an event, the cooldown table holds the time of the poll under the key
    of that event and is unchanged at every other key, and no other field
    changes; when it returns none, the state is unchanged. *)
Theorem poll_emits_first_candidate_only :
  (forall (e : Disk.env) (s : Disk.state),
      fst (Disk.detect_triggers e s)
      = (if running (Disk.life s)
         then head (disk_candidates s (Disk.now e) (Disk.disk_info e))
         else None)
      /\ match Disk.detect_triggers e s with
         | (Some ev, s') =>
             Disk.last_alert_time s' !! disk_event_key ev = Some (Disk.now e)
             /\ (forall k, k <> disk_event_key ev ->
                   Disk.last_alert_time s' !! k = Disk.last_alert_time s !! k)
             /\ s' = Disk.set_last_alert_time (Disk.last_alert_time s') s
         | (None, s') => s' = s
         end)
  /\
  (forall (e : Memory.env) (s : Memory.state),
      fst (Memory.detect_triggers e s)
      = (if running (Memory.life s)
         then match Memory.read_memory e with
              | Ret mi => head (memory_candidates s (Memory.now e) mi)
              | Raise _ => None
              end
         else None)
      /\ match Memory.detect_triggers e s with
         | (Some ev, s') =>
             Memory.last_alert_time s' !! memory_event_key ev = Some (Memory.now e)
             /\ (forall k, k <> memory_event_key ev ->
                   Memory.last_alert_time s' !! k = Memory.last_alert_time s !! k)
             /\ s' = Memory.set_last_alert_time (Memory.last_alert_time s') s
         | (None, s') => s' = s
         end).
Proof.
  split; intros e s.
  - split.
    + unfold Disk.detect_triggers.
      destruct (running (Disk.life s)); simpl; [|reflexivity].
      rewrite <- disk_scan_head.
      destruct (Disk.scan s (Disk.now e) (Disk.disk_info e)) as [[ev key]|]; reflexivity.
    + pose proof (disk_detect_cases e s) as H.
      destruct (Disk.detect_triggers e s) as [[ev|] s']; [|exact H].
      destruct H as (_ & _ & ->). simpl. split; [apply lookup_insert_eq|].
      split; [|reflexivity].
      intros k Hk. apply lookup_insert_ne. congruence.
  - split.
    + destruct (running (Memory.life s)) eqn:Hr.
      * destruct (Memory.read_memory e) as [mi|x] eqn:Hm.
        -- now apply memory_detect_head.
        -- unfold Memory.detect_triggers. now rewrite Hr, Hm.
      * unfold Memory.detect_triggers. now rewrite Hr.
    + pose proof (memory_detect_cases e s) as H.
      destruct (Memory.detect_triggers e s) as [[ev|] s']; [|exact H].
      destruct H as (_ & _ & ->). simpl. split; [apply lookup_insert_eq|].
      split; [|reflexivity].
      intros k Hk. apply lookup_insert_ne. congruence.
Qed.

(** Two filesystems are over a threshold and out of cooldown; the poll
    emits the event of the first, and files only its key. *)
Example poll_of_two_alerting_filesystems :
  length (disk_candidates Examples.started_disk 1000
            (Disk.disk_info (Examples.disk_env 1000))) = 2%nat
  /\ option_map disk_event_key
       (fst (Disk.detect_triggers (Examples.disk_env 1000) Examples.started_disk))
     = Some "/_critical"
  /\ Disk.last_alert_time
       (snd (Disk.detect_triggers (Examples.disk_env 1000) Examples.started_disk))
     = {[ "/_critical" := 1000 ]}.
Proof. repeat split; vm_compute; reflexivity. Qed.

(** ** Detection: cooldown *)

Lemma div_half_even_bounds n d :
  0 < d -> 0 <= n ->
  n / d <= div_half_even n d
  /\ 2 * (div_half_even n d * d) <= 2 * n + d.
Proof.
  intros Hd Hn. unfold div_half_even.
  pose proof (Z.div_mod n d ltac:(lia)) as E.
  pose proof (Z.mod_pos_bound n d Hd) as B.
  destruct (2 * (n mod d) <? d) eqn:H1; [apply Z.ltb_lt in H1; split; nia|].
  apply Z.ltb_ge in H1.
  destruct (d <? 2 * (n mod d)) eqn:H2; [apply Z.ltb_lt in H2; split; nia|].
  apply Z.ltb_ge in H2.
  destruct (Z.even (n / d)); split; nia.
Qed.

(** The parts of [true_divide_us a]: the exponent is not negative, the
    significand has 53 bits. *)
Lemma true_divide_us_parts a :
  0 < a ->
  let g := Z.log2 (a * 2 ^ 80 / 1000000) - 52 in
  0 <= g
  /\ 2 ^ 52 * (1000000 * 2 ^ g) <= a * 2 ^ 80
  /\ a * 2 ^ 80 < 2 ^ 53 * (1000000 * 2 ^ g) + 1000000.
Proof.
  intros Ha g.
  assert (2 ^ 52 <= a * 2 ^ 80 / 1000000) as HY.
  { apply Z.div_le_lower_bound; [lia|].
    change (2 ^ 80) with 1208925819614629174706176.
    change (2 ^ 52) with 4503599627370496. lia. }
  assert (0 < a * 2 ^ 80 / 1000000) as HY0
    by (change (2 ^ 52) with 4503599627370496 in HY; lia).
  pose proof (Z.log2_spec _ HY0) as [L1 L2].
  assert (52 <= Z.log2 (a * 2 ^ 80 / 1000000)) as Hl.
  { change 52 with (Z.log2 (2 ^ 52)). now apply Z.log2_le_mono. }
  assert (0 <= g) as Hg by (unfold g; lia).
  split; [exact Hg|].
  assert (Z.log2 (a * 2 ^ 80 / 1000000) = 52 + g) as El by (unfold g; lia).
  rewrite El in L1, L2.
  replace (Z.succ (52 + g)) with (53 + g) in L2 by lia.
  rewrite Z.pow_add_r in L1, L2 by lia.
  pose proof (Z.div_mod (a * 2 ^ 80) 1000000 ltac:(lia)) as E.
  pose proof (Z.mod_pos_bound (a * 2 ^ 80) 1000000 ltac:(lia)) as B.
  split; nia.
Qed.

Lemma Qle_bool_scaled c n :
  Qle_bool (inject_Z c) (Qmake n (Z.to_pos (2 ^ 80))) = (c * 2 ^ 80 <=? n).
Proof.
  unfold Qle_bool. cbn [Qnum Qden inject_Z].
  rewrite Z2Pos.id by (change (2 ^ 80) with 1208925819614629174706176; lia).
  now rewrite Z.mul_1_r.
Qed.


Lemma true_divide_us_upper a c :
  0 < a -> c <= 2 ^ 34 -> a < c * 1000000 ->
  Qle_bool (inject_Z c) (true_divide_us a) = false.
Proof.
  intros Ha Hc Hlt. unfold true_divide_us. cbv zeta.
  destruct (true_divide_us_parts a Ha) as (Hg & Hlo & _).
  set (g := Z.log2 (a * 2 ^ 80 / 1000000) - 52) in *.
  rewrite Qle_bool_scaled. apply Z.leb_gt.
  assert (0 < 2 ^ g) as Hp by (apply Z.pow_pos_nonneg; lia).
  destruct (div_half_even_bounds (a * 2 ^ 80) (1000000 * 2 ^ g)) as [_ Hr]; [lia|lia|].
  set (m := div_half_even (a * 2 ^ 80) (1000000 * 2 ^ g)) in *.
  assert (g <= 61) as Hs.
  { destruct (Z_le_gt_dec g 61) as [|Hgt]; [assumption|exfalso].
    assert (2 ^ g = 2 ^ (g - 62) * 2 ^ 62) as E
      by (rewrite <- Z.pow_add_r by lia; f_equal; lia).
    assert (0 < 2 ^ (g - 62)) by (apply Z.pow_pos_nonneg; lia).
    rewrite E in Hlo.
    change (2 ^ 34) with 17179869184 in Hc.
    change (2 ^ 52) with 4503599627370496 in *.
    change (2 ^ 80) with 1208925819614629174706176 in *.
    change (2 ^ 62) with 4611686018427387904 in *.
    nia. }
  assert (2 ^ g <= 2 ^ 61) as Hp' by (apply Z.pow_le_mono_r; lia).
  change (2 ^ 61) with 2305843009213693952 in Hp'.
  change (2 ^ 80) with 1208925819614629174706176 in *.
  nia.
Qed.

Lemma true_divide_us_pos a :
  0 < a -> Qle_bool (true_divide_us a) 0 = false.
Proof.
  intros Ha. unfold true_divide_us. cbv zeta.
  destruct (true_divide_us_parts a Ha) as (Hg & Hlo & _).
  set (g := Z.log2 (a * 2 ^ 80 / 1000000) - 52) in *.
  assert (0 < 2 ^ g) as Hp by (apply Z.pow_pos_nonneg; lia).
  destruct (div_half_even_bounds (a * 2 ^ 80) (1000000 * 2 ^ g)) as [Hq _]; [lia|lia|].
  set (m := div_half_even (a * 2 ^ 80) (1000000 * 2 ^ g)) in *.
  assert (2 ^ 52 <= m).
  { etransitivity; [|exact Hq]. apply Z.div_le_lower_bound; lia. }
  unfold Qle_bool. cbn [Qnum Qden]. apply Z.leb_gt.
  change (2 ^ 52) with 4503599627370496 in *. nia.
Qed.

(** What the rounding of [total_seconds()] leaves of the comparison with
    a cooldown.  Up to [2^34] seconds two floats next to one another are
    less than two microseconds apart, and the comparison is that of the
    microseconds. *)
Lemma total_seconds_within t t' c :
  0 <= c <= 2 ^ 34 ->
  within_cooldown t t' c -> total_seconds_ge (t' - t) c = false.
Proof.
  unfold within_cooldown, total_seconds_ge, total_seconds. intros Hc H.
  destruct (t' - t =? 0) eqn:E0.
  - apply Z.eqb_eq in E0. unfold Qle_bool. cbn [Qnum Qden inject_Z].
    apply Z.leb_gt. lia.
  - apply Z.eqb_neq in E0. destruct (0 <? t' - t) eqn:E1.
    + apply Z.ltb_lt in E1. apply true_divide_us_upper; lia.
    + apply Z.ltb_ge in E1.
      pose proof (true_divide_us_pos (- (t' - t)) ltac:(lia)) as Hp.
      destruct (true_divide_us (- (t' - t))) as [n d].
      unfold Qle_bool in *. cbn [Qnum Qden inject_Z Qopp] in *.
      apply Z.leb_gt in Hp. apply Z.leb_gt. nia.
Qed.


(** No elapsed time is rounded below zero. *)
Lemma total_seconds_nonneg delta c :
  c <= 0 -> 0 <= delta -> total_seconds_ge delta c = true.
Proof.
  unfold total_seconds_ge, total_seconds. intros Hc Hd.
  destruct (delta =? 0) eqn:E0.
  - unfold Qle_bool. cbn [Qnum Qden inject_Z]. apply Z.leb_le. lia.
  - apply Z.eqb_neq in E0. destruct (0 <? delta) eqn:E1.
    + apply Z.ltb_lt in E1.
      pose proof (true_divide_us_pos delta E1) as Hp.
      destruct (true_divide_us delta) as [n d].
      unfold Qle_bool in *. cbn [Qnum Qden inject_Z] in *.
      apply Z.leb_gt in Hp. apply Z.leb_le. nia.
    + apply Z.ltb_ge in E1. lia.
Qed.








(** ** The dispatcher *)

Lemma nonblank_eqb (l : string) : l <> "" -> String.eqb l "" = false.
Proof. intros H. now apply String.eqb_neq. Qed.








(** ** Requests without an id *)

Lemma getitem_missing d k : assoc k d = None -> py_getitem (VDict d) k = Raise (KeyError k).
Proof. intros H. unfold py_getitem. now rewrite H. Qed.

Lemma shell_execute_missing_id py d e s :
  assoc "id" d = None ->
  Shell.execute_action py (VDict d) e s = (Raise (KeyError "id"), []).
Proof.
  intros H. unfold Shell.execute_action. rewrite (getitem_missing d "id" H).
  destruct (negb (running (Shell.life s))); reflexivity.
Qed.

Lemma email_execute_missing_id py d e s :
  assoc "id" d = None ->
  Email.execute_action py (VDict d) e s = (Raise (KeyError "id"), []).
Proof.
  intros H. unfold Email.execute_action. rewrite (getitem_missing d "id" H).
  destruct (negb (running (Email.life s))); reflexivity.
Qed.

(** C10.  When the action request is a mapping without the key "id",
    [execute_action] of either action plugin raises KeyError('id'),
    running or not, without calling an Action Source; the dispatcher then
    answers the line with [{"error": "Plugin error: ..."}] carrying that
    exception, leaves the state as it is, and no ActionResult is
    written. *)
Theorem request_without_id_raises (py : PyLib) (d : list (string * value)) :
  assoc "id" d = None ->
  (forall e s, Shell.execute_action py (VDict d) e s = (Raise (KeyError "id"), []))
  /\ (forall e s, Email.execute_action py (VDict d) e s = (Raise (KeyError "id"), []))
  /\ (forall line cmd e s,
        str_strip py line <> "" ->
        json_loads py (str_strip py line) = Some cmd ->
        py_get cmd "action" VNone = Ret (VStr "execute_action") ->
        py_get cmd "action_request" (VDict []) = Ret (VDict d) ->
        Shell.handle_line py line e s
        = (Emit (error_only ("Plugin error: " +:+ exn_str py (KeyError "id"))), s))
  /\ (forall line cmd e s,
        str_strip py line <> "" ->
        json_loads py (str_strip py line) = Some cmd ->
        py_get cmd "action" VNone = Ret (VStr "execute_action") ->
        py_get cmd "action_request" (VDict []) = Ret (VDict d) ->
        Email.handle_line py line e s
        = (Emit (error_only ("Plugin error: " +:+ exn_str py (KeyError "id"))), s)).
Proof.
  intros Hid. split; [|split; [|split]].
  - intros e s. now apply shell_execute_missing_id.
  - intros e s. now apply email_execute_missing_id.
  - intros line cmd e s Hnb Hj Ha Hr. apply nonblank_eqb in Hnb.
    unfold Shell.handle_line. rewrite Hnb, Hj.
    unfold Shell.dispatch. rewrite Ha. simpl. rewrite Hr.
    rewrite (shell_execute_missing_id py d e s Hid). reflexivity.
  - intros line cmd e s Hnb Hj Ha Hr. apply nonblank_eqb in Hnb.
    unfold Email.handle_line. rewrite Hnb, Hj.
    unfold Email.dispatch. rewrite Ha. simpl. rewrite Hr.
    rewrite (email_execute_missing_id py d e s Hid). reflexivity.
Qed.

(** The line [{"action": "execute_action"}] carries no request; [main]
    passes the empty dict, and the answer is the dispatcher's error, on
    the started shell plugin as on the one that was never started. *)
Lemma request_without_id_raises_witness :
  Shell.handle_line Examples.example_lib
    (Examples.jobj1 "action" (Examples.jstr "execute_action"))
    (Examples.shell_env false) Examples.started_shell
  = (Emit (error_only "Plugin error: 'id'"), Examples.started_shell)
  /\ Shell.execute_action Examples.example_lib (VDict [])
       (Examples.shell_env false) (Shell.init true)
     = (Raise (KeyError "id"), []).
Proof.
  destruct (request_without_id_raises Examples.example_lib [] eq_refl)
    as (Hshell & _ & Hline & _).
  split; [|apply Hshell].
  apply (Hline _ (VDict [("action", VStr "execute_action")])).
  - vm_compute. discriminate.
  - reflexivity.
  - reflexivity.
  - reflexivity.
Defined.

(** ** Validation of shell commands *)

(** A command that [_validate_command] accepts has passed every check. *)
Lemma validate_command_valid py s cmd wd :
  Shell._validate_command py s cmd wd = Shell.Valid ->
  exists c tok rest,
    cmd = VStr c
    /\ shlex_split py c = Ret (tok :: rest)
    /\ py_in (basename tok) (Shell.blocked_commands s) = Ret false
    /\ (truthy (Shell.allowed_commands s) = true ->
        py_in (basename tok) (Shell.allowed_commands s) = Ret true)
    /\ (truthy (Shell.allowed_paths s) = true ->
        exists paths, py_iter (Shell.allowed_paths s) = Ret paths
                      /\ Shell.any_startswith wd paths = Ret true)
    /\ find (fun p => str_contains p (str_lower py c)) Shell.dangerous_patterns = None.
Proof.
  unfold Shell._validate_command, Shell.validate_body. intros H.
  destruct cmd as [| | | |c| |]; try discriminate.
  destruct (shlex_split py c) as [[|tok rest]|x] eqn:Hsplit;
    [discriminate| |destruct x; discriminate].
  destruct (py_in (basename tok) (Shell.blocked_commands s)) as [[|]|] eqn:Hb;
    cbn [rbind] in H; try discriminate.
  exists c, tok, rest.
  split; [reflexivity|]. split; [exact Hsplit|]. split; [exact Hb|].
  assert ((truthy (Shell.allowed_commands s) = true ->
           py_in (basename tok) (Shell.allowed_commands s) = Ret true)
          /\ match (if truthy (Shell.allowed_paths s)
                    then rbind (py_iter (Shell.allowed_paths s))
                           (fun paths => Shell.any_startswith wd paths)
                    else Ret true) with
             | Ret true =>
                 find (fun p => str_contains p (str_lower py c))
                   Shell.dangerous_patterns = None
             | _ => False
             end) as [Ha Hrest].
  { destruct (truthy (Shell.allowed_commands s)).
    - destruct (py_in (basename tok) (Shell.allowed_commands s)) as [[|]|];
        cbn [rbind negb] in H; try discriminate.
      split; [reflexivity|].
      destruct (if truthy (Shell.allowed_paths s)
                then rbind (py_iter (Shell.allowed_paths s))
                       (fun paths => Shell.any_startswith wd paths)
                else Ret true) as [[|]|]; cbn [rbind negb] in H; try discriminate.
      destruct (find _ Shell.dangerous_patterns); [discriminate|reflexivity].
    - cbn [rbind] in H. split; [discriminate|].
      destruct (if truthy (Shell.allowed_paths s)
                then rbind (py_iter (Shell.allowed_paths s))
                       (fun paths => Shell.any_startswith wd paths)
                else Ret true) as [[|]|]; cbn [rbind negb] in H; try discriminate.
      destruct (find _ Shell.dangerous_patterns); [discriminate|reflexivity]. }
  split; [exact Ha|].
  destruct (truthy (Shell.allowed_paths s)).
  - destruct (py_iter (Shell.allowed_paths s)) as [paths|]; cbn [rbind] in Hrest;
      [|contradiction].
    destruct (Shell.any_startswith wd paths) as [[|]|] eqn:Hw; try contradiction.
    split; [intros _; exists paths; split; [reflexivity|exact Hw]|exact Hrest].
  - split; [discriminate|exact Hrest].
Qed.

(** Each of the four grounds makes [_validate_command] turn the command
    down. *)
Lemma rejected_invalid py s cmd wd :
  rejected py s cmd wd ->
  exists msg, Shell._validate_command py s cmd wd = Shell.Invalid msg.
Proof.
  intros Hrej.
  destruct (Shell._validate_command py s cmd wd) as [|msg] eqn:Hv; [|eauto].
  exfalso.
  destruct (validate_command_valid _ _ _ _ Hv)
    as (c & tok & rest & Hc & Hsplit & Hb & Ha & Hp & Hd).
  destruct Hrej as [c' wd tok' rest' Hs' Hb'|c' wd tok' rest' Hs' Ht' Ha'
                   |c' wd paths Ht' Hi' Hw'|c' wd p Hin Hp'];
    inversion Hc; subst c'.
  - rewrite Hs' in Hsplit. inversion Hsplit; subst. congruence.
  - rewrite Hs' in Hsplit. inversion Hsplit; subst.
    specialize (Ha Ht'). congruence.
  - destruct (Hp Ht') as (paths' & Hi & Hw). congruence.
  - pose proof (find_none _ _ Hd p Hin) as Hn. simpl in Hn. congruence.
Qed.

(** The error of a rejection is the text of the check that failed. *)
Lemma invalid_describes py s cmd wd msg :
  Shell._validate_command py s cmd wd = Shell.Invalid msg -> describes py s cmd wd msg.
Proof.
  unfold Shell._validate_command, describes.
  destruct (Shell.validate_body py s cmd wd) as [v|x] eqn:Hbody.
  2: { intros E; inversion E. left. eauto. }
  intros ->. right. revert Hbody. unfold Shell.validate_body.
  destruct cmd as [| | | |c| |]; try discriminate.
  intros Hbody. exists c. split; [reflexivity|]. revert Hbody.
  destruct (shlex_split py c) as [[|tok rest]|x] eqn:Hsplit.
  - intros E; inversion E. right. left. auto.
  - intros Hbody. right. right. exists tok, rest. split; [reflexivity|]. revert Hbody.
    cbv zeta.
    destruct (py_in (basename tok) (Shell.blocked_commands s)) as [[|]|] eqn:Hb;
      cbn [rbind]; try discriminate.
    { intros E; inversion E. left. auto. }
    destruct (truthy (Shell.allowed_commands s)) eqn:Hta.
    + destruct (py_in (basename tok) (Shell.allowed_commands s)) as [[|]|] eqn:Ha;
        cbn [rbind negb]; try discriminate.
      2: { intros E; inversion E. right. left. auto. }
      destruct (truthy (Shell.allowed_paths s)) eqn:Htp.
      * destruct (py_iter (Shell.allowed_paths s)) as [paths|] eqn:Hi;
          cbn [rbind]; [|discriminate].
        destruct (Shell.any_startswith wd paths) as [[|]|] eqn:Hw;
          cbn [rbind negb]; try discriminate.
        -- destruct (find (fun p => str_contains p (str_lower py c))
                       Shell.dangerous_patterns) as [p|] eqn:Hf;
             intros E; inversion E.
           apply find_some in Hf. destruct Hf as [Hin Hp].
           right. right. right. eauto.
        -- intros E; inversion E. right. right. left. eauto 6.
      * cbn [rbind negb].
        destruct (find (fun p => str_contains p (str_lower py c))
                    Shell.dangerous_patterns) as [p|] eqn:Hf;
          intros E; inversion E.
        apply find_some in Hf. destruct Hf as [Hin Hp].
        right. right. right. eauto.
    + cbn [rbind].
      destruct (truthy (Shell.allowed_paths s)) eqn:Htp.
      * destruct (py_iter (Shell.allowed_paths s)) as [paths|] eqn:Hi;
          cbn [rbind]; [|discriminate].
        destruct (Shell.any_startswith wd paths) as [[|]|] eqn:Hw;
          cbn [rbind negb]; try discriminate.
        -- destruct (find (fun p => str_contains p (str_lower py c))
                       Shell.dangerous_patterns) as [p|] eqn:Hf;
             intros E; inversion E.
           apply find_some in Hf. destruct Hf as [Hin Hp].
           right. right. right. eauto.
        -- intros E; inversion E. right. right. left. eauto 6.
      * cbn [rbind negb].
        destruct (find (fun p => str_contains p (str_lower py c))
                    Shell.dangerous_patterns) as [p|] eqn:Hf;
          intros E; inversion E.
        apply find_some in Hf. destruct Hf as [Hin Hp].
        right. right. right. eauto.
  - destruct x; intros E; inversion E. left. eauto.
Qed.

(** The text of each ground, when the checks in front of it pass. *)
Lemma validate_command_grounds py s c wd tok rest :
  shlex_split py c = Ret (tok :: rest) ->
  (py_in (basename tok) (Shell.blocked_commands s) = Ret true ->
   Shell._validate_command py s (VStr c) wd
   = Shell.Invalid ("Command '" +:+ basename tok +:+ "' is blocked for security"))
  /\ (py_in (basename tok) (Shell.blocked_commands s) = Ret false ->
      truthy (Shell.allowed_commands s) = true ->
      py_in (basename tok) (Shell.allowed_commands s) = Ret false ->
      Shell._validate_command py s (VStr c) wd
      = Shell.Invalid ("Command '" +:+ basename tok +:+ "' is not in allowed list"))
  /\ (py_in (basename tok) (Shell.blocked_commands s) = Ret false ->
      (truthy (Shell.allowed_commands s) = true ->
       py_in (basename tok) (Shell.allowed_commands s) = Ret true) ->
      truthy (Shell.allowed_paths s) = true ->
      forall paths,
        py_iter (Shell.allowed_paths s) = Ret paths ->
        Shell.any_startswith wd paths = Ret false ->
        Shell._validate_command py s (VStr c) wd
        = Shell.Invalid ("Working directory '" +:+ py_str py wd +:+ "' is not allowed"))
  /\ (py_in (basename tok) (Shell.blocked_commands s) = Ret false ->
      (truthy (Shell.allowed_commands s) = true ->
       py_in (basename tok) (Shell.allowed_commands s) = Ret true) ->
      (truthy (Shell.allowed_paths s) = true ->
       exists paths, py_iter (Shell.allowed_paths s) = Ret paths
                     /\ Shell.any_startswith wd paths = Ret true) ->
      forall p,
        find (fun p => str_contains p (str_lower py c)) Shell.dangerous_patterns
        = Some p ->
        Shell._validate_command py s (VStr c) wd
        = Shell.Invalid ("Command contains dangerous pattern: " +:+ p)).
Proof.
  intros Hsplit. unfold Shell._validate_command, Shell.validate_body.
  rewrite Hsplit. cbv zeta.
  split; [|split; [|split]].
  - intros Hb. rewrite Hb. reflexivity.
  - intros Hb Hta Ha. rewrite Hb. cbn [rbind]. rewrite Hta, Ha. reflexivity.
  - intros Hb Hpass Htp paths Hi Hw. rewrite Hb. cbn [rbind].
    destruct (truthy (Shell.allowed_commands s));
      [rewrite (Hpass eq_refl)|]; cbn [rbind negb];
      rewrite Htp, Hi; cbn [rbind]; rewrite Hw; reflexivity.
  - intros Hb Hpass Hpaths p Hf. rewrite Hb. cbn [rbind].
    destruct (truthy (Shell.allowed_commands s));
      [rewrite (Hpass eq_refl)|]; cbn [rbind negb];
      (destruct (truthy (Shell.allowed_paths s));
       [destruct (Hpaths eq_refl) as (paths & Hi & Hw); rewrite Hi; cbn [rbind];
        rewrite Hw|]; cbn [rbind negb]; rewrite Hf; reflexivity).
Qed.

Lemma shell_execute_running py req e s action_id parameters :
  running (Shell.life s) = true ->
  py_getitem req "id" = Ret action_id ->
  py_get req "parameters" (VDict []) = Ret parameters ->
  Shell.execute_action py req e s
  = (Ret (finish action_id (Shell.t_start e) (Shell.t_end e)
            (fst (Shell.try_block py action_id parameters e s)) (exn_str py)),
     snd (Shell.try_block py action_id parameters e s)).
Proof.
  intros Hr Hid Hp. unfold Shell.execute_action. rewrite Hr, Hid, Hp. simpl.
  destruct (Shell.try_block py action_id parameters e s); reflexivity.
Qed.

Lemma shell_try_block_command py action_id parameters e s cmd wd :
  py_get parameters "command" (VStr "") = Ret cmd ->
  py_get parameters "working_dir" (VStr "/tmp") = Ret wd ->
  Shell.try_block py action_id parameters e s
  = if negb (truthy cmd) then
      (Ret (Return (_create_error_result action_id "Command parameter is required"
                      (Shell.t_start e) (Shell.t_end e))), [])
    else
      match Shell._validate_command py s cmd wd with
      | Shell.Invalid msg =>
          (Ret (Return (_create_error_result action_id msg
                          (Shell.t_start e) (Shell.t_end e))), [])
      | Shell.Valid =>
          (Shell.wrap s cmd wd
             (if Shell.demo_mode s
              then Shell._simulate_command_execution (py_str py cmd)
                     (Shell.sim_time e) (Shell.sim_error e)
              else Shell._execute_command py s wd
                     (match py_get parameters "timeout" (VInt (Shell.timeout s)) with
                      | Ret t => t
                      | Raise _ => VNone
                      end) (Shell.os_run e)),
           [{| Shell.sc_simulated := Shell.demo_mode s;
               Shell.sc_command := cmd;
               Shell.sc_working_dir := wd;
               Shell.sc_env_vars :=
                 match py_get parameters "env_vars" (VDict []) with
                 | Ret v => v
                 | Raise _ => VNone
                 end;
               Shell.sc_input :=
                 match py_get parameters "input" (VStr "") with
                 | Ret v => v
                 | Raise _ => VNone
                 end;
               Shell.sc_timeout :=
                 match py_get parameters "timeout" (VInt (Shell.timeout s)) with
                 | Ret t => t
                 | Raise _ => VNone
                 end |}])
      end.
Proof.
  intros Hc Hw. unfold Shell.try_block.
  destruct parameters as [| | | | | |p]; try discriminate.
  unfold py_get in *. inversion Hc; inversion Hw; subst. cbn [rbind].
  reflexivity.
Qed.

(** The running branch of [execute_action] on a request with an id. *)
Lemma shell_rejected_command
    (py : PyLib) (s : Shell.state) (e : Shell.env)
    (req action_id parameters cmd wd : value) :
  running (Shell.life s) = true ->
  py_getitem req "id" = Ret action_id ->
  py_get req "parameters" (VDict []) = Ret parameters ->
  py_get parameters "command" (VStr "") = Ret cmd ->
  py_get parameters "working_dir" (VStr "/tmp") = Ret wd ->
  (truthy cmd = false ->
   Shell.execute_action py req e s
   = (Ret (_create_error_result action_id "Command parameter is required"
             (Shell.t_start e) (Shell.t_end e)), []))
  /\ (truthy cmd = true ->
      forall msg, Shell._validate_command py s cmd wd = Shell.Invalid msg ->
        describes py s cmd wd msg
        /\ Shell.execute_action py req e s
           = (Ret (_create_error_result action_id msg
                     (Shell.t_start e) (Shell.t_end e)), []))
  /\ (rejected py s cmd wd ->
      exists msg r,
        Shell.execute_action py req e s = (Ret r, [])
        /\ ar_status r = AFailed /\ ar_error r = Some msg /\ ar_data r = None
        /\ (truthy cmd = true ->
            Shell._validate_command py s cmd wd = Shell.Invalid msg
            /\ describes py s cmd wd msg))
  /\ (truthy cmd = true ->
      forall c tok rest,
        cmd = VStr c ->
        shlex_split py c = Ret (tok :: rest) ->
        (py_in (basename tok) (Shell.blocked_commands s) = Ret true ->
         Shell.execute_action py req e s
         = (Ret (_create_error_result action_id
                   ("Command '" +:+ basename tok +:+ "' is blocked for security")
                   (Shell.t_start e) (Shell.t_end e)), []))
        /\ (py_in (basename tok) (Shell.blocked_commands s) = Ret false ->
            truthy (Shell.allowed_commands s) = true ->
            py_in (basename tok) (Shell.allowed_commands s) = Ret false ->
            Shell.execute_action py req e s
            = (Ret (_create_error_result action_id
                      ("Command '" +:+ basename tok +:+ "' is not in allowed list")
                      (Shell.t_start e) (Shell.t_end e)), []))
        /\ (py_in (basename tok) (Shell.blocked_commands s) = Ret false ->
            (truthy (Shell.allowed_commands s) = true ->
             py_in (basename tok) (Shell.allowed_commands s) = Ret true) ->
            truthy (Shell.allowed_paths s) = true ->
            forall paths,
              py_iter (Shell.allowed_paths s) = Ret paths ->
              Shell.any_startswith wd paths = Ret false ->
              Shell.execute_action py req e s
              = (Ret (_create_error_result action_id
                        ("Working directory '" +:+ py_str py wd +:+ "' is not allowed")
                        (Shell.t_start e) (Shell.t_end e)), []))
        /\ (py_in (basename tok) (Shell.blocked_commands s) = Ret false ->
            (truthy (Shell.allowed_commands s) = true ->
             py_in (basename tok) (Shell.allowed_commands s) = Ret true) ->
            (truthy (Shell.allowed_paths s) = true ->
             exists paths, py_iter (Shell.allowed_paths s) = Ret paths
                           /\ Shell.any_startswith wd paths = Ret true) ->
            forall p,
              find (fun p => str_contains p (str_lower py c)) Shell.dangerous_patterns
              = Some p ->
              Shell.execute_action py req e s
              = (Ret (_create_error_result action_id
                        ("Command contains dangerous pattern: " +:+ p)
                        (Shell.t_start e) (Shell.t_end e)), []))).
Proof.
  intros Hr Hid Hp Hc Hw.
  rewrite (shell_execute_running py req e s action_id parameters Hr Hid Hp).
  rewrite (shell_try_block_command py action_id parameters e s cmd wd Hc Hw).
  split; [|split; [|split]].
  - intros Ht. rewrite Ht. reflexivity.
  - intros Ht msg Hv. rewrite Ht, Hv. split; [|reflexivity].
    eapply invalid_describes; eauto.
  - intros Hrej. destruct (rejected_invalid py s cmd wd Hrej) as [msg Hv].
    destruct (truthy cmd) eqn:Ht; simpl.
    + rewrite Hv. exists msg. eexists. split; [reflexivity|]. simpl.
      repeat split; auto. eapply invalid_describes; eauto.
    + exists "Command parameter is required". eexists.
      split; [reflexivity|]. simpl. repeat split; discriminate.
  - intros Ht c tok rest Hcmd Hsplit. rewrite Ht. cbn [negb].
    destruct (validate_command_grounds py s c wd tok rest Hsplit)
      as (G1 & G2 & G3 & G4).
    subst cmd.
    split; [|split; [|split]].
    + intros Hb. now rewrite (G1 Hb).
    + intros Hb Hta Ha. now rewrite (G2 Hb Hta Ha).
    + intros Hb Hpass Htp paths Hi Hany. now rewrite (G3 Hb Hpass Htp paths Hi Hany).
    + intros Hb Hpass Hpaths p Hf. now rewrite (G4 Hb Hpass Hpaths p Hf).
Qed.

(** C7.  Take the shell plugin in state "running" and a request with an
    id whose parameters give a command and a working directory.  When
    [_validate_command] turns the command down, [execute_action] returns
    the failed result of [_create_error_result] with the error of the
    validation and no data, and calls no Action Source, real or
    simulated.  The validation turns the command down on each of the four
    grounds, and its error names the ground: for a command that splits
    into tokens, an executable in the blocked set gives "Command '<exe>'
    is blocked for security"; else an executable missing from a
    configured allow-list gives "Command '<exe>' is not in allowed list";
    else a working directory under none of the allowed prefixes gives
    "Working directory '<dir>' is not allowed"; else the first dangerous
    pattern found in the lowered command gives "Command contains
    dangerous pattern: <pattern>".  Whatever the ground, the error is the
    text of a check that did fail on this command.  An empty command is
    turned down before the validation, in the same way. *)
Theorem rejected_command_fails_without_source
    (py : PyLib) (s : Shell.state) (e : Shell.env)
    (req action_id parameters cmd wd : value) :
  shell_reachable py s ->
  status (Shell.life s) = Running ->
  py_getitem req "id" = Ret action_id ->
  py_get req "parameters" (VDict []) = Ret parameters ->
  py_get parameters "command" (VStr "") = Ret cmd ->
  py_get parameters "working_dir" (VStr "/tmp") = Ret wd ->
  (truthy cmd = false ->
   Shell.execute_action py req e s
   = (Ret (_create_error_result action_id "Command parameter is required"
             (Shell.t_start e) (Shell.t_end e)), []))
  /\ (truthy cmd = true ->
      forall msg, Shell._validate_command py s cmd wd = Shell.Invalid msg ->
        describes py s cmd wd msg
        /\ Shell.execute_action py req e s
           = (Ret (_create_error_result action_id msg
                     (Shell.t_start e) (Shell.t_end e)), []))
  /\ (rejected py s cmd wd ->
      exists msg r,
        Shell.execute_action py req e s = (Ret r, [])
        /\ ar_status r = AFailed /\ ar_error r = Some msg /\ ar_data r = None
        /\ (truthy cmd = true ->
            Shell._validate_command py s cmd wd = Shell.Invalid msg
            /\ describes py s cmd wd msg))
  /\ (truthy cmd = true ->
      forall c tok rest,
        cmd = VStr c ->
        shlex_split py c = Ret (tok :: rest) ->
        (py_in (basename tok) (Shell.blocked_commands s) = Ret true ->
         Shell.execute_action py req e s
         = (Ret (_create_error_result action_id
                   ("Command '" +:+ basename tok +:+ "' is blocked for security")
                   (Shell.t_start e) (Shell.t_end e)), []))
        /\ (py_in (basename tok) (Shell.blocked_commands s) = Ret false ->
            truthy (Shell.allowed_commands s) = true ->
            py_in (basename tok) (Shell.allowed_commands s) = Ret false ->
            Shell.execute_action py req e s
            = (Ret (_create_error_result action_id
                      ("Command '" +:+ basename tok +:+ "' is not in allowed list")
                      (Shell.t_start e) (Shell.t_end e)), []))
        /\ (py_in (basename tok) (Shell.blocked_commands s) = Ret false ->
            (truthy (Shell.allowed_commands s) = true ->
             py_in (basename tok) (Shell.allowed_commands s) = Ret true) ->
            truthy (Shell.allowed_paths s) = true ->
            forall paths,
              py_iter (Shell.allowed_paths s) = Ret paths ->
              Shell.any_startswith wd paths = Ret false ->
              Shell.execute_action py req e s
              = (Ret (_create_error_result action_id
                        ("Working directory '" +:+ py_str py wd +:+ "' is not allowed")
                        (Shell.t_start e) (Shell.t_end e)), []))
        /\ (py_in (basename tok) (Shell.blocked_commands s) = Ret false ->
            (truthy (Shell.allowed_commands s) = true ->
             py_in (basename tok) (Shell.allowed_commands s) = Ret true) ->
            (truthy (Shell.allowed_paths s) = true ->
             exists paths, py_iter (Shell.allowed_paths s) = Ret paths
                           /\ Shell.any_startswith wd paths = Ret true) ->
            forall p,
              find (fun p => str_contains p (str_lower py c)) Shell.dangerous_patterns
              = Some p ->
              Shell.execute_action py req e s
              = (Ret (_create_error_result action_id
                        ("Command contains dangerous pattern: " +:+ p)
                        (Shell.t_start e) (Shell.t_end e)), []))).
Proof.
  intros Hreach Hst. apply shell_rejected_command.
  eapply shell_running_status_flag; eauto.
Qed.

(** The request of the scenario: "rm -rf /" on the started shell plugin
    with its default lists. *)
Lemma rejected_command_fails_without_source_witness :
  shell_reachable Examples.example_lib Examples.started_shell
  /\ status (Shell.life Examples.started_shell) = Running
  /\ rejected Examples.example_lib Examples.started_shell (VStr "rm -rf /") (VStr "/tmp")
  /\ Shell.execute_action Examples.example_lib (Examples.shell_request "rm -rf /")
       (Examples.shell_env false) Examples.started_shell
     = (Ret (_create_error_result (VStr "a1") "Command 'rm' is blocked for security"
               0 1500000), []).
Proof.
  assert (shell_reachable Examples.example_lib Examples.started_shell) as Hreach
    by (apply shell_reach_start, shell_reach_init).
  split; [exact Hreach|]. split; [reflexivity|]. split.
  - apply rejected_blocked with (tok := "rm") (rest := ["-rf"; "/"]); reflexivity.
  - destruct (rejected_command_fails_without_source Examples.example_lib
                Examples.started_shell (Examples.shell_env false)
                (Examples.shell_request "rm -rf /") (VStr "a1")
                (VDict [("command", VStr "rm -rf /")]) (VStr "rm -rf /") (VStr "/tmp")
                Hreach eq_refl eq_refl eq_refl eq_refl eq_refl) as (_ & H & _).
    apply (H eq_refl "Command 'rm' is blocked for security"). reflexivity.
Defined.

(** ** Data and error of a result *)









(** * Further properties of the code *)

(** ** Start and stop *)

Lemma memory_set_life_same (s : Memory.state) : Memory.set_life (Memory.life s) s = s.
Proof. destruct s; reflexivity. Qed.

Lemma email_set_life_same (s : Email.state) : Email.set_life (Email.life s) s = s.
Proof. destruct s; reflexivity. Qed.

Lemma disk_set_life_id (s : Disk.state) : Disk.set_life (Disk.life s) s = s.
Proof. destruct s; reflexivity. Qed.

Lemma shell_set_life_id (s : Shell.state) : Shell.set_life (Shell.life s) s = s.
Proof. destruct s; reflexivity. Qed.

Lemma lifecycle_start_twice t1 t2 l :
  Lifecycle.start t2 (snd (Lifecycle.start t1 l)) = (true, snd (Lifecycle.start t1 l)).
Proof. unfold Lifecycle.start. destruct (running l) eqn:Hr; simpl; now rewrite ?Hr. Qed.

(** X1.  [start] is idempotent: whatever the state, a second [start]
    returns True and changes no field; in particular the start time of
    the first [start] stays.  The first [start] returns True and leaves
    the running flag set.  This holds for the four plugins. *)
Theorem start_twice (t1 t2 : Z) :
  (forall s : Disk.state,
      fst (Disk.start t1 s) = true
      /\ running (Disk.life (snd (Disk.start t1 s))) = true
      /\ Disk.start t2 (snd (Disk.start t1 s)) = (true, snd (Disk.start t1 s)))
  /\ (forall s : Memory.state,
      fst (Memory.start t1 s) = true
      /\ running (Memory.life (snd (Memory.start t1 s))) = true
      /\ Memory.start t2 (snd (Memory.start t1 s)) = (true, snd (Memory.start t1 s)))
  /\ (forall s : Shell.state,
      fst (Shell.start t1 s) = true
      /\ running (Shell.life (snd (Shell.start t1 s))) = true
      /\ Shell.start t2 (snd (Shell.start t1 s)) = (true, snd (Shell.start t1 s)))
  /\ (forall s : Email.state,
      fst (Email.start t1 s) = true
      /\ running (Email.life (snd (Email.start t1 s))) = true
      /\ Email.start t2 (snd (Email.start t1 s)) = (true, snd (Email.start t1 s))).
Proof.
  split; [|split; [|split]]; intros s.
  - unfold Disk.start, Lifecycle.start.
    destruct (running (Disk.life s)) eqn:Hr; simpl; rewrite ?Hr; simpl;
      repeat split; auto; now rewrite ?disk_set_life_id.
  - unfold Memory.start, Lifecycle.start.
    destruct (running (Memory.life s)) eqn:Hr; simpl; rewrite ?Hr; simpl;
      repeat split; auto; now rewrite ?memory_set_life_same.
  - unfold Shell.start, Lifecycle.start.
    destruct (running (Shell.life s)) eqn:Hr; simpl; rewrite ?Hr; simpl;
      repeat split; auto; now rewrite ?shell_set_life_id.
  - unfold Email.start, Lifecycle.start.
    destruct (running (Email.life s)) eqn:Hr; simpl; rewrite ?Hr; simpl;
      repeat split; auto; now rewrite ?email_set_life_same.
Qed.

(** X2.  [stop] returns True from any state, clears the running flag and
    sets the status "stopped", and a second [stop] changes nothing.  It
    keeps the start time: the health after [stop] is "unhealthy", with the
    uptime that the health reported before. *)
Theorem stop_keeps_start_time (s : Disk.state) (e : Disk.env) :
  fst (Disk.stop s) = true
  /\ running (Disk.life (snd (Disk.stop s))) = false
  /\ status (Disk.life (snd (Disk.stop s))) = Stopped
  /\ Disk.stop (snd (Disk.stop s)) = Disk.stop s
  /\ start_time (Disk.life (snd (Disk.stop s))) = start_time (Disk.life s)
  /\ h_status (Disk.get_health e (snd (Disk.stop s))) = "unhealthy"
  /\ h_uptime (Disk.get_health e (snd (Disk.stop s))) = h_uptime (Disk.get_health e s).
Proof. destruct s; repeat split. Qed.

(** X3.  In every state that the methods of the disk monitor or of the
    shell plugin reach from [__init__]: status "running" comes with the
    running flag, status "stopped" comes without it, and a set running
    flag comes with a start time. *)
Theorem lifecycle_invariant (py : PyLib) :
  (forall s, disk_reachable py s ->
      (status (Disk.life s) = Running -> running (Disk.life s) = true)
      /\ (status (Disk.life s) = Stopped -> running (Disk.life s) = false)
      /\ (running (Disk.life s) = true -> is_Some (start_time (Disk.life s))))
  /\ (forall s, shell_reachable py s ->
      (status (Shell.life s) = Running -> running (Shell.life s) = true)
      /\ (status (Shell.life s) = Stopped -> running (Shell.life s) = false)
      /\ (running (Shell.life s) = true -> is_Some (start_time (Shell.life s)))).
Proof.
  split.
  - induction 1 as [|cfg s Hs IH|now s Hs IH|s Hs IH|e s Hs IH].
    + simpl. repeat split; try discriminate; auto.
    + destruct IH as (I1 & I2 & I3).
      unfold Disk.initialize.
      destruct (Disk.initialize_body py cfg s) as [[u|x] s'] eqn:E;
        destruct (disk_initialize_body_fields _ _ _ _ _ E) as (_ & Hl & _);
        simpl; rewrite Hl; repeat split; try discriminate; auto.
    + destruct IH as (I1 & I2 & I3).
      unfold Disk.start, Lifecycle.start.
      destruct (running (Disk.life s)) eqn:Hr; simpl.
      * rewrite Hr in *. repeat split; auto.
      * repeat split; try discriminate; eauto.
    + simpl. repeat split; try discriminate; auto.
    + pose proof (disk_detect_cases e s) as H.
      destruct (Disk.detect_triggers e s) as [[ev|] s']; simpl.
      * destruct H as (_ & _ & ->). exact IH.
      * subst s'. exact IH.
  - induction 1 as [demo|cfg s Hs IH|now s Hs IH|s Hs IH].
    + simpl. repeat split; try discriminate; auto.
    + destruct IH as (I1 & I2 & I3).
      assert (Shell.life (snd (Shell.initialize_body py cfg s)) = Shell.life s) as Hl.
      { unfold Shell.initialize_body, Shell.assign_if_present.
        run_m; reflexivity. }
      unfold Shell.initialize.
      destruct (Shell.initialize_body py cfg s) as [[u|x] s'] eqn:E; simpl in *;
        rewrite Hl; repeat split; try discriminate; auto.
    + destruct IH as (I1 & I2 & I3).
      unfold Shell.start, Lifecycle.start.
      destruct (running (Shell.life s)) eqn:Hr; simpl.
      * rewrite Hr in *. repeat split; auto.
      * repeat split; try discriminate; eauto.
    + simpl. repeat split; try discriminate; auto.
Qed.

Lemma lifecycle_invariant_witness :
  disk_reachable Examples.example_lib Examples.started_disk
  /\ is_Some (start_time (Disk.life Examples.started_disk)).
Proof.
  assert (disk_reachable Examples.example_lib Examples.started_disk) as Hr
    by (apply disk_reach_start, disk_reach_init).
  split; [exact Hr|].
  destruct (lifecycle_invariant Examples.example_lib) as [Hdisk _].
  destruct (Hdisk _ Hr) as (_ & _ & H). apply H. reflexivity.
Defined.

(** ** Initialization *)

Lemma disk_assign_if_present_dict d key set (s : Disk.state) :
  Disk.assign_if_present (VDict d) key set s
  = (Ret tt, match assoc key d with Some v => set v s | None => s end).
Proof.
  unfold Disk.assign_if_present, mbind, mlift, mmodify, mret, py_in, py_getitem.
  destruct (assoc key d); reflexivity.
Qed.

Lemma cfg_float_dict py cfg key dflt t :
  Disk.cfg_float py cfg key dflt = Ret t -> exists d, cfg = VDict d.
Proof. destruct cfg; try discriminate. eauto. Qed.

(** The [try] block of the disk monitor's [initialize] on a mapping whose
    four numbers convert. *)
Lemma disk_initialize_body_dict py d s t c i a :
  Disk.cfg_float py (VDict d) "threshold" (VFloat (FFin 85)) = Ret t ->
  Disk.cfg_float py (VDict d) "critical_threshold" (VFloat (FFin 95)) = Ret c ->
  Disk.cfg_int py (VDict d) "interval" (VInt 300) = Ret i ->
  Disk.cfg_int py (VDict d) "alert_cooldown" (VInt 600) = Ret a ->
  exists s',
    snd (Disk.initialize_body py (VDict d) s) = s'
    /\ Disk.config s' = VDict d /\ Disk.threshold s' = t
    /\ Disk.critical_threshold s' = c /\ Disk.interval s' = i
    /\ Disk.alert_cooldown s' = a
    /\ Disk.monitored_paths s'
       = default (Disk.monitored_paths s) (assoc "monitored_paths" d)
    /\ Disk.exclude_types s'
       = default (Disk.exclude_types s) (assoc "exclude_types" d)
    /\ fst (Disk.initialize_body py (VDict d) s)
       = if negb (fle (FFin 0) t && fle t (FFin 100))
         then Raise (ValueError "Threshold must be between 0 and 100")
         else if negb (fle (FFin 0) c && fle c (FFin 100))
         then Raise (ValueError "Critical threshold must be between 0 and 100")
         else if fge t c
         then Raise (ValueError "Critical threshold must be higher than regular threshold")
         else if i <? 1
         then Raise (ValueError "Interval must be at least 1 second")
         else Ret tt.
Proof.
  intros Ht Hc Hi Ha.
  unfold Disk.initialize_body, mbind, mmodify, mlift, mget, mraise, mret.
  cbv beta iota. rewrite Ht. cbv beta iota. rewrite Hc. cbv beta iota.
  rewrite Hi. cbv beta iota. rewrite Ha. cbv beta iota.
  rewrite disk_assign_if_present_dict. cbv beta iota.
  rewrite disk_assign_if_present_dict. cbv beta iota.
  destruct (assoc "monitored_paths" d) as [v1|];
    destruct (assoc "exclude_types" d) as [v2|]; simpl;
    eexists; (split; [reflexivity|]);
    repeat match goal with
           | |- context [if ?b then _ else _] => destruct b; simpl
           end; repeat split.
Qed.

Lemma disk_initialize_body_ok py cfg s s' :
  Disk.initialize_body py cfg s = (Ret tt, s') ->
  exists t c i a,
    Disk.cfg_float py cfg "threshold" (VFloat (FFin 85)) = Ret t
    /\ Disk.cfg_float py cfg "critical_threshold" (VFloat (FFin 95)) = Ret c
    /\ Disk.cfg_int py cfg "interval" (VInt 300) = Ret i
    /\ Disk.cfg_int py cfg "alert_cooldown" (VInt 600) = Ret a
    /\ fle (FFin 0) t = true /\ fle t (FFin 100) = true
    /\ fle (FFin 0) c = true /\ fle c (FFin 100) = true
    /\ fge t c = false /\ 1 <= i.
Proof.
  intros E.
  destruct (Disk.cfg_float py cfg "threshold" (VFloat (FFin 85))) as [t|x] eqn:Ht.
  2: { unfold Disk.initialize_body, mbind, mmodify, mlift in E.
       rewrite Ht in E. discriminate. }
  destruct (Disk.cfg_float py cfg "critical_threshold" (VFloat (FFin 95)))
    as [c|x] eqn:Hc.
  2: { unfold Disk.initialize_body, mbind, mmodify, mlift in E.
       rewrite Ht, Hc in E. discriminate. }
  destruct (Disk.cfg_int py cfg "interval" (VInt 300)) as [i|x] eqn:Hi.
  2: { unfold Disk.initialize_body, mbind, mmodify, mlift in E.
       rewrite Ht, Hc, Hi in E. discriminate. }
  destruct (Disk.cfg_int py cfg "alert_cooldown" (VInt 600)) as [a|x] eqn:Ha.
  2: { unfold Disk.initialize_body, mbind, mmodify, mlift in E.
       rewrite Ht, Hc, Hi, Ha in E. discriminate. }
  destruct (cfg_float_dict _ _ _ _ _ Ht) as [d ->].
  destruct (disk_initialize_body_dict py d s t c i a Ht Hc Hi Ha)
    as (s1 & _ & _ & _ & _ & _ & _ & _ & _ & Hres).
  rewrite E in Hres. simpl in Hres.
  exists t, c, i, a. repeat (split; [reflexivity|]).
  destruct (fle (FFin 0) t); [|discriminate].
  destruct (fle t (FFin 100)); [|discriminate].
  destruct (fle (FFin 0) c); [|discriminate].
  destruct (fle c (FFin 100)); [|discriminate].
  destruct (fge t c); [discriminate|].
  destruct (i <? 1) eqn:Hlt; [discriminate|].
  apply Z.ltb_ge in Hlt. auto 10.
Qed.

(** X4.  The disk monitor's [initialize] returns True exactly when the
    configuration gives a threshold and a critical threshold that convert
    to floats with 0 <= threshold < critical_threshold <= 100, an interval
    that converts to an integer of at least 1, and an alert cooldown that
    converts to an integer; defaults (85, 95, 300, 600) stand for absent
    keys.  The outcome does not depend on the state before the call, and
    the status after it is "initialized". *)
Theorem disk_initialize_accepts (py : PyLib) (cfg : value) (s : Disk.state) :
  fst (Disk.initialize py cfg s) = true
  <-> exists t c i a,
      Disk.cfg_float py cfg "threshold" (VFloat (FFin 85)) = Ret t
      /\ Disk.cfg_float py cfg "critical_threshold" (VFloat (FFin 95)) = Ret c
      /\ Disk.cfg_int py cfg "interval" (VInt 300) = Ret i
      /\ Disk.cfg_int py cfg "alert_cooldown" (VInt 600) = Ret a
      /\ fle (FFin 0) t = true /\ fle t (FFin 100) = true
      /\ fle (FFin 0) c = true /\ fle c (FFin 100) = true
      /\ fge t c = false /\ 1 <= i.
Proof.
  split.
  - unfold Disk.initialize.
    destruct (Disk.initialize_body py cfg s) as [[[]|x] s'] eqn:E; [|discriminate].
    intros _. eapply disk_initialize_body_ok; eauto.
  - intros (t & c & i & a & Ht & Hc & Hi & Ha & H1 & H2 & H3 & H4 & H5 & H6).
    destruct (cfg_float_dict _ _ _ _ _ Ht) as [d ->].
    destruct (disk_initialize_body_dict py d s t c i a Ht Hc Hi Ha)
      as (s1 & _ & _ & _ & _ & _ & _ & _ & _ & Hres).
    rewrite H1, H2, H3, H4, H5 in Hres. simpl in Hres.
    apply Z.ltb_ge in H6. rewrite H6 in Hres.
    unfold Disk.initialize.
    destruct (Disk.initialize_body py (VDict d) s) as [[u|x] s']; simpl in *;
      [reflexivity|discriminate].
Qed.

(** X5.  When the disk monitor's [initialize] accepts a mapping, a numeric
    field whose key is absent takes its default, whatever it held before,
    while [monitored_paths] and [exclude_types] keep the value they held
    before when their key is absent, and take the configured value
    otherwise. *)
Theorem disk_initialize_absent_keys
    (py : PyLib) (d : list (string * value)) (s : Disk.state) :
  fst (Disk.initialize py (VDict d) s) = true ->
  let s' := snd (Disk.initialize py (VDict d) s) in
  (assoc "threshold" d = None -> Disk.threshold s' = FFin 85)
  /\ (assoc "critical_threshold" d = None -> Disk.critical_threshold s' = FFin 95)
  /\ (assoc "interval" d = None -> Disk.interval s' = 300)
  /\ (assoc "alert_cooldown" d = None -> Disk.alert_cooldown s' = 600)
  /\ Disk.monitored_paths s'
     = default (Disk.monitored_paths s) (assoc "monitored_paths" d)
  /\ Disk.exclude_types s'
     = default (Disk.exclude_types s) (assoc "exclude_types" d).
Proof.
  intros Hok s'.
  destruct (proj1 (disk_initialize_accepts py (VDict d) s) Hok)
    as (t & c & i & a & Ht & Hc & Hi & Ha & _).
  destruct (disk_initialize_body_dict py d s t c i a Ht Hc Hi Ha)
    as (s1 & Hs1 & _ & Hth & Hcr & Hin & Hco & Hmp & Hex & _).
  assert (Disk.threshold s' = t /\ Disk.critical_threshold s' = c
          /\ Disk.interval s' = i /\ Disk.alert_cooldown s' = a
          /\ Disk.monitored_paths s' = Disk.monitored_paths s1
          /\ Disk.exclude_types s' = Disk.exclude_types s1) as (E1 & E2 & E3 & E4 & E5 & E6).
  { subst s'. unfold Disk.initialize.
    destruct (Disk.initialize_body py (VDict d) s) as [[u|x] s2]; simpl in *;
      subst s2; auto 10. }
  rewrite E1, E2, E3, E4, E5, E6, Hmp, Hex.
  unfold Disk.cfg_float, Disk.cfg_int, py_get in *.
  repeat split; intros Hn; rewrite Hn in *; simpl in *; congruence.
Qed.

Lemma disk_initialize_absent_keys_witness :
  fst (Disk.initialize Examples.example_lib (VDict []) Examples.configured_disk) = true
  /\ Disk.threshold (snd (Disk.initialize Examples.example_lib (VDict [])
                            Examples.configured_disk)) = FFin 85
  /\ Disk.monitored_paths (snd (Disk.initialize Examples.example_lib (VDict [])
                                  Examples.configured_disk))
     = Disk.monitored_paths Examples.configured_disk.
Proof.
  split; [reflexivity|].
  destruct (disk_initialize_absent_keys Examples.example_lib [] Examples.configured_disk
              eq_refl) as (H1 & _ & _ & _ & H5 & _).
  split; [apply H1; reflexivity|exact H5].
Defined.

Ltac bool_hyps :=
  repeat match goal with
         | H : negb _ = false |- _ => apply negb_false_iff in H
         | H : negb _ = true |- _ => apply negb_true_iff in H
         | H : (_ && _) = true |- _ => apply andb_true_iff in H; destruct H
         | H : (_ <? _) = false |- _ => apply Z.ltb_ge in H
         | H : (_ <=? _) = false |- _ => apply Z.leb_gt in H
         | H : (_ <? _) = true |- _ => apply Z.ltb_lt in H
         | H : (_ <=? _) = true |- _ => apply Z.leb_le in H
         end.

(** X6.  The memory monitor's [initialize] returns True exactly when the
    configuration gives a memory threshold and a swap threshold that
    convert to floats between 0 and 100, an interval that converts to an
    integer of at least 1, and an alert cooldown that converts to an
    integer (defaults 85, 90, 60, 300); the two thresholds are not
    compared with one another, and the state before the call plays no
    part. *)
Theorem memory_initialize_accepts (py : PyLib) (cfg : value) (s : Memory.state) :
  fst (Memory.initialize py cfg s) = true
  <-> exists m w i a,
      Memory.cfg_float py cfg "memory_threshold" (VFloat (FFin 85)) = Ret m
      /\ Memory.cfg_float py cfg "swap_threshold" (VFloat (FFin 90)) = Ret w
      /\ Memory.cfg_int py cfg "interval" (VInt 60) = Ret i
      /\ Memory.cfg_int py cfg "alert_cooldown" (VInt 300) = Ret a
      /\ fle (FFin 0) m = true /\ fle m (FFin 100) = true
      /\ fle (FFin 0) w = true /\ fle w (FFin 100) = true
      /\ 1 <= i.
Proof.
  unfold Memory.initialize, Memory.initialize_body,
    mbind, mmodify, mlift, mget, mraise, mret.
  cbv beta iota.
  destruct (Memory.cfg_float py cfg "memory_threshold" (VFloat (FFin 85))) as [m|x];
    cbv beta iota;
    [|split; [discriminate|intros (? & ? & ? & ? & ? & _); discriminate]].
  destruct (Memory.cfg_float py cfg "swap_threshold" (VFloat (FFin 90))) as [w|x];
    cbv beta iota;
    [|split; [discriminate|intros (? & ? & ? & ? & ? & ? & _); discriminate]].
  destruct (Memory.cfg_int py cfg "interval" (VInt 60)) as [i|x];
    cbv beta iota;
    [|split; [discriminate|intros (? & ? & ? & ? & ? & ? & ? & _); discriminate]].
  destruct (Memory.cfg_int py cfg "alert_cooldown" (VInt 300)) as [a|x];
    cbv beta iota;
    [|split; [discriminate|intros (? & ? & ? & ? & ? & ? & ? & ? & _); discriminate]].
  simpl.
  split.
  - intros H. exists m, w, i, a. repeat (split; [reflexivity|]).
    destruct (fle (FFin 0) m); [|discriminate].
    destruct (fle m (FFin 100)); [|discriminate].
    destruct (fle (FFin 0) w); [|discriminate].
    destruct (fle w (FFin 100)); [|discriminate].
    destruct (i <? 1) eqn:Hlt; [discriminate|].
    apply Z.ltb_ge in Hlt. auto 10.
  - intros (m' & w' & i' & a' & Hm & Hw & Hi & Ha & H1 & H2 & H3 & H4 & H5).
    inversion Hm; inversion Hw; inversion Hi; inversion Ha; subst.
    rewrite H1, H2, H3, H4. simpl.
    apply Z.ltb_ge in H5. rewrite H5. reflexivity.
Qed.

Lemma shell_assign_if_present_dict d key set (s : Shell.state) :
  Shell.assign_if_present (VDict d) key set s
  = (Ret tt, match assoc key d with Some v => set v s | None => s end).
Proof.
  unfold Shell.assign_if_present, mbind, mlift, mmodify, mret, py_in, py_getitem.
  destruct (assoc key d); reflexivity.
Qed.

(** X7.  The shell plugin's [initialize] returns True exactly when the
    timeout and the maximal output size that it reads from the
    configuration (defaults 300 and 1048576) convert to positive integers;
    the configuration is then a mapping.  On an accepted mapping the
    plugin holds these two numbers, and each of [allowed_commands],
    [blocked_commands] and [allowed_paths] holds the configured value as
    it comes, or the value it held before when its key is absent. *)
Theorem shell_initialize_accepts (py : PyLib) (cfg : value) (s : Shell.state) :
  (fst (Shell.initialize py cfg s) = true
   <-> exists t m,
       rbind (py_get cfg "timeout" (VInt 300)) (py_int py) = Ret t
       /\ rbind (py_get cfg "max_output_size" (VInt (1024 * 1024))) (py_int py) = Ret m
       /\ 0 < t /\ 0 < m)
  /\ (forall d t m,
        cfg = VDict d ->
        rbind (py_get cfg "timeout" (VInt 300)) (py_int py) = Ret t ->
        rbind (py_get cfg "max_output_size" (VInt (1024 * 1024))) (py_int py) = Ret m ->
        let s' := snd (Shell.initialize py cfg s) in
        Shell.timeout s' = t /\ Shell.max_output_size s' = m
        /\ Shell.allowed_commands s'
           = default (Shell.allowed_commands s) (assoc "allowed_commands" d)
        /\ Shell.blocked_commands s'
           = default (Shell.blocked_commands s) (assoc "blocked_commands" d)
        /\ Shell.allowed_paths s'
           = default (Shell.allowed_paths s) (assoc "allowed_paths" d)).
Proof.
  assert (forall d, Shell.initialize_body py (VDict d) s
          = let s3 := match assoc "allowed_paths" d with
                      | Some v => Shell.set_allowed_paths v
                      | None => fun x => x
                      end
                        (match assoc "blocked_commands" d with
                         | Some v => Shell.set_blocked_commands v
                         | None => fun x => x
                         end
                           (match assoc "allowed_commands" d with
                            | Some v => Shell.set_allowed_commands v
                            | None => fun x => x
                            end (Shell.set_config (VDict d) s))) in
            match rbind (py_get (VDict d) "timeout" (VInt 300)) (py_int py) with
            | Raise x => (Raise x, s3)
            | Ret t =>
                match rbind (py_get (VDict d) "max_output_size" (VInt (1024 * 1024)))
                        (py_int py) with
                | Raise x => (Raise x, Shell.set_timeout t s3)
                | Ret m =>
                    (if t <=? 0 then Raise (ValueError "Timeout must be positive")
                     else if m <=? 0
                     then Raise (ValueError "Max output size must be positive")
                     else Ret tt,
                     Shell.set_max_output_size m (Shell.set_timeout t s3))
                end
            end) as Hbody.
  { intros d. unfold Shell.initialize_body, mbind, mmodify, mlift, mget, mraise, mret.
    cbv beta iota. rewrite ?shell_assign_if_present_dict. cbv beta iota.
    rewrite ?shell_assign_if_present_dict. cbv beta iota.
    rewrite ?shell_assign_if_present_dict. cbv beta iota zeta.
    destruct (assoc "allowed_commands" d), (assoc "blocked_commands" d),
      (assoc "allowed_paths" d);
      destruct (rbind (py_get (VDict d) "timeout" (VInt 300)) (py_int py)) as [t|];
      try reflexivity;
      destruct (rbind (py_get (VDict d) "max_output_size" (VInt (1024 * 1024)))
                  (py_int py)) as [m|]; try reflexivity; simpl;
      destruct (t <=? 0); try reflexivity; destruct (m <=? 0); reflexivity. }
  split.
  - split.
    + destruct cfg as [| | | | |l|d].
      1-6: unfold Shell.initialize, Shell.initialize_body, Shell.assign_if_present;
        run_m; discriminate.
      unfold Shell.initialize. rewrite Hbody. cbv zeta.
      destruct (rbind (py_get (VDict d) "timeout" (VInt 300)) (py_int py)) as [t|];
        [|discriminate].
      destruct (rbind (py_get (VDict d) "max_output_size" (VInt (1024 * 1024)))
                  (py_int py)) as [m|]; [|discriminate].
      destruct (t <=? 0) eqn:Ht; [discriminate|].
      destruct (m <=? 0) eqn:Hm; [discriminate|].
      intros _. exists t, m. bool_hyps. auto.
    + intros (t & m & Ht & Hm & Htp & Hmp).
      destruct cfg as [| | | | |l|d]; try discriminate.
      unfold Shell.initialize. rewrite Hbody. cbv zeta. rewrite Ht, Hm.
      apply Z.leb_gt in Htp, Hmp. rewrite Htp, Hmp. reflexivity.
  - intros d t m -> Ht Hm s'. subst s'.
    unfold Shell.initialize. rewrite Hbody. cbv zeta. rewrite Ht, Hm.
    destruct (assoc "allowed_commands" d), (assoc "blocked_commands" d),
      (assoc "allowed_paths" d);
      destruct (if t <=? 0 then _ else _); simpl; auto.
Qed.

(** X8.  The email plugin's [initialize] returns True exactly when the
    configuration is a mapping whose SMTP port converts to an integer
    (default 587) and, unless the plugin is in demo mode, the server, the
    user name, the password and the sender address are all given and not
    empty, where the sender address defaults to the user name. *)
Theorem email_initialize_accepts (py : PyLib) (cfg : value) (s : Email.state) :
  fst (Email.initialize py cfg s) = true
  <-> exists server p user pw sender,
      py_get cfg "smtp_server" (VStr "") = Ret server
      /\ rbind (py_get cfg "smtp_port" (VInt 587)) (py_int py) = Ret p
      /\ py_get cfg "username" (VStr "") = Ret user
      /\ py_get cfg "password" (VStr "") = Ret pw
      /\ py_get cfg "from_email" user = Ret sender
      /\ (Email.demo_mode s = false ->
          truthy server = true /\ truthy user = true
          /\ truthy pw = true /\ truthy sender = true).
Proof.
  unfold Email.initialize, Email.initialize_body,
    mbind, mmodify, mlift, mget, mraise, mret.
  destruct cfg as [| | | | |l|d]; cbv beta iota.
  1-6: simpl; split; [discriminate|intros (? & ? & ? & ? & ? & ? & _); discriminate].
  destruct (rbind (py_get (VDict d) "smtp_port" (VInt 587)) (py_int py)) as [p|x] eqn:Hp.
  - unfold py_get. cbv beta iota. simpl.
    destruct (Email.demo_mode s); simpl.
    + split; [|reflexivity]. intros _.
      do 5 eexists. repeat (split; [reflexivity|]). discriminate.
    + destruct (truthy (match assoc "smtp_server" d with
                        | Some x => x | None => VStr "" end)) eqn:H1;
        destruct (truthy (match assoc "username" d with
                          | Some x => x | None => VStr "" end)) eqn:H2;
        destruct (truthy (match assoc "password" d with
                          | Some x => x | None => VStr "" end)) eqn:H3;
        destruct (truthy (match assoc "from_email" d with
                          | Some x => x
                          | None => match assoc "username" d with
                                    | Some x => x | None => VStr "" end
                          end)) eqn:H4;
        simpl; split; try reflexivity; try discriminate;
        try (intros _; do 5 eexists; repeat (split; [reflexivity|]); auto; fail);
        intros (sv & p' & us & pw & sd & E1 & _ & E3 & E4 & E5 & H);
        inversion E1; inversion E3; inversion E4; subst; inversion E5; subst;
        destruct (H eq_refl) as (? & ? & ? & ?); congruence.
  - unfold py_get at 1. cbv beta iota. split; [simpl; discriminate|].
    intros (sv & p' & us & pw & sd & _ & Hp' & _). congruence.
Qed.

(** X9.  A configuration that is not a mapping (a list, a string, a
    number, null) is rejected by the [initialize] of each of the four
    plugins: the call returns False and the status is "error".  The value
    is stored in [self.config] all the same. *)
Theorem non_mapping_config_rejected (py : PyLib) (cfg : value) :
  (forall d, cfg <> VDict d) ->
  (forall s : Disk.state,
      fst (Disk.initialize py cfg s) = false
      /\ status (Disk.life (snd (Disk.initialize py cfg s))) = Error
      /\ Disk.config (snd (Disk.initialize py cfg s)) = cfg)
  /\ (forall s : Memory.state,
      fst (Memory.initialize py cfg s) = false
      /\ status (Memory.life (snd (Memory.initialize py cfg s))) = Error
      /\ Memory.config (snd (Memory.initialize py cfg s)) = cfg)
  /\ (forall s : Shell.state,
      fst (Shell.initialize py cfg s) = false
      /\ status (Shell.life (snd (Shell.initialize py cfg s))) = Error
      /\ Shell.config (snd (Shell.initialize py cfg s)) = cfg)
  /\ (forall s : Email.state,
      fst (Email.initialize py cfg s) = false
      /\ status (Email.life (snd (Email.initialize py cfg s))) = Error
      /\ Email.config (snd (Email.initialize py cfg s)) = cfg).
Proof.
  intros Hnd.
  split; [|split; [|split]]; intros s.
  - destruct cfg as [| | | | |l|d]; try (exfalso; eapply Hnd; reflexivity);
      simpl; repeat split.
  - destruct cfg as [| | | | |l|d]; try (exfalso; eapply Hnd; reflexivity);
      simpl; repeat split.
  - destruct cfg as [| | | | |l|d]; try (exfalso; eapply Hnd; reflexivity);
      unfold Shell.initialize, Shell.initialize_body, Shell.assign_if_present;
      run_m; repeat split.
  - destruct cfg as [| | | | |l|d]; try (exfalso; eapply Hnd; reflexivity);
      simpl; repeat split.
Qed.

Lemma non_mapping_config_rejected_witness :
  fst (Shell.initialize Examples.example_lib (VList [VStr "allowed_commands"])
         (Shell.init true)) = false
  /\ Shell.config (snd (Shell.initialize Examples.example_lib
                          (VList [VStr "allowed_commands"]) (Shell.init true)))
     = VList [VStr "allowed_commands"].
Proof.
  assert (forall d, VList [VStr "allowed_commands"] <> VDict d) as Hnd
    by (intros d; discriminate).
  destruct (non_mapping_config_rejected Examples.example_lib
              (VList [VStr "allowed_commands"]) Hnd) as (_ & _ & Hshell & _).
  destruct (Hshell (Shell.init true)) as (H1 & _ & H3). auto.
Defined.

(** ** Classification and events *)

Lemma disk_detect_some e s ev s1 :
  Disk.detect_triggers e s = (Some ev, s1) ->
  running (Disk.life s) = true
  /\ s1 = Disk.set_last_alert_time
            (<[disk_event_key ev := Disk.now e]> (Disk.last_alert_time s)) s
  /\ Disk._should_alert s (disk_event_key ev) (Disk.now e) = true
  /\ exists fs lv th,
      In fs (Disk.disk_info e) /\ Disk.classify s (Disk.percent fs) = Some (lv, th)
      /\ ev = Disk._create_disk_event fs lv th.
Proof.
  unfold Disk.detect_triggers.
  destruct (running (Disk.life s)); simpl; [|discriminate].
  destruct (Disk.scan s (Disk.now e) (Disk.disk_info e)) as [[ev' key]|] eqn:Hs;
    [|discriminate].
  intros E; inversion E; subst; clear E.
  destruct (disk_scan_some _ _ _ _ _ Hs) as (-> & Ha & Hex). auto.
Qed.

(** X10.  A usage at or above the critical threshold is classified
    critical, never warning, whatever the two thresholds are.  Every event
    that a poll emits is about a filesystem of the snapshot, reports its
    usage, and is of one of two kinds: a critical event, with the critical
    threshold, type "disk.space.critical" and severity "critical", when
    the usage is at or above the critical threshold; otherwise a warning,
    with the regular threshold, type "disk.space.warning" and severity
    "high", and then the usage is at or above the regular threshold. *)
Theorem disk_event_classification (s : Disk.state) :
  (forall u, fge (FFin u) (Disk.critical_threshold s) = true ->
     Disk.classify s u = Some (Disk.Critical, Disk.critical_threshold s))
  /\ (forall e ev s1,
        Disk.detect_triggers e s = (Some ev, s1) ->
        In (Disk.ev_filesystem ev) (Disk.disk_info e)
        /\ Disk.ev_usage_percent ev = Disk.percent (Disk.ev_filesystem ev)
        /\ ((fge (FFin (Disk.ev_usage_percent ev)) (Disk.critical_threshold s) = true
             /\ Disk.ev_alert_level ev = "critical"
             /\ Disk.ev_type ev = "disk.space.critical"
             /\ Disk.ev_severity ev = "critical"
             /\ Disk.ev_threshold ev = Disk.critical_threshold s)
            \/ (fge (FFin (Disk.ev_usage_percent ev)) (Disk.critical_threshold s) = false
                /\ fge (FFin (Disk.ev_usage_percent ev)) (Disk.threshold s) = true
                /\ Disk.ev_alert_level ev = "warning"
                /\ Disk.ev_type ev = "disk.space.warning"
                /\ Disk.ev_severity ev = "high"
                /\ Disk.ev_threshold ev = Disk.threshold s))).
Proof.
  split.
  - intros u Hu. unfold Disk.classify. now rewrite Hu.
  - intros e ev s1 Hd.
    destruct (disk_detect_some _ _ _ _ Hd) as (_ & _ & _ & fs & lv & th & Hin & Hc & ->).
    simpl. split; [exact Hin|]. split; [reflexivity|].
    unfold Disk.classify in Hc.
    destruct (fge (FFin (Disk.percent fs)) (Disk.critical_threshold s)) eqn:H1.
    + inversion Hc; subst. left. auto 10.
    + destruct (fge (FFin (Disk.percent fs)) (Disk.threshold s)) eqn:H2;
        [|discriminate].
      inversion Hc; subst. right. auto 10.
Qed.

Lemma disk_event_classification_witness :
  option_map Disk.ev_type
    (fst (Disk.detect_triggers (Examples.disk_env 1000) Examples.started_disk))
  = Some "disk.space.critical"
  /\ Disk.classify Examples.started_disk 97
     = Some (Disk.Critical, Disk.critical_threshold Examples.started_disk).
Proof.
  split; [reflexivity|].
  destruct (disk_event_classification Examples.started_disk) as [H _].
  apply H. reflexivity.
Defined.

(** ** Alert keys *)

Lemma string_length_app (a b : string) :
  String.length (a +:+ b) = (String.length a + String.length b)%nat.
Proof. induction a as [|c a IH]; simpl; [reflexivity|now rewrite IH]. Qed.

Lemma string_app_inv_tail (b : string) : forall a a', a +:+ b = a' +:+ b -> a = a'.
Proof.
  induction a as [|c a IH]; destruct a' as [|c' a']; simpl; intros E.
  - reflexivity.
  - exfalso. apply (f_equal String.length) in E.
    rewrite !string_length_app in E. simpl in E.
    rewrite ?string_length_app in E. lia.
  - exfalso. apply (f_equal String.length) in E.
    rewrite !string_length_app in E. simpl in E.
    rewrite ?string_length_app in E. lia.
  - inversion E; subst. f_equal. now apply IH.
Qed.

Lemma last_char_app (a b : string) : b <> "" -> last_char (a +:+ b) = last_char b.
Proof.
  intros Hb. induction a as [|c a IH]; simpl; [reflexivity|].
  destruct (a +:+ b) eqn:E; [|exact IH].
  destruct a; simpl in E; [contradiction|discriminate].
Qed.

Lemma alert_key_inj mp lv mp' lv' :
  Disk.alert_key mp lv = Disk.alert_key mp' lv' -> mp = mp' /\ lv = lv'.
Proof.
  unfold Disk.alert_key. intros E.
  assert (lv = lv') as ->.
  { apply (f_equal last_char) in E.
    rewrite !last_char_app in E by (destruct lv, lv'; discriminate).
    destruct lv, lv'; simpl in E; congruence. }
  split; [|reflexivity].
  eapply string_app_inv_tail; eauto.
Qed.

(** X11.  The alert key tells the mountpoint and the level apart: two
    keys are equal only for the same mountpoint and the same level.  So an
    emission changes what [_should_alert] answers for its own mountpoint
    and level only; a warning on a filesystem does not suppress the
    critical alert on the same filesystem, nor any alert on another. *)
Theorem alert_key_separates (e : Disk.env) (s s1 : Disk.state) (ev : Disk.event) :
  Disk.detect_triggers e s = (Some ev, s1) ->
  (forall mp lv mp' lv',
      Disk.alert_key mp lv = Disk.alert_key mp' lv' -> mp = mp' /\ lv = lv')
  /\ (forall mp lv t,
        (mp <> Disk.mountpoint (Disk.ev_filesystem ev)
         \/ Disk.level_str lv <> Disk.ev_alert_level ev) ->
        Disk._should_alert s1 (Disk.alert_key mp lv) t
        = Disk._should_alert s (Disk.alert_key mp lv) t).
Proof.
  intros Hd. split; [intros; now apply alert_key_inj|].
  destruct (disk_detect_some _ _ _ _ Hd) as (_ & -> & _ & fs & lv0 & th & _ & _ & ->).
  intros mp lv t Hne. unfold Disk._should_alert. simpl.
  rewrite lookup_insert_ne; [reflexivity|].
  change (disk_event_key (Disk._create_disk_event fs lv0 th))
    with (Disk.alert_key (Disk.mountpoint fs) lv0).
  intros E. apply alert_key_inj in E. destruct E as [E1 E2]. subst mp lv0.
  simpl in Hne. destruct Hne; congruence.
Qed.

Lemma alert_key_separates_witness :
  option_map Disk.ev_alert_level
    (fst (Disk.detect_triggers
            {| Disk.now := 1000; Disk.disk_info := [Examples.var_fs] |}
            Examples.started_disk)) = Some "warning"
  /\ Disk._should_alert
       (snd (Disk.detect_triggers
               {| Disk.now := 1000; Disk.disk_info := [Examples.var_fs] |}
               Examples.started_disk))
       (Disk.alert_key "/var" Disk.Critical) 1001 = true.
Proof.
  split; [reflexivity|].
  assert (Disk.detect_triggers
            {| Disk.now := 1000; Disk.disk_info := [Examples.var_fs] |}
            Examples.started_disk
          = (Some (Disk._create_disk_event Examples.var_fs Disk.Warning (FFin 85)),
             snd (Disk.detect_triggers
                    {| Disk.now := 1000; Disk.disk_info := [Examples.var_fs] |}
                    Examples.started_disk))) as Hd by (vm_compute; reflexivity).
  destruct (alert_key_separates _ _ _ _ Hd) as [_ H].
  rewrite (H "/var" Disk.Critical 1001); [reflexivity|].
  right. simpl. discriminate.
Defined.

(** ** The alerts of later polls *)

Lemma should_alert_after_emission s key t now k :
  0 <= Disk.alert_cooldown s <= 2 ^ 34 ->
  within_cooldown t now (Disk.alert_cooldown s) ->
  Disk._should_alert
    (Disk.set_last_alert_time (<[key := t]> (Disk.last_alert_time s)) s) k now
  = if String.eqb k key then false else Disk._should_alert s k now.
Proof.
  intros Hb Hw. unfold Disk._should_alert. simpl.
  destruct (String.eqb k key) eqn:Hk.
  - apply String.eqb_eq in Hk. subst k. rewrite lookup_insert_eq.
    now apply total_seconds_within.
  - apply String.eqb_neq in Hk. rewrite lookup_insert_ne by congruence. reflexivity.
Qed.

Lemma disk_candidates_after_emission s key t now l :
  0 <= Disk.alert_cooldown s <= 2 ^ 34 ->
  within_cooldown t now (Disk.alert_cooldown s) ->
  disk_candidates
    (Disk.set_last_alert_time (<[key := t]> (Disk.last_alert_time s)) s) now l
  = List.filter (fun ev' => negb (String.eqb (disk_event_key ev') key))
      (disk_candidates s now l).
Proof.
  intros Hb Hw. induction l as [|fs rest IH]; [reflexivity|].
  cbn [disk_candidates].
  change (Disk.classify
            (Disk.set_last_alert_time (<[key := t]> (Disk.last_alert_time s)) s)
            (Disk.percent fs)) with (Disk.classify s (Disk.percent fs)).
  destruct (Disk.classify s (Disk.percent fs)) as [[lv th]|]; [|exact IH].
  rewrite (should_alert_after_emission s key t now _ Hb Hw).
  destruct (String.eqb (Disk.alert_key (Disk.mountpoint fs) lv) key) eqn:Hk.
  - destruct (Disk._should_alert s (Disk.alert_key (Disk.mountpoint fs) lv) now);
      [|exact IH].
    cbn [List.filter].
    change (disk_event_key (Disk._create_disk_event fs lv th))
      with (Disk.alert_key (Disk.mountpoint fs) lv).
    rewrite Hk. simpl. exact IH.
  - destruct (Disk._should_alert s (Disk.alert_key (Disk.mountpoint fs) lv) now);
      [|exact IH].
    cbn [List.filter].
    change (disk_event_key (Disk._create_disk_event fs lv th))
      with (Disk.alert_key (Disk.mountpoint fs) lv).
    rewrite Hk. simpl. now rewrite IH.
Qed.

(** X12.  Let the cooldown be of 0 to 2^34 seconds, the range in which
    the rounding of [total_seconds()] does not show.  After a poll has
    emitted an event, a poll within the cooldown has for candidates those
    that the state before the emission would have had, without the ones
    of the emitted key, in the same order; it emits the first of them.  So
    alerts that stand at the same time are reported one per poll, in scan
    order. *)
Theorem next_poll_reports_next_alert
    (e e' : Disk.env) (s s1 : Disk.state) (ev : Disk.event) :
  Disk.detect_triggers e s = (Some ev, s1) ->
  0 <= Disk.alert_cooldown s <= 2 ^ 34 ->
  within_cooldown (Disk.now e) (Disk.now e') (Disk.alert_cooldown s) ->
  disk_candidates s1 (Disk.now e') (Disk.disk_info e')
  = List.filter (fun ev' => negb (String.eqb (disk_event_key ev') (disk_event_key ev)))
      (disk_candidates s (Disk.now e') (Disk.disk_info e'))
  /\ fst (Disk.detect_triggers e' s1)
     = head (List.filter (fun ev' => negb (String.eqb (disk_event_key ev')
                                        (disk_event_key ev)))
               (disk_candidates s (Disk.now e') (Disk.disk_info e'))).
Proof.
  intros Hd Hb Hw.
  destruct (disk_detect_some _ _ _ _ Hd) as (Hr & -> & _ & _).
  assert (disk_candidates
            (Disk.set_last_alert_time
               (<[disk_event_key ev := Disk.now e]> (Disk.last_alert_time s)) s)
            (Disk.now e') (Disk.disk_info e')
          = List.filter (fun ev' => negb (String.eqb (disk_event_key ev') (disk_event_key ev)))
              (disk_candidates s (Disk.now e') (Disk.disk_info e'))) as Hc
    by (apply disk_candidates_after_emission; auto).
  split; [exact Hc|].
  rewrite <- Hc, <- disk_scan_head.
  unfold Disk.detect_triggers. simpl. rewrite Hr. simpl.
  destruct (Disk.scan _ (Disk.now e') (Disk.disk_info e')) as [[ev2 k2]|]; reflexivity.
Qed.

Lemma next_poll_reports_next_alert_witness :
  option_map disk_event_key
    (fst (Disk.detect_triggers (Examples.disk_env 1000) Examples.started_disk))
  = Some "/_critical"
  /\ option_map disk_event_key
       (fst (Disk.detect_triggers (Examples.disk_env 2000)
               (snd (Disk.detect_triggers (Examples.disk_env 1000)
                       Examples.started_disk))))
     = Some "/var_warning".
Proof.
  split; [reflexivity|].
  assert (Disk.detect_triggers (Examples.disk_env 1000) Examples.started_disk
          = (Some (Disk._create_disk_event Examples.root_fs Disk.Critical (FFin 95)),
             snd (Disk.detect_triggers (Examples.disk_env 1000) Examples.started_disk)))
    as Hd by (vm_compute; reflexivity).
  assert (within_cooldown (Disk.now (Examples.disk_env 1000))
            (Disk.now (Examples.disk_env 2000))
            (Disk.alert_cooldown Examples.started_disk)) as Hw
    by (unfold within_cooldown; vm_compute; reflexivity).
  assert (0 <= Disk.alert_cooldown Examples.started_disk <= 2 ^ 34) as Hb
    by (split; vm_compute; discriminate).
  destruct (next_poll_reports_next_alert _ (Examples.disk_env 2000) _ _ _ Hd Hb Hw)
    as [_ H].
  rewrite H. vm_compute. reflexivity.
Defined.

(** X13.  The cooldown table only grows: [initialize], [start] and
    [stop] leave it as it is, and a poll keeps every key that the table
    holds; an entry that a poll changes holds the time of that poll
    afterwards. *)
Theorem cooldown_table_only_grows (py : PyLib) (s : Disk.state) :
  (forall cfg, Disk.last_alert_time (snd (Disk.initialize py cfg s))
               = Disk.last_alert_time s)
  /\ (forall now, Disk.last_alert_time (snd (Disk.start now s)) = Disk.last_alert_time s)
  /\ Disk.last_alert_time (snd (Disk.stop s)) = Disk.last_alert_time s
  /\ (forall e k,
        (is_Some (Disk.last_alert_time s !! k) ->
         is_Some (Disk.last_alert_time (snd (Disk.detect_triggers e s)) !! k))
        /\ (Disk.last_alert_time (snd (Disk.detect_triggers e s)) !! k
            <> Disk.last_alert_time s !! k ->
            Disk.last_alert_time (snd (Disk.detect_triggers e s)) !! k
            = Some (Disk.now e))).
Proof.
  split; [|split; [|split]].
  - intros cfg. unfold Disk.initialize.
    destruct (Disk.initialize_body py cfg s) as [[u|x] s'] eqn:E;
      destruct (disk_initialize_body_fields _ _ _ _ _ E) as (_ & _ & H & _);
      simpl; exact H.
  - intros now. unfold Disk.start.
    destruct (Lifecycle.start now (Disk.life s)); reflexivity.
  - reflexivity.
  - intros e k. pose proof (disk_detect_cases e s) as H.
    destruct (Disk.detect_triggers e s) as [[ev|] s']; simpl.
    + destruct H as (_ & _ & ->). simpl.
      destruct (decide (disk_event_key ev = k)) as [->|Hne].
      * rewrite lookup_insert_eq. split; eauto.
      * rewrite lookup_insert_ne by exact Hne. split; [auto|congruence].
    + subst s'. split; [auto|congruence].
Qed.

(** X14.  The disk monitor's [initialize] puts no bound on the alert
    cooldown: a mapping that it accepts is accepted with any integer
    under "alert_cooldown" in front of it, zero and negative ones too, and
    that integer is then the cooldown.  With a cooldown of zero or less,
    [_should_alert] accepts every key whose last alert is not in the
    future: nothing is suppressed. *)
Theorem alert_cooldown_is_unbounded
    (py : PyLib) (d : list (string * value)) (s : Disk.state) (a : Z) :
  fst (Disk.initialize py (VDict d) s) = true ->
  (fst (Disk.initialize py (VDict (("alert_cooldown", VInt a) :: d)) s) = true
   /\ Disk.alert_cooldown
        (snd (Disk.initialize py (VDict (("alert_cooldown", VInt a) :: d)) s)) = a)
  /\ (forall s0 key now,
        Disk.alert_cooldown s0 <= 0 ->
        (forall last, Disk.last_alert_time s0 !! key = Some last -> last <= now) ->
        Disk._should_alert s0 key now = true).
Proof.
  intros Hok. split.
  - unfold Disk.initialize in Hok.
    destruct (Disk.initialize_body py (VDict d) s) as [[[]|x] s0] eqn:E;
      [|discriminate].
    destruct (disk_initialize_body_ok _ _ _ _ E)
      as (t & c & i & a0 & Ht & Hc & Hi & Ha & H1 & H2 & H3 & H4 & H5 & H6).
    assert (Disk.cfg_int py (VDict (("alert_cooldown", VInt a) :: d))
              "alert_cooldown" (VInt 600) = Ret a) as Ha' by reflexivity.
    destruct (disk_initialize_body_dict py (("alert_cooldown", VInt a) :: d) s
                t c i a Ht Hc Hi Ha')
      as (s1 & Hs1 & _ & _ & _ & _ & Hco & _ & _ & Hres).
    rewrite H1, H2, H3, H4, H5 in Hres. simpl in Hres.
    apply Z.ltb_ge in H6. rewrite H6 in Hres.
    unfold Disk.initialize.
    destruct (Disk.initialize_body py (VDict (("alert_cooldown", VInt a) :: d)) s)
      as [[u|x] s2]; simpl in *; [|discriminate].
    subst s2. auto.
  - intros s0 key now Hc Hlast. unfold Disk._should_alert.
    destruct (Disk.last_alert_time s0 !! key) as [last|] eqn:Hk; [|reflexivity].
    specialize (Hlast last eq_refl).
    apply total_seconds_nonneg; lia.
Qed.

Lemma alert_cooldown_is_unbounded_witness :
  fst (Disk.initialize Examples.example_lib Examples.accepted_config Disk.init) = true
  /\ Disk.alert_cooldown
       (snd (Disk.initialize Examples.example_lib
               (VDict (("alert_cooldown", VInt (-5))
                         :: [("threshold", VInt 80); ("critical_threshold", VInt 90)]))
               Disk.init)) = -5.
Proof.
  split; [reflexivity|].
  destruct (alert_cooldown_is_unbounded Examples.example_lib
              [("threshold", VInt 80); ("critical_threshold", VInt 90)]
              Disk.init (-5) eq_refl) as [[_ H] _].
  exact H.
Defined.

(** X15.  When the memory source raises, [detect_triggers] of the memory
    monitor returns no event and changes nothing, and the dispatcher
    answers the command with success and no data; [get_health] lets the
    exception through, and the dispatcher answers that command with
    "Plugin error: ..." and keeps the state. *)
Theorem memory_source_failure
    (py : PyLib) (e : Memory.env) (s : Memory.state) (x : exn) :
  Memory.read_memory e = Raise x ->
  Memory.detect_triggers e s = (None, s)
  /\ Memory.get_health e s = Raise x
  /\ (forall cmd, py_get cmd "action" VNone = Ret (VStr "detect_triggers") ->
        Memory.dispatch py cmd e s
        = (Ret (reply (VStr "detect_triggers") true (Some (Memory.DEvent None)) None), s))
  /\ (forall line cmd,
        str_strip py line <> "" ->
        json_loads py (str_strip py line) = Some cmd ->
        py_get cmd "action" VNone = Ret (VStr "get_health") ->
        Memory.handle_line py line e s
        = (Emit (error_only ("Plugin error: " +:+ exn_str py x)), s)).
Proof.
  intros Hm.
  assert (Memory.detect_triggers e s = (None, s)) as Hd.
  { unfold Memory.detect_triggers. rewrite Hm.
    destruct (negb (running (Memory.life s))); reflexivity. }
  assert (Memory.get_health e s = Raise x) as Hh
    by (unfold Memory.get_health; now rewrite Hm).
  split; [exact Hd|]. split; [exact Hh|]. split.
  - intros cmd Ha. unfold Memory.dispatch. rewrite Ha. simpl. now rewrite Hd.
  - intros line cmd Hnb Hj Ha. apply nonblank_eqb in Hnb.
    unfold Memory.handle_line. rewrite Hnb, Hj.
    unfold Memory.dispatch. rewrite Ha. simpl. now rewrite Hh.
Qed.

Lemma memory_source_failure_witness :
  Memory.handle_line Examples.example_lib
    (Examples.jobj1 "action" (Examples.jstr "get_health"))
    {| Memory.now := 5; Memory.read_memory := Raise (OSError "no /proc") |}
    Examples.started_memory
  = (Emit (error_only "Plugin error: no /proc"), Examples.started_memory).
Proof.
  destruct (memory_source_failure Examples.example_lib
              {| Memory.now := 5; Memory.read_memory := Raise (OSError "no /proc") |}
              Examples.started_memory (OSError "no /proc") eq_refl)
    as (_ & _ & _ & H).
  apply (H _ (VDict [("action", VStr "get_health")])).
  - vm_compute. discriminate.
  - reflexivity.
  - reflexivity.
Defined.

(** ** The metrics source of the disk monitor *)

Lemma lowered_strings py ex :
  DiskSource.lowered py (map VStr ex) = Ret (map (str_lower py) ex).
Proof. induction ex as [|x ex IH]; simpl; [reflexivity|]. now rewrite IH. Qed.

Lemma any_startswith_strings m mp :
  Shell.any_startswith (VStr m) (map VStr mp)
  = Ret (existsb (fun q => String.prefix q m) mp).
Proof.
  induction mp as [|q mp IH]; simpl; [reflexivity|].
  destruct (String.prefix q m); [reflexivity|exact IH].
Qed.

Lemma excluded_strings py s ex p :
  Disk.exclude_types s = VList (map VStr ex) ->
  DiskSource.excluded py s p
  = Ret (existsb (String.eqb (str_lower py (DiskSource.p_fstype p)))
           (map (str_lower py) ex)).
Proof.
  intros Hex. unfold DiskSource.excluded. rewrite Hex. cbn [py_iter rbind].
  rewrite lowered_strings. reflexivity.
Qed.

Lemma unmonitored_strings s mp p :
  Disk.monitored_paths s = VList (map VStr mp) ->
  DiskSource.unmonitored s p
  = Ret (negb match mp with
              | [] => true
              | _ => existsb (fun q => String.prefix q (DiskSource.p_mountpoint p)) mp
              end).
Proof.
  intros Hmp. unfold DiskSource.unmonitored. rewrite Hmp.
  destruct mp as [|q mp']; [reflexivity|].
  cbn [truthy map py_iter rbind].
  change (VStr q :: map VStr mp') with (map VStr (q :: mp')).
  rewrite any_startswith_strings. reflexivity.
Qed.

Lemma scan_partitions_selects py fl s ex mp parts : forall acc,
  Disk.exclude_types s = VList (map VStr ex) ->
  Disk.monitored_paths s = VList (map VStr mp) ->
  Forall readable parts ->
  DiskSource.scan_partitions py fl s parts acc
  = acc ++ flat_map (fun p => if selects py ex mp p then reported fl p else []) parts.
Proof.
  induction parts as [|p rest IH]; intros acc Hex Hmp Hall.
  - simpl. now rewrite app_nil_r.
  - inversion Hall as [|? ? Hp Hrest]; subst.
    cbn [DiskSource.scan_partitions flat_map].
    rewrite (excluded_strings py s ex p Hex), (unmonitored_strings s mp p Hmp).
    unfold selects.
    destruct (existsb (String.eqb (str_lower py (DiskSource.p_fstype p)))
                (map (str_lower py) ex)); cbn [negb andb]; [now apply IH|].
    destruct (match mp with
              | [] => true
              | _ => existsb (fun q => String.prefix q (DiskSource.p_mountpoint p)) mp
              end); cbn [negb]; [|now apply IH].
    unfold reported, readable in *.
    destruct (DiskSource.p_usage p) as [total used free| |x].
    + apply Z.eqb_neq in Hp. rewrite Hp. rewrite IH by assumption.
      now rewrite <- app_assoc.
    + now apply IH.
    + contradiction.
Qed.

(** X16.  When [exclude_types] and [monitored_paths] are lists of strings
    and no usage ends the scan, [_get_disk_info] reports, in the order of
    the partitions, exactly those whose lowered type is none of the
    lowered excluded types, whose mountpoint starts with one of the
    monitored paths (every one when no path is configured), and whose
    usage could be read; a partition whose usage raises an OSError is
    skipped. *)
Theorem get_disk_info_selects
    (py : PyLib) (fl : DiskSource.Rounding) (s : Disk.state)
    (ex mp : list string) (parts : list DiskSource.partition) :
  Disk.exclude_types s = VList (map VStr ex) ->
  Disk.monitored_paths s = VList (map VStr mp) ->
  Forall readable parts ->
  DiskSource._get_disk_info py fl s (Ret parts)
  = flat_map (fun p => if selects py ex mp p then reported fl p else []) parts.
Proof.
  intros Hex Hmp Hall. unfold DiskSource._get_disk_info.
  now rewrite (scan_partitions_selects py fl s ex mp parts [] Hex Hmp Hall).
Qed.

(** With the default lists: the root is reported, the tmpfs (written in
    capitals) is excluded, the partition that cannot be read is
    skipped. *)
Lemma get_disk_info_selects_witness :
  map Disk.mountpoint
    (DiskSource._get_disk_info Examples.example_lib Examples.example_rounding
       Disk.init (Ret Examples.example_partitions)) = ["/"].
Proof.
  rewrite (get_disk_info_selects Examples.example_lib Examples.example_rounding
             Disk.init ["tmpfs"; "devtmpfs"; "proc"; "sysfs"]
             ["/"; "/var"; "/tmp"; "/home"] Examples.example_partitions
             eq_refl eq_refl).
  - reflexivity.
  - repeat constructor; simpl; discriminate.
Defined.

Lemma scan_partitions_in py fl s parts : forall acc fs,
  In fs (DiskSource.scan_partitions py fl s parts acc) ->
  In fs acc
  \/ exists p total used free,
      In p parts /\ DiskSource.p_usage p = DiskSource.Usage total used free
      /\ total <> 0 /\ fs = DiskSource.entry fl p total used free
      /\ DiskSource.excluded py s p = Ret false
      /\ DiskSource.unmonitored s p = Ret false.
Proof.
  induction parts as [|p rest IH]; intros acc fs; simpl; [auto|].
  destruct (DiskSource.excluded py s p) as [[|]|] eqn:Hex; [| |auto].
  - intros H. destruct (IH _ _ H) as [|(q & t & u & f & Hin & Hq)]; [auto|].
    right. exists q, t, u, f. tauto.
  - destruct (DiskSource.unmonitored s p) as [[|]|] eqn:Hum; [| |auto].
    + intros H. destruct (IH _ _ H) as [|(q & t & u & f & Hin & Hq)]; [auto|].
      right. exists q, t, u, f. tauto.
    + destruct (DiskSource.p_usage p) as [total used free| |x] eqn:Hu; [| |auto].
      * destruct (total =? 0) eqn:Ht; [auto|].
        apply Z.eqb_neq in Ht.
        intros H. destruct (IH _ _ H) as [Hacc|(q & t & u & f & Hin & Hq)].
        -- apply in_app_or in Hacc. destruct Hacc as [|[<-|[]]]; [auto|].
           right. exists p, total, used, free. auto 10.
        -- right. exists q, t, u, f. tauto.
      * intros H. destruct (IH _ _ H) as [|(q & t & u & f & Hin & Hq)]; [auto|].
        right. exists q, t, u, f. tauto.
Qed.

(** X17.  Whatever the configuration holds, [_get_disk_info] never
    raises, returns the empty list when the partitions cannot be listed,
    and every item it returns is the entry of a listed partition whose
    usage was read with a total that is not zero, whose type passed the
    exclusion test and whose mountpoint passed the path test.  So an
    event that [detect_triggers] emits on these metrics is about such a
    partition: no alert is raised for an excluded type or outside the
    monitored paths. *)
Theorem get_disk_info_reports_selected_partitions
    (py : PyLib) (fl : DiskSource.Rounding) (s : Disk.state) :
  (forall x, DiskSource._get_disk_info py fl s (Raise x) = [])
  /\ (forall partitions fs,
        In fs (DiskSource._get_disk_info py fl s partitions) ->
        exists parts p total used free,
          partitions = Ret parts /\ In p parts
          /\ DiskSource.p_usage p = DiskSource.Usage total used free
          /\ total <> 0 /\ fs = DiskSource.entry fl p total used free
          /\ DiskSource.excluded py s p = Ret false
          /\ DiskSource.unmonitored s p = Ret false)
  /\ (forall now partitions ev s1,
        Disk.detect_triggers (DiskSource.env_of py fl s now partitions) s = (Some ev, s1) ->
        exists parts p total used free,
          partitions = Ret parts /\ In p parts
          /\ DiskSource.p_usage p = DiskSource.Usage total used free
          /\ total <> 0
          /\ Disk.ev_filesystem ev = DiskSource.entry fl p total used free
          /\ DiskSource.excluded py s p = Ret false
          /\ DiskSource.unmonitored s p = Ret false).
Proof.
  assert (forall partitions fs,
             In fs (DiskSource._get_disk_info py fl s partitions) ->
             exists parts p total used free,
               partitions = Ret parts /\ In p parts
               /\ DiskSource.p_usage p = DiskSource.Usage total used free
               /\ total <> 0 /\ fs = DiskSource.entry fl p total used free
               /\ DiskSource.excluded py s p = Ret false
               /\ DiskSource.unmonitored s p = Ret false) as Hin.
  { intros [parts|x] fs; simpl; [|contradiction].
    intros H. destruct (scan_partitions_in _ _ _ _ _ _ H)
      as [[]|(p & t & u & f & Hp)].
    exists parts, p, t, u, f. tauto. }
  split; [reflexivity|]. split; [exact Hin|].
  intros now partitions ev s1 Hd.
  destruct (disk_detect_some _ _ _ _ Hd) as (_ & _ & _ & fs & lv & th & Hfs & _ & ->).
  simpl in Hfs. apply Hin in Hfs. exact Hfs.
Qed.

Lemma get_disk_info_reports_selected_partitions_witness :
  option_map (fun ev => Disk.mountpoint (Disk.ev_filesystem ev))
    (fst (Disk.detect_triggers
            (DiskSource.env_of Examples.example_lib Examples.example_rounding
               Examples.started_disk 1000 (Ret Examples.example_partitions))
            Examples.started_disk)) = Some "/"
  /\ exists parts p total used free,
      Ret Examples.example_partitions = Ret parts /\ In p parts
      /\ DiskSource.p_usage p = DiskSource.Usage total used free
      /\ total <> 0
      /\ DiskSource.excluded Examples.example_lib Examples.started_disk p = Ret false.
Proof.
  split; [reflexivity|].
  destruct (get_disk_info_reports_selected_partitions Examples.example_lib
              Examples.example_rounding Examples.started_disk) as (_ & _ & H).
  assert (Disk.detect_triggers
            (DiskSource.env_of Examples.example_lib Examples.example_rounding
               Examples.started_disk 1000 (Ret Examples.example_partitions))
            Examples.started_disk
          = (fst (Disk.detect_triggers
                    (DiskSource.env_of Examples.example_lib Examples.example_rounding
                       Examples.started_disk 1000 (Ret Examples.example_partitions))
                    Examples.started_disk),
             snd (Disk.detect_triggers
                    (DiskSource.env_of Examples.example_lib Examples.example_rounding
                       Examples.started_disk 1000 (Ret Examples.example_partitions))
                    Examples.started_disk))) as Hd by (apply surjective_pairing).
  destruct (fst (Disk.detect_triggers
                   (DiskSource.env_of Examples.example_lib Examples.example_rounding
                      Examples.started_disk 1000 (Ret Examples.example_partitions))
                   Examples.started_disk)) as [ev|] eqn:Hf;
    [|vm_compute in Hf; discriminate].
  destruct (H _ _ _ _ Hd) as (parts & p & t & u & f & E1 & E2 & E3 & E4 & _ & E6 & _).
  exists parts, p, t, u, f. auto.
Defined.

(** ** The executable of a command *)

Lemma prefix_nil (z : string) : String.prefix "" z = true.
Proof. destruct z; reflexivity. Qed.

Lemma contains_slash_app (x y : string) : str_contains "/" (x +:+ "/" +:+ y) = true.
Proof.
  induction x as [|a x IH].
  - change ("" +:+ "/" +:+ y) with (String "/" y).
    cbn [str_contains String.prefix].
    destruct (ascii_dec "/" "/"); [|congruence]. now rewrite prefix_nil.
  - change (String a x +:+ "/" +:+ y) with (String a (x +:+ "/" +:+ y)).
    cbn [str_contains]. rewrite IH.
    destruct (String.prefix "/" (String a (x +:+ "/" +:+ y))); reflexivity.
Qed.

Lemma contains_slash_cons c t :
  str_contains "/" (String c t) = Ascii.eqb c "/" || str_contains "/" t.
Proof.
  cbn [str_contains String.prefix].
  destruct (ascii_dec "/" c) as [<-|Hne].
  - now rewrite prefix_nil.
  - destruct (Ascii.eqb c "/") eqn:E; [|reflexivity].
    apply Ascii.eqb_eq in E. congruence.
Qed.

Lemma basename_no_slash t : str_contains "/" (basename t) = false.
Proof.
  induction t as [|c t IH]; [reflexivity|].
  cbn [basename].
  destruct (str_contains "/" t) eqn:Ht; [exact IH|].
  destruct (Ascii.eqb c "/") eqn:Hc; [exact Ht|].
  rewrite contains_slash_cons, Hc, Ht. reflexivity.
Qed.

Lemma basename_plain t : str_contains "/" t = false -> basename t = t.
Proof.
  destruct t as [|c t]; [reflexivity|].
  rewrite contains_slash_cons. intros H. apply orb_false_iff in H.
  destruct H as [Hc Ht]. cbn [basename]. now rewrite Ht, Hc.
Qed.

Lemma basename_path d b : str_contains "/" b = false -> basename (d +:+ "/" +:+ b) = b.
Proof.
  intros Hb. induction d as [|c d IH].
  - change ("" +:+ "/" +:+ b) with (String "/" b).
    cbn [basename]. rewrite Hb. reflexivity.
  - change (String c d +:+ "/" +:+ b) with (String c (d +:+ "/" +:+ b)).
    cbn [basename]. now rewrite contains_slash_app.
Qed.

(** X18.  The executable that [_validate_command] looks up is the part of
    the first token after its last slash: it holds no slash, it is the
    token itself when the token holds none, and it is [b] for a token
    [d/b].  So a blocked executable is turned down under any directory
    prefix, with the text that names it. *)
Theorem blocked_under_any_path (py : PyLib) (s : Shell.state) :
  (forall t, str_contains "/" (basename t) = false)
  /\ (forall t, str_contains "/" t = false -> basename t = t)
  /\ (forall d b, str_contains "/" b = false -> basename (d +:+ "/" +:+ b) = b)
  /\ (forall c d b rest wd,
        str_contains "/" b = false ->
        shlex_split py c = Ret ((d +:+ "/" +:+ b) :: rest) ->
        py_in b (Shell.blocked_commands s) = Ret true ->
        Shell._validate_command py s (VStr c) wd
        = Shell.Invalid ("Command '" +:+ b +:+ "' is blocked for security")).
Proof.
  split; [exact basename_no_slash|]. split; [exact basename_plain|].
  split; [exact basename_path|].
  intros c d b rest wd Hb Hs Hin.
  unfold Shell._validate_command, Shell.validate_body.
  rewrite Hs, (basename_path d b Hb), Hin. reflexivity.
Qed.

Lemma blocked_under_any_path_witness :
  Shell._validate_command Examples.example_lib Examples.started_shell
    (VStr "/usr/bin/rm -f x") (VStr "/tmp")
  = Shell.Invalid "Command 'rm' is blocked for security".
Proof.
  destruct (blocked_under_any_path Examples.example_lib Examples.started_shell)
    as (_ & _ & _ & H).
  apply (H "/usr/bin/rm -f x" "/usr/bin" "rm" ["-f"; "x"]); reflexivity.
Defined.

(** ** Working directories *)

Lemma prefix_app p x : String.prefix p (p +:+ x) = true.
Proof.
  induction p as [|c p IH]; [apply prefix_nil|].
  change (String c p +:+ x) with (String c (p +:+ x)). cbn [String.prefix].
  destruct (ascii_dec c c); [exact IH|congruence].
Qed.

Lemma prefix_split p : forall w, String.prefix p w = true -> exists x, w = p +:+ x.
Proof.
  induction p as [|c p IH]; intros w H.
  - exists w. reflexivity.
  - destruct w as [|c' w]; simpl in H; [discriminate|].
    destruct (ascii_dec c c') as [<-|]; [|discriminate].
    destruct (IH w H) as [x ->]. exists x. reflexivity.
Qed.

(** [any_startswith] on strings: the working directory is one of the
    paths followed by any text. *)
Lemma any_startswith_prefix (w : string) (paths : list string) :
  Shell.any_startswith (VStr w) (map VStr paths) = Ret true
  <-> exists p x, In p paths /\ w = p +:+ x.
Proof.
  rewrite any_startswith_strings. split.
  - intros H. inversion H as [Hex]. apply existsb_exists in Hex.
    destruct Hex as (p & Hin & Hp). destruct (prefix_split p w Hp) as [x ->].
    eauto.
  - intros (p & x & Hin & ->). f_equal. apply existsb_exists.
    exists p. split; [exact Hin|apply prefix_app].
Qed.

(** X19.  The test of the working directory in [_validate_command] is a
    test on strings, and it is skipped when no path is configured.  Take
    a command that passes the checks of its executable and holds no
    dangerous pattern, and a list of strings for [allowed_paths].  The
    command is accepted exactly when the list is empty, or the working
    directory is one of the paths followed by any text at all, be it a
    sub-directory or not; otherwise the error is that the working
    directory is not allowed. *)
Theorem working_dir_is_prefix_test
    (py : PyLib) (s : Shell.state) (c tok : string) (rest : list string)
    (w : string) (paths : list string) :
  shlex_split py c = Ret (tok :: rest) ->
  py_in (basename tok) (Shell.blocked_commands s) = Ret false ->
  (truthy (Shell.allowed_commands s) = true ->
   py_in (basename tok) (Shell.allowed_commands s) = Ret true) ->
  Shell.allowed_paths s = VList (map VStr paths) ->
  find (fun p => str_contains p (str_lower py c)) Shell.dangerous_patterns = None ->
  (Shell._validate_command py s (VStr c) (VStr w) = Shell.Valid
   <-> paths = [] \/ exists p x, In p paths /\ w = p +:+ x)
  /\ (Shell._validate_command py s (VStr c) (VStr w) <> Shell.Valid ->
      Shell._validate_command py s (VStr c) (VStr w)
      = Shell.Invalid ("Working directory '" +:+ w +:+ "' is not allowed")).
Proof.
  intros Hsplit Hb Hpass Hpaths Hf.
  assert (Shell._validate_command py s (VStr c) (VStr w)
          = if match paths with
               | [] => true
               | _ => existsb (fun q => String.prefix q w) paths
               end
            then Shell.Valid
            else Shell.Invalid ("Working directory '" +:+ w +:+ "' is not allowed"))
    as Hv.
  { unfold Shell._validate_command, Shell.validate_body.
    rewrite Hsplit. cbv zeta. rewrite Hb. cbn [rbind].
    destruct (truthy (Shell.allowed_commands s));
      [rewrite (Hpass eq_refl)|]; cbn [rbind negb];
      rewrite Hpaths; (destruct paths as [|q ps];
        [cbn [truthy map rbind negb]; rewrite Hf; reflexivity|]);
      change (truthy (VList (map VStr (q :: ps)))) with true;
      cbn [py_iter rbind]; rewrite any_startswith_strings;
      (destruct (existsb (fun q0 => String.prefix q0 w) (q :: ps));
       cbn [negb py_str]; [rewrite Hf|]; reflexivity). }
  rewrite Hv. split; [split|].
  - destruct paths as [|q ps]; [auto|]. intros H. right.
    apply any_startswith_prefix. rewrite any_startswith_strings.
    destruct (existsb (fun q0 => String.prefix q0 w) (q :: ps));
      [reflexivity|discriminate].
  - intros [->|H]; [reflexivity|].
    apply any_startswith_prefix in H. rewrite any_startswith_strings in H.
    inversion H as [Hex]. rewrite Hex.
    destruct paths; reflexivity.
  - destruct (match paths with
              | [] => true
              | _ => existsb (fun q => String.prefix q w) paths
              end); [congruence|reflexivity].
Qed.

(** With the default paths /tmp and /var/tmp, the directory /tmpfoo
    passes. *)
Lemma working_dir_is_prefix_test_witness :
  Shell._validate_command Examples.example_lib Examples.started_shell
    (VStr "ls") (VStr "/tmpfoo") = Shell.Valid.
Proof.
  destruct (working_dir_is_prefix_test Examples.example_lib Examples.started_shell
              "ls" "ls" [] "/tmpfoo" ["/tmp"; "/var/tmp"]
              eq_refl eq_refl
              ltac:(intros H; vm_compute in H; discriminate)
              eq_refl eq_refl) as [[_ H] _].
  apply H. right. exists "/tmp", "foo". split; [left; reflexivity|reflexivity].
Defined.

(** ** Captured output *)

Lemma substring_length n : forall s,
  String.length (String.substring 0 n s) = Nat.min n (String.length s).
Proof.
  induction n as [|n IH]; intros [|c s]; simpl; try reflexivity.
  now rewrite IH.
Qed.

Lemma substring_prefix n : forall s, String.prefix (String.substring 0 n s) s = true.
Proof.
  induction n as [|n IH]; intros [|c s]; simpl; try reflexivity.
  destruct (ascii_dec c c); [apply IH|congruence].
Qed.

(** X20.  With a positive [max_output_size], as [initialize] requires,
    an output that is not longer than the limit is kept as it is, and a
    longer one is cut to its first [max_output_size] characters followed
    by the truncation marker; what [_execute_command] returns of a
    process that ended is a success whose two outputs are cut in this
    way, so neither is longer than the limit plus the 23 characters of
    the marker. *)
Theorem captured_output_is_bounded (py : PyLib) (s : Shell.state) (out : string) :
  0 < Shell.max_output_size s ->
  (Z.of_nat (String.length out) <= Shell.max_output_size s -> Shell.truncate s out = out)
  /\ (Shell.max_output_size s < Z.of_nat (String.length out) ->
      exists cut,
        Shell.truncate s out = cut +:+ Shell.truncation_marker
        /\ String.prefix cut out = true
        /\ Z.of_nat (String.length cut) = Shell.max_output_size s)
  /\ Z.of_nat (String.length (Shell.truncate s out)) <= Shell.max_output_size s + 23
  /\ (forall wd tmo rc err seconds,
        Shell._execute_command py s wd tmo (Shell.Exited rc out err seconds)
        = {| Shell.success := true;
             Shell.return_code := Some rc;
             Shell.stdout := Some (Shell.truncate s out);
             Shell.stderr := Some (Shell.truncate s err);
             Shell.execution_time := Some seconds;
             Shell.error := None |}).
Proof.
  intros Hpos.
  assert (Shell.max_output_size s < Z.of_nat (String.length out) ->
          exists cut,
            Shell.truncate s out = cut +:+ Shell.truncation_marker
            /\ String.prefix cut out = true
            /\ Z.of_nat (String.length cut) = Shell.max_output_size s) as Hcut.
  { intros Hlong. unfold Shell.truncate.
    apply Z.ltb_lt in Hlong. rewrite Hlong. apply Z.ltb_lt in Hlong.
    eexists. split; [reflexivity|]. unfold slice_to.
    assert ((0 <=? Shell.max_output_size s) = true) as -> by (apply Z.leb_le; lia).
    split; [apply substring_prefix|].
    rewrite substring_length. lia. }
  split; [|split; [exact Hcut|split; [|reflexivity]]].
  - intros Hshort. unfold Shell.truncate.
    assert ((Shell.max_output_size s <? Z.of_nat (String.length out)) = false) as ->
      by (apply Z.ltb_ge; lia).
    reflexivity.
  - destruct (Z.lt_ge_cases (Shell.max_output_size s) (Z.of_nat (String.length out)))
      as [Hlong|Hshort].
    + destruct (Hcut Hlong) as (cut & -> & _ & Hlen).
      rewrite string_length_app. unfold Shell.truncation_marker.
      rewrite string_length_app. simpl String.length. lia.
    + unfold Shell.truncate.
      assert ((Shell.max_output_size s <? Z.of_nat (String.length out)) = false) as ->
        by (apply Z.ltb_ge; lia).
      lia.
Qed.

Lemma captured_output_is_bounded_witness :
  Shell.truncate (Shell.set_max_output_size 4 (Shell.init false)) "abcdefgh"
  = "abcd" +:+ Shell.truncation_marker
  /\ Z.of_nat (String.length
                 (Shell.truncate (Shell.set_max_output_size 4 (Shell.init false))
                    "abcdefgh")) <= 4 + 23.
Proof.
  split; [reflexivity|].
  destruct (captured_output_is_bounded Examples.example_lib
              (Shell.set_max_output_size 4 (Shell.init false)) "abcdefgh")
    as (_ & _ & H & _); [reflexivity|exact H].
Defined.

(** ** Calls of the Action Source *)

Lemma shell_execute_call_inv py req e s r calls :
  Shell.execute_action py req e s = (r, calls) ->
  calls <> [] ->
  exists action_id parameters cmd wd,
    running (Shell.life s) = true
    /\ py_getitem req "id" = Ret action_id
    /\ py_get req "parameters" (VDict []) = Ret parameters
    /\ py_get parameters "command" (VStr "") = Ret cmd
    /\ py_get parameters "working_dir" (VStr "/tmp") = Ret wd
    /\ truthy cmd = true
    /\ Shell._validate_command py s cmd wd = Shell.Valid.
Proof.
  unfold Shell.execute_action.
  destruct (running (Shell.life s)) eqn:Hr; simpl.
  2: { destruct (py_getitem req "id"); intros E; inversion E; congruence. }
  destruct (py_getitem req "id") as [action_id|] eqn:Hid;
    [|intros E; inversion E; congruence].
  destruct (py_get req "parameters" (VDict [])) as [parameters|] eqn:Hp;
    [|intros E; inversion E; congruence].
  destruct parameters as [| | | | | |p];
    try (intros E; inversion E; congruence).
  pose proof (shell_try_block_command py action_id (VDict p) e s
                (default (VStr "") (assoc "command" p))
                (default (VStr "/tmp") (assoc "working_dir" p)) eq_refl eq_refl) as Ht.
  rewrite Ht.
  destruct (truthy (default (VStr "") (assoc "command" p))) eqn:Htr; simpl;
    [|intros E; inversion E; congruence].
  destruct (Shell._validate_command py s (default (VStr "") (assoc "command" p))
              (default (VStr "/tmp") (assoc "working_dir" p))) eqn:Hv;
    [|intros E; inversion E; congruence].
  intros _ _. do 4 eexists. repeat split; eauto.
Qed.

(** X21.  [execute_action] of the shell plugin calls an Action Source at
    most once, and only on a running plugin, with the command and the
    working directory of the request, after [_validate_command] has
    accepted them: the command is a string that [shlex.split] splits into
    tokens, the executable of its first token is not in the blocked set,
    and no dangerous pattern is in the lowered command.  The source called
    is the simulated one exactly in demo mode. *)
Theorem source_called_only_when_valid
    (py : PyLib) (req : value) (e : Shell.env) (s : Shell.state)
    (r : result (action_result Shell.shell_data))
    (call : Shell.source_call) (calls : list Shell.source_call) :
  Shell.execute_action py req e s = (r, calls) ->
  In call calls ->
  calls = [call]
  /\ running (Shell.life s) = true
  /\ Shell.sc_simulated call = Shell.demo_mode s
  /\ Shell._validate_command py s (Shell.sc_command call) (Shell.sc_working_dir call)
     = Shell.Valid
  /\ (exists parameters,
        py_get req "parameters" (VDict []) = Ret parameters
        /\ py_get parameters "command" (VStr "") = Ret (Shell.sc_command call)
        /\ py_get parameters "working_dir" (VStr "/tmp")
           = Ret (Shell.sc_working_dir call))
  /\ (exists c tok rest,
        Shell.sc_command call = VStr c
        /\ shlex_split py c = Ret (tok :: rest)
        /\ py_in (basename tok) (Shell.blocked_commands s) = Ret false
        /\ find (fun p => str_contains p (str_lower py c)) Shell.dangerous_patterns
           = None).
Proof.
  intros E Hin.
  assert (calls <> []) as Hne by (intros ->; contradiction).
  destruct (shell_execute_call_inv _ _ _ _ _ _ E Hne)
    as (action_id & parameters & cmd & wd & Hr & Hid & Hp & Hc & Hw & Htr & Hv).
  rewrite (shell_execute_running py req e s action_id parameters Hr Hid Hp) in E.
  rewrite (shell_try_block_command py action_id parameters e s cmd wd Hc Hw) in E.
  rewrite Htr, Hv in E. simpl in E. inversion E; subst; clear E.
  destruct Hin as [<-|[]]. simpl.
  split; [reflexivity|]. split; [exact Hr|]. split; [reflexivity|].
  split; [exact Hv|]. split; [eauto|].
  destruct (validate_command_valid _ _ _ _ Hv)
    as (c & tok & rest & -> & Hs & Hb & _ & _ & Hd).
  exists c, tok, rest. auto.
Qed.

Lemma source_called_only_when_valid_witness :
  exists r call,
    Shell.execute_action Examples.example_lib (Examples.shell_request "echo hi")
      (Examples.shell_env false) Examples.started_shell = (r, [call])
    /\ Shell._validate_command Examples.example_lib Examples.started_shell
         (Shell.sc_command call) (Shell.sc_working_dir call) = Shell.Valid.
Proof.
  destruct (Shell.execute_action Examples.example_lib (Examples.shell_request "echo hi")
              (Examples.shell_env false) Examples.started_shell) as [r calls] eqn:E.
  destruct calls as [|call calls]; [vm_compute in E; discriminate|].
  destruct (source_called_only_when_valid _ _ _ _ _ call _ E (or_introl eq_refl))
    as (Hc & _ & _ & Hv & _).
  exists r, call. rewrite Hc. auto.
Defined.

(** X22.  When the shell plugin has called an Action Source, the result
    carries data, and no exception path is taken.  In demo mode it is
    "failed" exactly on the simulated error draw.  Outside demo mode it is
    "completed" whenever the process ended, whatever its return code, and
    "failed" when the working directory is missing or not writable, on a
    timeout, and on an exception. *)
Theorem shell_result_after_call
    (py : PyLib) (req : value) (e : Shell.env) (s : Shell.state)
    (r : action_result Shell.shell_data) (calls : list Shell.source_call) :
  Shell.execute_action py req e s = (Ret r, calls) ->
  calls <> [] ->
  is_Some (ar_data r)
  /\ ar_execution_host r = true
  /\ (Shell.demo_mode s = true ->
      ar_status r = if Shell.sim_error e then AFailed else ACompleted)
  /\ (Shell.demo_mode s = false ->
      ar_status r = match Shell.os_run e with
                    | Shell.Exited _ _ _ _ => ACompleted
                    | _ => AFailed
                    end).
Proof.
  intros E Hne.
  destruct (shell_execute_call_inv _ _ _ _ _ _ E Hne)
    as (action_id & parameters & cmd & wd & Hr & Hid & Hp & Hc & Hw & Htr & Hv).
  rewrite (shell_execute_running py req e s action_id parameters Hr Hid Hp) in E.
  rewrite (shell_try_block_command py action_id parameters e s cmd wd Hc Hw) in E.
  rewrite Htr, Hv in E. simpl in E. inversion E; subst; clear E.
  destruct (Shell.demo_mode s).
  - destruct (Shell.sim_error e); simpl;
      (split; [eauto|]); (split; [reflexivity|]); split; auto; discriminate.
  - destruct (Shell.os_run e); simpl;
      (split; [eauto|]); (split; [reflexivity|]); split; auto; discriminate.
Qed.

Lemma shell_result_after_call_witness :
  exists r calls,
    Shell.execute_action Examples.example_lib (Examples.shell_request "echo hi")
      {| Shell.t_start := 0; Shell.t_end := 9; Shell.sim_time := 1;
         Shell.sim_error := false; Shell.os_run := Shell.Exited 2 "" "boom" 1 |}
      (snd (Shell.start 0 (Shell.init false))) = (Ret r, calls)
    /\ ar_status r = ACompleted.
Proof.
  destruct (Shell.execute_action Examples.example_lib (Examples.shell_request "echo hi")
              {| Shell.t_start := 0; Shell.t_end := 9; Shell.sim_time := 1;
                 Shell.sim_error := false; Shell.os_run := Shell.Exited 2 "" "boom" 1 |}
              (snd (Shell.start 0 (Shell.init false)))) as [[r|x] calls] eqn:E;
    [|vm_compute in E; discriminate].
  exists r, calls. split; [reflexivity|].
  assert (calls <> []) as Hne by (vm_compute in E; inversion E; discriminate).
  destruct (shell_result_after_call _ _ _ _ _ _ E Hne) as (_ & _ & _ & H).
  apply H. reflexivity.
Defined.

(** X23.  A plugin that is not running fails a request fast: for a
    request with an id, [execute_action] of either action plugin returns
    the failed result "Plugin is not running" with that id and without
    data, and calls no Action Source; the dispatcher wraps it in a response
    whose success is true, as the command itself was served. *)
Theorem not_running_fails_fast (py : PyLib) (req action_id : value) :
  py_getitem req "id" = Ret action_id ->
  (forall e s, running (Shell.life s) = false ->
     Shell.execute_action py req e s
     = (Ret (_create_error_result action_id "Plugin is not running"
               (Shell.t_start e) (Shell.t_end e)), [])
     /\ forall cmd,
         py_get cmd "action" VNone = Ret (VStr "execute_action") ->
         py_get cmd "action_request" (VDict []) = Ret req ->
         Shell.dispatch py cmd e s
         = (Ret (reply (VStr "execute_action") true
                   (Some (Shell.DResult
                            (_create_error_result action_id "Plugin is not running"
                               (Shell.t_start e) (Shell.t_end e)))) None), s))
  /\ (forall e s, running (Email.life s) = false ->
     Email.execute_action py req e s
     = (Ret (_create_error_result action_id "Plugin is not running"
               (Email.t_start e) (Email.t_end e)), [])
     /\ forall cmd,
         py_get cmd "action" VNone = Ret (VStr "execute_action") ->
         py_get cmd "action_request" (VDict []) = Ret req ->
         Email.dispatch py cmd e s
         = (Ret (reply (VStr "execute_action") true
                   (Some (Email.DResult
                            (_create_error_result action_id "Plugin is not running"
                               (Email.t_start e) (Email.t_end e)))) None), s)).
Proof.
  intros Hid. split; intros e s Hr.
  - assert (Shell.execute_action py req e s
            = (Ret (_create_error_result action_id "Plugin is not running"
                      (Shell.t_start e) (Shell.t_end e)), [])) as He
      by (unfold Shell.execute_action; now rewrite Hr, Hid).
    split; [exact He|].
    intros cmd Ha Hq. unfold Shell.dispatch. rewrite Ha. simpl. rewrite Hq, He.
    reflexivity.
  - assert (Email.execute_action py req e s
            = (Ret (_create_error_result action_id "Plugin is not running"
                      (Email.t_start e) (Email.t_end e)), [])) as He
      by (unfold Email.execute_action; now rewrite Hr, Hid).
    split; [exact He|].
    intros cmd Ha Hq. unfold Email.dispatch. rewrite Ha. simpl. rewrite Hq, He.
    reflexivity.
Qed.

Lemma not_running_fails_fast_witness :
  Shell.execute_action Examples.example_lib (Examples.shell_request "ls")
    (Examples.shell_env false) (Shell.init true)
  = (Ret (_create_error_result (VStr "a1") "Plugin is not running" 0 1500000), []).
Proof.
  destruct (not_running_fails_fast Examples.example_lib (Examples.shell_request "ls")
              (VStr "a1") eq_refl) as [H _].
  destruct (H (Examples.shell_env false) (Shell.init true) eq_refl) as [He _].
  exact He.
Defined.

(** ** Recipients of a mail *)

(** [execute_action] of the email plugin on a running plugin and a
    request whose parameters are a dict. *)
Lemma email_execute_running py req e s action_id p :
  running (Email.life s) = true ->
  py_getitem req "id" = Ret action_id ->
  py_get req "parameters" (VDict []) = Ret (VDict p) ->
  Email.execute_action py req e s
  = let to := default (VList []) (assoc "to" p) in
    let cc := Email.as_list (default (VList []) (assoc "cc" p)) in
    let bcc := Email.as_list (default (VList []) (assoc "bcc" p)) in
    let subject := default (VStr "Stavily Notification") (assoc "subject" p) in
    let body := default (VStr "") (assoc "body" p) in
    let html_body := default (VStr "") (assoc "html_body" p) in
    let attachments := default (VList []) (assoc "attachments" p) in
    if truthy to then
      (Ret (finish action_id (Email.t_start e) (Email.t_end e)
              (rbind (if Email.demo_mode s
                      then Email._simulate_email_send e (Email.as_list to) cc bcc
                             body html_body attachments
                      else Ret (Email._send_email py e))
                 (Email.wrap s (Email.as_list to) cc bcc subject attachments))
              (exn_str py)),
       [{| Email.sc_simulated := Email.demo_mode s;
           Email.sc_to := Email.as_list to; Email.sc_cc := cc; Email.sc_bcc := bcc;
           Email.sc_subject := subject; Email.sc_body := body;
           Email.sc_html_body := html_body;
           Email.sc_attachments := attachments |}])
    else
      (Ret (_create_error_result action_id "At least one recipient email is required"
              (Email.t_start e) (Email.t_end e)), []).
Proof.
  intros Hr Hid Hp. unfold Email.execute_action. rewrite Hr, Hid, Hp.
  cbn [negb]. unfold Email.try_block, py_get, default, from_option, id.
  cbn [rbind]. cbv beta zeta.
  destruct (truthy match assoc "to" p with Some x => x | None => VList [] end);
    reflexivity.
Qed.

Lemma email_execute_call_inv py req e s r calls :
  Email.execute_action py req e s = (r, calls) ->
  calls <> [] ->
  exists action_id p,
    running (Email.life s) = true
    /\ py_getitem req "id" = Ret action_id
    /\ py_get req "parameters" (VDict []) = Ret (VDict p)
    /\ truthy (default (VList []) (assoc "to" p)) = true.
Proof.
  intros E Hne.
  destruct (running (Email.life s)) eqn:Hr.
  2: { unfold Email.execute_action in E. rewrite Hr in E. cbn [negb] in E.
       destruct (py_getitem req "id"); inversion E; congruence. }
  destruct (py_getitem req "id") as [action_id|] eqn:Hid.
  2: { unfold Email.execute_action in E. rewrite Hr, Hid in E.
       inversion E; congruence. }
  destruct (py_get req "parameters" (VDict [])) as [parameters|] eqn:Hp.
  2: { unfold Email.execute_action in E. rewrite Hr, Hid, Hp in E.
       inversion E; congruence. }
  destruct parameters as [| | | | | |p];
    try (unfold Email.execute_action in E; rewrite Hr, Hid, Hp in E;
         inversion E; congruence).
  rewrite (email_execute_running py req e s action_id p Hr Hid Hp) in E.
  cbv zeta in E.
  destruct (truthy (default (VList []) (assoc "to" p))) eqn:Ht;
    [|inversion E; congruence].
  exists action_id, p. auto.
Qed.

(** X24.  A request of the email plugin without a recipient: on a running
    plugin, when the parameters are a dict whose "to" is absent or falsy
    (an empty list, an empty string, null, 0, false), [execute_action]
    returns the failed result "At least one recipient email is required"
    with the id of the request and without data, and calls no Action
    Source. *)
Theorem missing_recipient_fails_without_source
    (py : PyLib) (req action_id : value) (p : list (string * value))
    (e : Email.env) (s : Email.state) :
  running (Email.life s) = true ->
  py_getitem req "id" = Ret action_id ->
  py_get req "parameters" (VDict []) = Ret (VDict p) ->
  truthy (default (VList []) (assoc "to" p)) = false ->
  Email.execute_action py req e s
  = (Ret (_create_error_result action_id "At least one recipient email is required"
            (Email.t_start e) (Email.t_end e)), []).
Proof.
  intros Hr Hid Hp Ht.
  rewrite (email_execute_running py req e s action_id p Hr Hid Hp).
  cbv zeta. rewrite Ht. reflexivity.
Qed.

Lemma missing_recipient_fails_without_source_witness :
  Email.execute_action Examples.example_lib
    (VDict [("id", VStr "m1"); ("parameters", VDict [("to", VStr ""); ("body", VStr "x")])])
    (Examples.email_env false) Examples.started_email
  = (Ret (_create_error_result (VStr "m1") "At least one recipient email is required"
            0 500000), []).
Proof.
  apply (missing_recipient_fails_without_source Examples.example_lib _ (VStr "m1")
           [("to", VStr ""); ("body", VStr "x")]); reflexivity.
Defined.

(** X25.  When the email plugin has called an Action Source, it has
    called it once, on a running plugin, the simulated one exactly in demo
    mode, with a truthy "to"; a recipient given as one string is passed as
    the list of that string.  On the failure draw of the simulation, and
    when the SMTP session raises, the result is "failed" with the error of
    the source and with the recipients and the subject as data; when the
    SMTP session succeeds and the attachments have a length, the result is
    "completed" with the message id of the session. *)
Theorem email_result_after_call
    (py : PyLib) (req : value) (e : Email.env) (s : Email.state)
    (r : action_result Email.email_data) (calls : list Email.source_call) :
  Email.execute_action py req e s = (Ret r, calls) ->
  calls <> [] ->
  exists call parameters to,
    calls = [call]
    /\ running (Email.life s) = true
    /\ Email.sc_simulated call = Email.demo_mode s
    /\ py_get req "parameters" (VDict []) = Ret parameters
    /\ py_get parameters "to" (VList []) = Ret to
    /\ truthy to = true
    /\ Email.sc_to call = Email.as_list to
    /\ (forall x, to = VStr x -> Email.sc_to call = VList [VStr x])
    /\ (Email.demo_mode s = true -> Email.sim_failure e = true ->
        ar_status r = AFailed
        /\ ar_error r = Some "Simulated SMTP connection timeout (demo mode)"
        /\ ar_data r = Some (Email.DataFailed (Email.sc_to call) (Email.sc_subject call)))
    /\ (forall x, Email.demo_mode s = false -> Email.smtp e = Email.NotSent x ->
        ar_status r = AFailed
        /\ ar_error r = Some (exn_str py x)
        /\ ar_data r = Some (Email.DataFailed (Email.sc_to call) (Email.sc_subject call)))
    /\ (forall mid n, Email.demo_mode s = false -> Email.smtp e = Email.Sent mid ->
        py_len (Email.sc_attachments call) = Ret n ->
        ar_status r = ACompleted
        /\ ar_error r = None
        /\ ar_data r = Some (Email.DataCompleted (Email.sc_to call) (Email.sc_cc call)
                               (Email.sc_bcc call) (Email.sc_subject call)
                               (Some mid) n false)).
Proof.
  intros E Hne.
  destruct (email_execute_call_inv _ _ _ _ _ _ E Hne)
    as (action_id & p & Hr & Hid & Hp & Ht).
  rewrite (email_execute_running py req e s action_id p Hr Hid Hp) in E.
  cbv zeta in E. rewrite Ht in E. inversion E as [[Hres Hcalls]]. clear E.
  eexists _, (VDict p), (default (VList []) (assoc "to" p)).
  split; [reflexivity|]. split; [exact Hr|]. split; [reflexivity|].
  split; [exact Hp|]. split; [reflexivity|]. split; [exact Ht|].
  split; [reflexivity|]. cbn [Email.sc_to Email.sc_subject Email.sc_cc Email.sc_bcc
                                Email.sc_attachments].
  split; [intros x Hx; rewrite Hx; reflexivity|].
  split; [|split].
  - intros Hd Hf. rewrite Hd. unfold Email._simulate_email_send. rewrite Hf.
    cbn. auto.
  - intros x Hd Hs. rewrite Hd. unfold Email._send_email. rewrite Hs. cbn. auto.
  - intros mid n Hd Hs Hn. rewrite Hd. unfold Email._send_email. rewrite Hs.
    cbn [rbind]. unfold Email.wrap. cbn [Email.success]. rewrite Hn. cbn.
    rewrite ?Hd. auto.
Qed.

Lemma email_result_after_call_witness :
  exists r call,
    Email.execute_action Examples.example_lib
      (VDict [("id", VStr "m1"); ("parameters", VDict [("to", VStr "ops@example.com")])])
      (Examples.email_env true) Examples.started_email = (Ret r, [call])
    /\ Email.sc_to call = VList [VStr "ops@example.com"]
    /\ ar_status r = AFailed.
Proof.
  destruct (Email.execute_action Examples.example_lib
              (VDict [("id", VStr "m1");
                      ("parameters", VDict [("to", VStr "ops@example.com")])])
              (Examples.email_env true) Examples.started_email)
    as [[r|x] calls] eqn:E; [|vm_compute in E; discriminate].
  assert (calls <> []) as Hne by (vm_compute in E; inversion E; discriminate).
  destruct (email_result_after_call _ _ _ _ _ _ E Hne)
    as (call & parameters & to & Hc & _ & _ & Hp & Hto & _ & _ & Hx & Hf & _).
  exists r, call. rewrite Hc. split; [reflexivity|].
  vm_compute in Hp. inversion Hp; subst parameters.
  vm_compute in Hto. inversion Hto; subst to.
  split; [apply (Hx "ops@example.com"); reflexivity|].
  apply Hf; reflexivity.
Defined.

(** ** The loop of [main] *)

Ltac split_cases E :=
  repeat match type of E with
         | context [if ?b then _ else _] => destruct b eqn:?
         | context [match ?x with _ => _ end] => destruct x eqn:?
         end.

Lemma disk_handle_line_cases py line e s :
  (String.eqb (str_strip py line) "" = true
   /\ Disk.handle_line py line e s = (Break, s))
  \/ (String.eqb (str_strip py line) "" = false
      /\ exists r s', Disk.handle_line py line e s = (Emit r, s')).
Proof.
  unfold Disk.handle_line.
  destruct (String.eqb (str_strip py line) ""); [left; auto|right].
  split; [reflexivity|].
  destruct (json_loads py (str_strip py line)); [|eauto].
  destruct (Disk.dispatch py v e s) as [[r|x] s']; eauto.
Qed.

Lemma memory_handle_line_cases py line e s :
  (String.eqb (str_strip py line) "" = true
   /\ Memory.handle_line py line e s = (Break, s))
  \/ (String.eqb (str_strip py line) "" = false
      /\ exists r s', Memory.handle_line py line e s = (Emit r, s')).
Proof.
  unfold Memory.handle_line.
  destruct (String.eqb (str_strip py line) ""); [left; auto|right].
  split; [reflexivity|].
  destruct (json_loads py (str_strip py line)); [|eauto].
  destruct (Memory.dispatch py v e s) as [[r|x] s']; eauto.
Qed.

Lemma shell_handle_line_cases py line e s :
  (String.eqb (str_strip py line) "" = true
   /\ Shell.handle_line py line e s = (Break, s))
  \/ (String.eqb (str_strip py line) "" = false
      /\ exists r s', Shell.handle_line py line e s = (Emit r, s')).
Proof.
  unfold Shell.handle_line.
  destruct (String.eqb (str_strip py line) ""); [left; auto|right].
  split; [reflexivity|].
  destruct (json_loads py (str_strip py line)); [|eauto].
  destruct (Shell.dispatch py v e s) as [[r|x] s']; eauto.
Qed.

Lemma email_handle_line_cases py line e s :
  (String.eqb (str_strip py line) "" = true
   /\ Email.handle_line py line e s = (Break, s))
  \/ (String.eqb (str_strip py line) "" = false
      /\ exists r s', Email.handle_line py line e s = (Emit r, s')).
Proof.
  unfold Email.handle_line.
  destruct (String.eqb (str_strip py line) ""); [left; auto|right].
  split; [reflexivity|].
  destruct (json_loads py (str_strip py line)); [|eauto].
  destruct (Email.dispatch py v e s) as [[r|x] s']; eauto.
Qed.

Lemma disk_loop_cut py input :
  forall s,
    Disk.main_loop py input s = Disk.main_loop py (until_blank py input) s
    /\ length (fst (Disk.main_loop py input s)) = length (until_blank py input).
Proof.
  induction input as [|[line e] rest IH]; intros s; [auto|].
  destruct (disk_handle_line_cases py line e s) as [[Hb Hh]|[Hb (r & s' & Hh)]];
    cbn [until_blank]; rewrite Hb.
  - simpl. rewrite Hh. auto.
  - cbn [Disk.main_loop]. rewrite Hh. destruct (IH s') as [IH1 IH2].
    rewrite <- IH1. destruct (Disk.main_loop py rest s'). simpl in *. auto.
Qed.

Lemma memory_loop_cut py input :
  forall s,
    Memory.main_loop py input s = Memory.main_loop py (until_blank py input) s
    /\ length (fst (Memory.main_loop py input s)) = length (until_blank py input).
Proof.
  induction input as [|[line e] rest IH]; intros s; [auto|].
  destruct (memory_handle_line_cases py line e s) as [[Hb Hh]|[Hb (r & s' & Hh)]];
    cbn [until_blank]; rewrite Hb.
  - simpl. rewrite Hh. auto.
  - cbn [Memory.main_loop]. rewrite Hh. destruct (IH s') as [IH1 IH2].
    rewrite <- IH1. destruct (Memory.main_loop py rest s'). simpl in *. auto.
Qed.

Lemma shell_loop_cut py input :
  forall s,
    Shell.main_loop py input s = Shell.main_loop py (until_blank py input) s
    /\ length (fst (Shell.main_loop py input s)) = length (until_blank py input).
Proof.
  induction input as [|[line e] rest IH]; intros s; [auto|].
  destruct (shell_handle_line_cases py line e s) as [[Hb Hh]|[Hb (r & s' & Hh)]];
    cbn [until_blank]; rewrite Hb.
  - simpl. rewrite Hh. auto.
  - cbn [Shell.main_loop]. rewrite Hh. destruct (IH s') as [IH1 IH2].
    rewrite <- IH1. destruct (Shell.main_loop py rest s'). simpl in *. auto.
Qed.

Lemma email_loop_cut py input :
  forall s,
    Email.main_loop py input s = Email.main_loop py (until_blank py input) s
    /\ length (fst (Email.main_loop py input s)) = length (until_blank py input).
Proof.
  induction input as [|[line e] rest IH]; intros s; [auto|].
  destruct (email_handle_line_cases py line e s) as [[Hb Hh]|[Hb (r & s' & Hh)]];
    cbn [until_blank]; rewrite Hb.
  - simpl. rewrite Hh. auto.
  - cbn [Email.main_loop]. rewrite Hh. destruct (IH s') as [IH1 IH2].
    rewrite <- IH1. destruct (Email.main_loop py rest s'). simpl in *. auto.
Qed.

(** X26.  [main] of each of the four plugins reads its input up to the
    first line that is blank once stripped, and no further: the responses
    and the final state are those of the lines in front of that line, and
    there is exactly one response for each of them, whether the line is a
    command, is not JSON, or makes the dispatcher raise. *)
Theorem one_response_per_line (py : PyLib) :
  (forall input s,
     Disk.main_loop py input s = Disk.main_loop py (until_blank py input) s
     /\ length (fst (Disk.main_loop py input s)) = length (until_blank py input))
  /\ (forall input s,
     Memory.main_loop py input s = Memory.main_loop py (until_blank py input) s
     /\ length (fst (Memory.main_loop py input s)) = length (until_blank py input))
  /\ (forall input s,
     Shell.main_loop py input s = Shell.main_loop py (until_blank py input) s
     /\ length (fst (Shell.main_loop py input s)) = length (until_blank py input))
  /\ (forall input s,
     Email.main_loop py input s = Email.main_loop py (until_blank py input) s
     /\ length (fst (Email.main_loop py input s)) = length (until_blank py input)).
Proof.
  split; [|split; [|split]]; intros input s.
  - apply disk_loop_cut.
  - apply memory_loop_cut.
  - apply shell_loop_cut.
  - apply email_loop_cut.
Qed.

(** ** The responses of [main] *)

Lemma reply_answers {D} action ok (d : option D) err :
  (is_Some d -> ok = true /\ err = None) ->
  (is_Some err -> ok = false /\ d = None) ->
  well_shaped (reply action ok d err) /\ consistent (reply action ok d err).
Proof.
  intros Hd He. unfold well_shaped, consistent, reply. cbn.
  split; [left; eauto|]. split.
  - intros H. destruct (Hd H) as [-> ->]. auto.
  - intros H. destruct (He H) as [-> ->]. split; [discriminate|reflexivity].
Qed.

Lemma error_only_answers {D} msg :
  well_shaped (@error_only D msg) /\ consistent (@error_only D msg).
Proof.
  unfold well_shaped, consistent, error_only. cbn.
  split; [right; eauto|]. split.
  - intros [? H]. discriminate.
  - intros _. split; [discriminate|reflexivity].
Qed.

Ltac answers :=
  apply reply_answers;
  [ intros [? H]; try discriminate H; auto
  | intros [? H]; try discriminate H; auto ].

Lemma disk_dispatch_answers py cmd e s r s' :
  Disk.dispatch py cmd e s = (Ret r, s') -> well_shaped r /\ consistent r.
Proof.
  unfold Disk.dispatch. intros E. split_cases E;
    inversion E; subst; clear E; answers.
Qed.

Lemma disk_handle_line_answers py line e s r s' :
  Disk.handle_line py line e s = (Emit r, s') -> well_shaped r /\ consistent r.
Proof.
  unfold Disk.handle_line.
  destruct (String.eqb (str_strip py line) ""); [discriminate|].
  destruct (json_loads py (str_strip py line)) as [cmd|].
  - destruct (Disk.dispatch py cmd e s) as [[r0|x] s0] eqn:Hd;
      intros E; inversion E; subst.
    + exact (disk_dispatch_answers _ _ _ _ _ _ Hd).
    + apply error_only_answers.
  - intros E; inversion E; subst. apply error_only_answers.
Qed.

Lemma disk_loop_answers py input :
  forall s, Forall (fun r => well_shaped r /\ consistent r)
              (fst (Disk.main_loop py input s)).
Proof.
  induction input as [|[line e] rest IH]; intros s; [constructor|].
  cbn [Disk.main_loop].
  destruct (Disk.handle_line py line e s) as [[|r] s'] eqn:Hh; [constructor|].
  specialize (IH s'). destruct (Disk.main_loop py rest s') as [rs s''].
  constructor; [|exact IH].
  exact (disk_handle_line_answers _ _ _ _ _ _ Hh).
Qed.

Lemma memory_dispatch_answers py cmd e s r s' :
  Memory.dispatch py cmd e s = (Ret r, s') -> well_shaped r /\ consistent r.
Proof.
  unfold Memory.dispatch. intros E. split_cases E;
    inversion E; subst; clear E; answers.
Qed.

Lemma memory_handle_line_answers py line e s r s' :
  Memory.handle_line py line e s = (Emit r, s') -> well_shaped r /\ consistent r.
Proof.
  unfold Memory.handle_line.
  destruct (String.eqb (str_strip py line) ""); [discriminate|].
  destruct (json_loads py (str_strip py line)) as [cmd|].
  - destruct (Memory.dispatch py cmd e s) as [[r0|x] s0] eqn:Hd;
      intros E; inversion E; subst.
    + exact (memory_dispatch_answers _ _ _ _ _ _ Hd).
    + apply error_only_answers.
  - intros E; inversion E; subst. apply error_only_answers.
Qed.

Lemma memory_loop_answers py input :
  forall s, Forall (fun r => well_shaped r /\ consistent r)
              (fst (Memory.main_loop py input s)).
Proof.
  induction input as [|[line e] rest IH]; intros s; [constructor|].
  cbn [Memory.main_loop].
  destruct (Memory.handle_line py line e s) as [[|r] s'] eqn:Hh; [constructor|].
  specialize (IH s'). destruct (Memory.main_loop py rest s') as [rs s''].
  constructor; [|exact IH].
  exact (memory_handle_line_answers _ _ _ _ _ _ Hh).
Qed.

Lemma shell_dispatch_answers py cmd e s r s' :
  Shell.dispatch py cmd e s = (Ret r, s') -> well_shaped r /\ consistent r.
Proof.
  unfold Shell.dispatch. intros E. split_cases E;
    inversion E; subst; clear E; answers.
Qed.

Lemma shell_handle_line_answers py line e s r s' :
  Shell.handle_line py line e s = (Emit r, s') -> well_shaped r /\ consistent r.
Proof.
  unfold Shell.handle_line.
  destruct (String.eqb (str_strip py line) ""); [discriminate|].
  destruct (json_loads py (str_strip py line)) as [cmd|].
  - destruct (Shell.dispatch py cmd e s) as [[r0|x] s0] eqn:Hd;
      intros E; inversion E; subst.
    + exact (shell_dispatch_answers _ _ _ _ _ _ Hd).
    + apply error_only_answers.
  - intros E; inversion E; subst. apply error_only_answers.
Qed.

Lemma shell_loop_answers py input :
  forall s, Forall (fun r => well_shaped r /\ consistent r)
              (fst (Shell.main_loop py input s)).
Proof.
  induction input as [|[line e] rest IH]; intros s; [constructor|].
  cbn [Shell.main_loop].
  destruct (Shell.handle_line py line e s) as [[|r] s'] eqn:Hh; [constructor|].
  specialize (IH s'). destruct (Shell.main_loop py rest s') as [rs s''].
  constructor; [|exact IH].
  exact (shell_handle_line_answers _ _ _ _ _ _ Hh).
Qed.

Lemma email_dispatch_answers py cmd e s r s' :
  Email.dispatch py cmd e s = (Ret r, s') -> well_shaped r /\ consistent r.
Proof.
  unfold Email.dispatch. intros E. split_cases E;
    inversion E; subst; clear E; answers.
Qed.

Lemma email_handle_line_answers py line e s r s' :
  Email.handle_line py line e s = (Emit r, s') -> well_shaped r /\ consistent r.
Proof.
  unfold Email.handle_line.
  destruct (String.eqb (str_strip py line) ""); [discriminate|].
  destruct (json_loads py (str_strip py line)) as [cmd|].
  - destruct (Email.dispatch py cmd e s) as [[r0|x] s0] eqn:Hd;
      intros E; inversion E; subst.
    + exact (email_dispatch_answers _ _ _ _ _ _ Hd).
    + apply error_only_answers.
  - intros E; inversion E; subst. apply error_only_answers.
Qed.

Lemma email_loop_answers py input :
  forall s, Forall (fun r => well_shaped r /\ consistent r)
              (fst (Email.main_loop py input s)).
Proof.
  induction input as [|[line e] rest IH]; intros s; [constructor|].
  cbn [Email.main_loop].
  destruct (Email.handle_line py line e s) as [[|r] s'] eqn:Hh; [constructor|].
  specialize (IH s'). destruct (Email.main_loop py rest s') as [rs s''].
  constructor; [|exact IH].
  exact (email_handle_line_answers _ _ _ _ _ _ Hh).
Qed.

(** X27.  Every response that [main] of one of the four plugins prints
    has one of two shapes: the action with a success flag, or an error
    alone.  Data comes only with success true and without an error; an
    error comes without data and never with success true. *)
Theorem responses_are_consistent (py : PyLib) :
  (forall input s,
     Forall (fun r => well_shaped r /\ consistent r) (fst (Disk.main_loop py input s)))
  /\ (forall input s,
     Forall (fun r => well_shaped r /\ consistent r) (fst (Memory.main_loop py input s)))
  /\ (forall input s,
     Forall (fun r => well_shaped r /\ consistent r) (fst (Shell.main_loop py input s)))
  /\ (forall input s,
     Forall (fun r => well_shaped r /\ consistent r) (fst (Email.main_loop py input s))).
Proof.
  split; [|split; [|split]]; intros input s.
  - apply disk_loop_answers.
  - apply memory_loop_answers.
  - apply shell_loop_answers.
  - apply email_loop_answers.
Qed.

(** ** The commands that change the state *)

Lemma str_eq_true a v : str_eq a v = true -> v = VStr a.
Proof.
  destruct v; simpl; try discriminate.
  intros H. apply String.eqb_eq in H. now subst.
Qed.

Ltac writer H :=
  apply str_eq_true in H; subst; eexists; split; [reflexivity|];
  unfold trigger_writers, action_writers; simpl; auto 6.

Lemma disk_dispatch_writers py cmd e s o s' :
  Disk.dispatch py cmd e s = (o, s') ->
  s' <> s ->
  exists a, py_get cmd "action" VNone = Ret (VStr a) /\ In a trigger_writers.
Proof.
  unfold Disk.dispatch. intros E Hne.
  destruct (py_get cmd "action" VNone) as [action|x]; [|inversion E; congruence].
  destruct (str_eq "initialize" action) eqn:H1; [writer H1|].
  destruct (str_eq "start" action) eqn:H2; [writer H2|].
  destruct (str_eq "stop" action) eqn:H3; [writer H3|].
  destruct (str_eq "detect_triggers" action) eqn:H4; [writer H4|].
  exfalso. apply Hne. split_cases E; inversion E; reflexivity.
Qed.

Lemma disk_handle_line_writers py line e s o s' :
  Disk.handle_line py line e s = (o, s') ->
  s' <> s ->
  exists cmd a,
    json_loads py (str_strip py line) = Some cmd
    /\ py_get cmd "action" VNone = Ret (VStr a) /\ In a trigger_writers.
Proof.
  unfold Disk.handle_line. intros E Hne.
  destruct (String.eqb (str_strip py line) ""); [inversion E; congruence|].
  destruct (json_loads py (str_strip py line)) as [cmd|]; [|inversion E; congruence].
  destruct (Disk.dispatch py cmd e s) as [r s0] eqn:Hd.
  assert (s0 = s') as -> by (destruct r; inversion E; reflexivity).
  destruct (disk_dispatch_writers _ _ _ _ _ _ Hd Hne) as (a & Ha & Hin).
  eauto.
Qed.

Lemma memory_dispatch_writers py cmd e s o s' :
  Memory.dispatch py cmd e s = (o, s') ->
  s' <> s ->
  exists a, py_get cmd "action" VNone = Ret (VStr a) /\ In a trigger_writers.
Proof.
  unfold Memory.dispatch. intros E Hne.
  destruct (py_get cmd "action" VNone) as [action|x]; [|inversion E; congruence].
  destruct (str_eq "initialize" action) eqn:H1; [writer H1|].
  destruct (str_eq "start" action) eqn:H2; [writer H2|].
  destruct (str_eq "stop" action) eqn:H3; [writer H3|].
  destruct (str_eq "detect_triggers" action) eqn:H4; [writer H4|].
  exfalso. apply Hne. split_cases E; inversion E; reflexivity.
Qed.

Lemma memory_handle_line_writers py line e s o s' :
  Memory.handle_line py line e s = (o, s') ->
  s' <> s ->
  exists cmd a,
    json_loads py (str_strip py line) = Some cmd
    /\ py_get cmd "action" VNone = Ret (VStr a) /\ In a trigger_writers.
Proof.
  unfold Memory.handle_line. intros E Hne.
  destruct (String.eqb (str_strip py line) ""); [inversion E; congruence|].
  destruct (json_loads py (str_strip py line)) as [cmd|]; [|inversion E; congruence].
  destruct (Memory.dispatch py cmd e s) as [r s0] eqn:Hd.
  assert (s0 = s') as -> by (destruct r; inversion E; reflexivity).
  destruct (memory_dispatch_writers _ _ _ _ _ _ Hd Hne) as (a & Ha & Hin).
  eauto.
Qed.

Lemma shell_dispatch_writers py cmd e s o s' :
  Shell.dispatch py cmd e s = (o, s') ->
  s' <> s ->
  exists a, py_get cmd "action" VNone = Ret (VStr a) /\ In a action_writers.
Proof.
  unfold Shell.dispatch. intros E Hne.
  destruct (py_get cmd "action" VNone) as [action|x]; [|inversion E; congruence].
  destruct (str_eq "initialize" action) eqn:H1; [writer H1|].
  destruct (str_eq "start" action) eqn:H2; [writer H2|].
  destruct (str_eq "stop" action) eqn:H3; [writer H3|].
  exfalso. apply Hne. split_cases E; inversion E; reflexivity.
Qed.

Lemma shell_handle_line_writers py line e s o s' :
  Shell.handle_line py line e s = (o, s') ->
  s' <> s ->
  exists cmd a,
    json_loads py (str_strip py line) = Some cmd
    /\ py_get cmd "action" VNone = Ret (VStr a) /\ In a action_writers.
Proof.
  unfold Shell.handle_line. intros E Hne.
  destruct (String.eqb (str_strip py line) ""); [inversion E; congruence|].
  destruct (json_loads py (str_strip py line)) as [cmd|]; [|inversion E; congruence].
  destruct (Shell.dispatch py cmd e s) as [r s0] eqn:Hd.
  assert (s0 = s') as -> by (destruct r; inversion E; reflexivity).
  destruct (shell_dispatch_writers _ _ _ _ _ _ Hd Hne) as (a & Ha & Hin).
  eauto.
Qed.

Lemma email_dispatch_writers py cmd e s o s' :
  Email.dispatch py cmd e s = (o, s') ->
  s' <> s ->
  exists a, py_get cmd "action" VNone = Ret (VStr a) /\ In a action_writers.
Proof.
  unfold Email.dispatch. intros E Hne.
  destruct (py_get cmd "action" VNone) as [action|x]; [|inversion E; congruence].
  destruct (str_eq "initialize" action) eqn:H1; [writer H1|].
  destruct (str_eq "start" action) eqn:H2; [writer H2|].
  destruct (str_eq "stop" action) eqn:H3; [writer H3|].
  exfalso. apply Hne. split_cases E; inversion E; reflexivity.
Qed.

Lemma email_handle_line_writers py line e s o s' :
  Email.handle_line py line e s = (o, s') ->
  s' <> s ->
  exists cmd a,
    json_loads py (str_strip py line) = Some cmd
    /\ py_get cmd "action" VNone = Ret (VStr a) /\ In a action_writers.
Proof.
  unfold Email.handle_line. intros E Hne.
  destruct (String.eqb (str_strip py line) ""); [inversion E; congruence|].
  destruct (json_loads py (str_strip py line)) as [cmd|]; [|inversion E; congruence].
  destruct (Email.dispatch py cmd e s) as [r s0] eqn:Hd.
  assert (s0 = s') as -> by (destruct r; inversion E; reflexivity).
  destruct (email_dispatch_writers _ _ _ _ _ _ Hd Hne) as (a & Ha & Hin).
  eauto.
Qed.

(** X28.  One turn of the loop of [main] changes the state of the plugin
    only on a JSON command whose action is the string "initialize",
    "start" or "stop", or for the two trigger plugins "detect_triggers".
    Every other line leaves each field as it was: a blank line, a line
    that is not JSON, an unknown action, the queries, and [execute_action]
    of the two action plugins. *)
Theorem only_writers_change_state (py : PyLib) (line : string) :
  (forall e s o s', Disk.handle_line py line e s = (o, s') -> s' <> s ->
     exists cmd a, json_loads py (str_strip py line) = Some cmd
       /\ py_get cmd "action" VNone = Ret (VStr a) /\ In a trigger_writers)
  /\ (forall e s o s', Memory.handle_line py line e s = (o, s') -> s' <> s ->
     exists cmd a, json_loads py (str_strip py line) = Some cmd
       /\ py_get cmd "action" VNone = Ret (VStr a) /\ In a trigger_writers)
  /\ (forall e s o s', Shell.handle_line py line e s = (o, s') -> s' <> s ->
     exists cmd a, json_loads py (str_strip py line) = Some cmd
       /\ py_get cmd "action" VNone = Ret (VStr a) /\ In a action_writers)
  /\ (forall e s o s', Email.handle_line py line e s = (o, s') -> s' <> s ->
     exists cmd a, json_loads py (str_strip py line) = Some cmd
       /\ py_get cmd "action" VNone = Ret (VStr a) /\ In a action_writers).
Proof.
  split; [|split; [|split]]; intros e s o s' E Hne.
  - exact (disk_handle_line_writers _ _ _ _ _ _ E Hne).
  - exact (memory_handle_line_writers _ _ _ _ _ _ E Hne).
  - exact (shell_handle_line_writers _ _ _ _ _ _ E Hne).
  - exact (email_handle_line_writers _ _ _ _ _ _ E Hne).
Qed.

Lemma only_writers_change_state_witness :
  exists cmd a,
    json_loads Examples.example_lib
      (str_strip Examples.example_lib
         (Examples.jobj1 "action" (Examples.jstr "start"))) = Some cmd
    /\ py_get cmd "action" VNone = Ret (VStr a) /\ In a trigger_writers.
Proof.
  destruct (only_writers_change_state Examples.example_lib
              (Examples.jobj1 "action" (Examples.jstr "start"))) as [H _].
  apply (H (Examples.disk_env 5) Disk.init
           (fst (Disk.handle_line Examples.example_lib
                   (Examples.jobj1 "action" (Examples.jstr "start"))
                   (Examples.disk_env 5) Disk.init))
           (snd (Disk.handle_line Examples.example_lib
                   (Examples.jobj1 "action" (Examples.jstr "start"))
                   (Examples.disk_env 5) Disk.init))).
  - now destruct (Disk.handle_line Examples.example_lib
                    (Examples.jobj1 "action" (Examples.jstr "start"))
                    (Examples.disk_env 5) Disk.init).
  - intros Heq. apply (f_equal (fun s => running (Disk.life s))) in Heq.
    vm_compute in Heq. discriminate.
Defined.

(** ** Events of the memory monitor *)

Lemma fgt_irrefl q : fgt (FFin q) (FFin q) = false.
Proof.
  unfold fgt, flt, fle.
  assert (Qle_bool q q = true) as -> by (apply Qle_bool_iff, Qle_refl).
  reflexivity.
Qed.

(** X29.  The memory monitor compares strictly: a poll that reads a
    memory usage equal to the memory threshold and a swap usage equal to
    the swap threshold emits nothing.  Every event that a poll emits
    carries the snapshot that was read and a usage above its threshold,
    and is of one of two kinds: a memory event, type "memory.high", whose
    severity is "critical" above 95, "high" above 90 and "medium"
    otherwise; or a swap event, type "swap.high", whose severity is
    "critical" above 95 and "high" otherwise. *)
Theorem memory_event_classification (s : Memory.state) :
  (forall e mi,
     Memory.read_memory e = Ret mi ->
     Memory.memory_threshold s = FFin (Memory.memory_percent mi) ->
     Memory.swap_threshold s = FFin (Memory.swap_percent mi) ->
     Memory.detect_triggers e s = (None, s))
  /\ (forall e ev s1,
        Memory.detect_triggers e s = (Some ev, s1) ->
        Memory.read_memory e = Ret (Memory.ev_memory_info ev)
        /\ fgt (FFin (Memory.ev_usage_percent ev)) (Memory.ev_threshold ev) = true
        /\ ((Memory.ev_alert_type ev = "memory"
             /\ Memory.ev_type ev = "memory.high"
             /\ Memory.ev_usage_percent ev
                = Memory.memory_percent (Memory.ev_memory_info ev)
             /\ Memory.ev_threshold ev = Memory.memory_threshold s
             /\ Memory.ev_severity ev
                = if Memory.Qgt_bool (Memory.ev_usage_percent ev) 95 then "critical"
                  else if Memory.Qgt_bool (Memory.ev_usage_percent ev) 90 then "high"
                  else "medium")
            \/ (Memory.ev_alert_type ev = "swap"
                /\ Memory.ev_type ev = "swap.high"
                /\ Memory.ev_usage_percent ev
                   = Memory.swap_percent (Memory.ev_memory_info ev)
                /\ Memory.ev_threshold ev = Memory.swap_threshold s
                /\ Memory.ev_severity ev
                   = if Memory.Qgt_bool (Memory.ev_usage_percent ev) 95 then "critical"
                     else "high"))).
Proof.
  split.
  - intros e mi Hm Ht Hw. unfold Memory.detect_triggers.
    destruct (running (Memory.life s)); cbn [negb]; [|reflexivity].
    rewrite Hm, Ht, Hw, !fgt_irrefl. reflexivity.
  - intros e ev s1. unfold Memory.detect_triggers.
    destruct (running (Memory.life s)); cbn [negb]; [|discriminate].
    destruct (Memory.read_memory e) as [mi|x]; [|discriminate].
    destruct (fgt (FFin (Memory.memory_percent mi)) (Memory.memory_threshold s)) eqn:Hm;
      cbn [andb].
    + destruct (Memory._should_alert s "memory" (Memory.now e)).
      * intros E; inversion E; subst; clear E. cbn.
        split; [reflexivity|]. split; [exact Hm|]. left. auto 10.
      * destruct (fgt (FFin (Memory.swap_percent mi)) (Memory.swap_threshold s)) eqn:Hw;
          cbn [andb]; [|discriminate].
        destruct (Memory._should_alert s "swap" (Memory.now e)); [|discriminate].
        intros E; inversion E; subst; clear E. cbn.
        split; [reflexivity|]. split; [exact Hw|]. right. auto 10.
    + destruct (fgt (FFin (Memory.swap_percent mi)) (Memory.swap_threshold s)) eqn:Hw;
        cbn [andb]; [|discriminate].
      destruct (Memory._should_alert s "swap" (Memory.now e)); [|discriminate].
      intros E; inversion E; subst; clear E. cbn.
      split; [reflexivity|]. split; [exact Hw|]. right. auto 10.
Qed.

Lemma memory_event_classification_witness :
  option_map Memory.ev_severity
    (fst (Memory.detect_triggers (Examples.memory_env 1000) Examples.started_memory))
  = Some "high"
  /\ Memory.detect_triggers
       {| Memory.now := 0;
          Memory.read_memory :=
            Ret {| Memory.memory_percent := 85; Memory.total_memory := 0;
                   Memory.available_memory := 0; Memory.used_memory := 0;
                   Memory.swap_percent := 90; Memory.total_swap := 0;
                   Memory.used_swap := 0; Memory.free_swap := 0 |} |}
       Examples.started_memory
     = (None, Examples.started_memory).
Proof.
  destruct (memory_event_classification Examples.started_memory) as [H0 H].
  split.
  - destruct (Memory.detect_triggers (Examples.memory_env 1000) Examples.started_memory)
      as [[ev|] s1] eqn:E; [|vm_compute in E; discriminate].
    destruct (H _ _ _ E) as (_ & _ & [(_ & _ & Hu & _ & Hs)|(Ha & _)]).
    + cbn. rewrite Hs.
      assert (Memory.ev_usage_percent ev = 92%Q) as ->
        by (vm_compute in E; inversion E; reflexivity).
      reflexivity.
    + exfalso. vm_compute in E. inversion E; subst. discriminate Ha.
  - eapply H0; reflexivity.
Defined.
